(** * NestTask: the offline-first synchronisation of class routines

    A shallow embedding of the routine synchronisation layer:
    - the [useRoutines] hook (its two variants agree on everything but
      [loadRoutines]: the one with the retry loop is [Hook.loadRoutines],
      the one with the progressive load [Hook.loadRoutinesProgressive]),
    - the routine service: [activateRoutine], [convertTo24HourFormat] and
      [bulkImportRoutineSlots] over tables, and [fetchRoutines],
      [addRoutineSlot], [deleteRoutineSlot] and [getAllSemesters] over the
      answers of the Supabase client,
    - the diagnostics of the hook ([runServiceDiagnostics]),
    - what the routine page derives from the routines ([currentRoutine],
      [enrichedSlots], [filteredSlots]).

    Asynchronous functions are run to completion: an [await] is a plain
    sequencing point.  React state, the IndexedDB store, localStorage and the
    backend are fields of one explicit [World]; a promise that rejects is a
    [Throw]. *)

From stdpp Require Import base list strings option pretty gmap.
From Stdlib Require Import Ascii.

(** ** Results of fallible calls *)

Inductive result (A : Type) : Type :=
| Ok (a : A)
| Throw (msg : string).
Arguments Ok {A} a.
Arguments Throw {A} msg.

Definition is_ok {A} (r : result A) : bool :=
  match r with Ok _ => true | Throw _ => false end.

(** ** Data model ([types/routine]) *)

Module Slot.
Record t : Type := mk {
  id : string;
  routineId : string;
  dayOfWeek : string;
  startTime : string;
  endTime : string;
  roomNumber : string;
  section : string;
  courseId : string;
  teacherId : string;
  courseName : string;
  courseCode : string;
  teacherName : string;
  createdAt : string;
  _isOffline : bool;
  _isOfflineUpdated : bool;
  _isOfflineDeleted : bool
}.

Definition with_id (v : string) (s : t) : t :=
  mk v (routineId s) (dayOfWeek s) (startTime s) (endTime s) (roomNumber s)
     (section s) (courseId s) (teacherId s) (courseName s) (courseCode s)
     (teacherName s) (createdAt s) (_isOffline s) (_isOfflineUpdated s)
     (_isOfflineDeleted s).

Definition with_routineId (v : string) (s : t) : t :=
  mk (id s) v (dayOfWeek s) (startTime s) (endTime s) (roomNumber s)
     (section s) (courseId s) (teacherId s) (courseName s) (courseCode s)
     (teacherName s) (createdAt s) (_isOffline s) (_isOfflineUpdated s)
     (_isOfflineDeleted s).

Definition with_createdAt (v : string) (s : t) : t :=
  mk (id s) (routineId s) (dayOfWeek s) (startTime s) (endTime s)
     (roomNumber s) (section s) (courseId s) (teacherId s) (courseName s)
     (courseCode s) (teacherName s) v (_isOffline s) (_isOfflineUpdated s)
     (_isOfflineDeleted s).

Definition with_isOffline (v : bool) (s : t) : t :=
  mk (id s) (routineId s) (dayOfWeek s) (startTime s) (endTime s)
     (roomNumber s) (section s) (courseId s) (teacherId s) (courseName s)
     (courseCode s) (teacherName s) (createdAt s) v (_isOfflineUpdated s)
     (_isOfflineDeleted s).

Definition with_isOfflineUpdated (v : bool) (s : t) : t :=
  mk (id s) (routineId s) (dayOfWeek s) (startTime s) (endTime s)
     (roomNumber s) (section s) (courseId s) (teacherId s) (courseName s)
     (courseCode s) (teacherName s) (createdAt s) (_isOffline s) v
     (_isOfflineDeleted s).

Definition with_isOfflineDeleted (v : bool) (s : t) : t :=
  mk (id s) (routineId s) (dayOfWeek s) (startTime s) (endTime s)
     (roomNumber s) (section s) (courseId s) (teacherId s) (courseName s)
     (courseCode s) (teacherName s) (createdAt s) (_isOffline s)
     (_isOfflineUpdated s) v.

Definition with_names (cName cCode tName : string) (s : t) : t :=
  mk (id s) (routineId s) (dayOfWeek s) (startTime s) (endTime s)
     (roomNumber s) (section s) (courseId s) (teacherId s) cName cCode tName
     (createdAt s) (_isOffline s) (_isOfflineUpdated s) (_isOfflineDeleted s).

(** [slot._isOffline || slot._isOfflineUpdated || slot._isOfflineDeleted] *)
Definition pending (s : t) : bool :=
  _isOffline s || _isOfflineUpdated s || _isOfflineDeleted s.

(** [Partial<RoutineSlot>]: the fields an update gives; [None] is a field
    the update leaves out. *)
Record patch : Type := mkPatch {
  p_id : option string;
  p_routineId : option string;
  p_dayOfWeek : option string;
  p_startTime : option string;
  p_endTime : option string;
  p_roomNumber : option string;
  p_section : option string;
  p_courseId : option string;
  p_teacherId : option string;
  p_courseName : option string;
  p_courseCode : option string;
  p_teacherName : option string;
  p_createdAt : option string;
  p_isOffline : option bool;
  p_isOfflineUpdated : option bool;
  p_isOfflineDeleted : option bool
}.

(** [{ ...slot, ...updates }] *)
Definition apply (u : patch) (s : t) : t :=
  mk (default (id s) (p_id u)) (default (routineId s) (p_routineId u))
     (default (dayOfWeek s) (p_dayOfWeek u))
     (default (startTime s) (p_startTime u))
     (default (endTime s) (p_endTime u))
     (default (roomNumber s) (p_roomNumber u))
     (default (section s) (p_section u))
     (default (courseId s) (p_courseId u))
     (default (teacherId s) (p_teacherId u))
     (default (courseName s) (p_courseName u))
     (default (courseCode s) (p_courseCode u))
     (default (teacherName s) (p_teacherName u))
     (default (createdAt s) (p_createdAt u))
     (default (_isOffline s) (p_isOffline u))
     (default (_isOfflineUpdated s) (p_isOfflineUpdated u))
     (default (_isOfflineDeleted s) (p_isOfflineDeleted u)).

(** The update as the payload of a request: the fields it leaves out are
    empty. *)
Definition payload (u : patch) : t :=
  apply u (mk "" "" "" "" "" "" "" "" "" "" "" "" "" false false false).
End Slot.

Module Routine.
Record t : Type := mk {
  id : string;
  name : string;
  description : string;
  semester : string;
  isActive : bool;
  createdAt : string;
  createdBy : string;
  slots : list Slot.t;
  _isOffline : bool;
  _isOfflineUpdated : bool;
  _isOfflineDeleted : bool;
  _needsActivationSync : bool;
  _needsDeactivationSync : bool
}.

Definition with_id (v : string) (r : t) : t :=
  mk v (name r) (description r) (semester r) (isActive r) (createdAt r)
     (createdBy r) (slots r) (_isOffline r) (_isOfflineUpdated r)
     (_isOfflineDeleted r) (_needsActivationSync r) (_needsDeactivationSync r).

Definition with_isActive (v : bool) (r : t) : t :=
  mk (id r) (name r) (description r) (semester r) v (createdAt r)
     (createdBy r) (slots r) (_isOffline r) (_isOfflineUpdated r)
     (_isOfflineDeleted r) (_needsActivationSync r) (_needsDeactivationSync r).

Definition with_createdAt (v : string) (r : t) : t :=
  mk (id r) (name r) (description r) (semester r) (isActive r) v
     (createdBy r) (slots r) (_isOffline r) (_isOfflineUpdated r)
     (_isOfflineDeleted r) (_needsActivationSync r) (_needsDeactivationSync r).

Definition with_slots (v : list Slot.t) (r : t) : t :=
  mk (id r) (name r) (description r) (semester r) (isActive r) (createdAt r)
     (createdBy r) v (_isOffline r) (_isOfflineUpdated r)
     (_isOfflineDeleted r) (_needsActivationSync r) (_needsDeactivationSync r).

Definition with_isOffline (v : bool) (r : t) : t :=
  mk (id r) (name r) (description r) (semester r) (isActive r) (createdAt r)
     (createdBy r) (slots r) v (_isOfflineUpdated r)
     (_isOfflineDeleted r) (_needsActivationSync r) (_needsDeactivationSync r).

Definition with_isOfflineUpdated (v : bool) (r : t) : t :=
  mk (id r) (name r) (description r) (semester r) (isActive r) (createdAt r)
     (createdBy r) (slots r) (_isOffline r) v
     (_isOfflineDeleted r) (_needsActivationSync r) (_needsDeactivationSync r).

Definition with_isOfflineDeleted (v : bool) (r : t) : t :=
  mk (id r) (name r) (description r) (semester r) (isActive r) (createdAt r)
     (createdBy r) (slots r) (_isOffline r) (_isOfflineUpdated r)
     v (_needsActivationSync r) (_needsDeactivationSync r).

Definition with_needsActivationSync (v : bool) (r : t) : t :=
  mk (id r) (name r) (description r) (semester r) (isActive r) (createdAt r)
     (createdBy r) (slots r) (_isOffline r) (_isOfflineUpdated r)
     (_isOfflineDeleted r) v (_needsDeactivationSync r).

Definition with_needsDeactivationSync (v : bool) (r : t) : t :=
  mk (id r) (name r) (description r) (semester r) (isActive r) (createdAt r)
     (createdBy r) (slots r) (_isOffline r) (_isOfflineUpdated r)
     (_isOfflineDeleted r) (_needsActivationSync r) v.

(** [r.slots && r.slots.length > 0] *)
Definition hasSlotData (r : t) : bool :=
  match slots r with [] => false | _ :: _ => true end.

(** [Partial<Routine>]: the fields an update gives; [None] is a field the
    update leaves out. *)
Record patch : Type := mkPatch {
  p_id : option string;
  p_name : option string;
  p_description : option string;
  p_semester : option string;
  p_isActive : option bool;
  p_createdAt : option string;
  p_createdBy : option string;
  p_slots : option (list Slot.t);
  p_isOffline : option bool;
  p_isOfflineUpdated : option bool;
  p_isOfflineDeleted : option bool;
  p_needsActivationSync : option bool;
  p_needsDeactivationSync : option bool
}.

(** [{ ...routine, ...updates }] *)
Definition apply (u : patch) (r : t) : t :=
  mk (default (id r) (p_id u)) (default (name r) (p_name u))
     (default (description r) (p_description u))
     (default (semester r) (p_semester u))
     (default (isActive r) (p_isActive u))
     (default (createdAt r) (p_createdAt u))
     (default (createdBy r) (p_createdBy u))
     (default (slots r) (p_slots u))
     (default (_isOffline r) (p_isOffline u))
     (default (_isOfflineUpdated r) (p_isOfflineUpdated u))
     (default (_isOfflineDeleted r) (p_isOfflineDeleted u))
     (default (_needsActivationSync r) (p_needsActivationSync u))
     (default (_needsDeactivationSync r) (p_needsDeactivationSync u)).

(** The update as the payload of a request: the fields it leaves out are
    empty. *)
Definition payload (u : patch) : t :=
  apply u (mk "" "" "" "" false "" "" [] false false false false false).
End Routine.

(** [routines.some(r => r.slots && r.slots.length > 0)] *)
Definition someHaveSlots (rs : list Routine.t) : bool :=
  existsb Routine.hasSlotData rs.

(** The temporary ids synthesised by the offline [createRoutine] and
    [addRoutineSlot] start with [temp-]. *)
Definition isTempId (i : string) : bool := String.prefix "temp-" i.

(** ** JavaScript string primitives used by the service *)

Module Js.

(** [s.split(c)] for a one-character separator: never the empty list. *)
Fixpoint split_go (c : ascii) (cur : string) (s : string) : list string :=
  match s with
  | EmptyString => [String.rev cur]
  | String a s' =>
      if Ascii.eqb a c then String.rev cur :: split_go c EmptyString s'
      else split_go c (String a cur) s'
  end.
Definition split (c : ascii) (s : string) : list string :=
  split_go c EmptyString s.

Fixpoint trimStart (s : string) : string :=
  match s with
  | String a s' => if Ascii.is_space a then trimStart s' else s
  | EmptyString => EmptyString
  end.

(** [s.trim()], on the ASCII white space characters. *)
Definition trim (s : string) : string :=
  String.rev (trimStart (String.rev (trimStart s))).

Definition upper_ascii (a : ascii) : ascii :=
  let n := nat_of_ascii a in
  if (97 <=? n)%nat && (n <=? 122)%nat then ascii_of_nat (n - 32) else a.

(** [s.toUpperCase()], on the ASCII letters. *)
Fixpoint toUpperCase (s : string) : string :=
  match s with
  | EmptyString => EmptyString
  | String a s' => String (upper_ascii a) (toUpperCase s')
  end.

(** [s.padStart(2, '0')] *)
Definition padStart2 (s : string) : string :=
  match String.length s with
  | 0 => "00"
  | 1 => "0" +:+ s
  | _ => s
  end.

(** [s.includes(c)] for a character *)
Fixpoint contains (c : ascii) (s : string) : bool :=
  match s with
  | EmptyString => false
  | String a s' => Ascii.eqb a c || contains c s'
  end.

(** A string used as a condition: [''] is falsy. *)
Definition truthy (s : string) : bool :=
  match s with EmptyString => false | _ => true end.

Definition lower_ascii (a : ascii) : ascii :=
  let n := nat_of_ascii a in
  if (65 <=? n)%nat && (n <=? 90)%nat then ascii_of_nat (n + 32) else a.

(** [s.toLowerCase()], on the ASCII letters. *)
Fixpoint toLowerCase (s : string) : string :=
  match s with
  | EmptyString => EmptyString
  | String a s' => String (lower_ascii a) (toLowerCase s')
  end.

(** [s.includes(t)] *)
Fixpoint includes (s t : string) : bool :=
  String.prefix t s ||
  match s with
  | EmptyString => false
  | String _ s' => includes s' t
  end.

(** [s || null] for a string. *)
Definition textOrNull (s : string) : option string :=
  if truthy s then Some s else None.

(** [v || null] for an optional string. *)
Definition orNull (v : option string) : option string :=
  match v with
  | Some s => if truthy s then Some s else None
  | None => None
  end.

(** The numbers of JavaScript, as far as [convertTo24HourFormat] uses them.
    The interface is kept abstract so that what is proved of the conversion
    holds for every text [Number] may be given (fractions, exponents, [NaN]
    included). *)
Class Numeric : Type := {
  num : Type;
  Number : string → num;
  lt12 : num → bool;       (* [hours < 12] *)
  eq12 : num → bool;       (* [hours === 12] *)
  plus12 : num → num;      (* [hours += 12] *)
  zero : num;              (* [hours = 0] *)
  toString : num → string  (* [n.toString()] *)
}.

Fixpoint digits_go (s : string) (acc : nat) : option nat :=
  match s with
  | EmptyString => Some acc
  | String a s' =>
      match Ascii.is_nat a with
      | Some d => digits_go s' (10 * acc + d)
      | None => None
      end
  end.

(** [Number] on the texts made of decimal digits (and on the empty text,
    which is 0); [None] is [NaN], and every other text is read as [NaN]. *)
Definition NumberDec (s : string) : option nat := digits_go (trim s) 0.

Definition DecimalNumeric : Numeric := {|
  num := option nat;
  Number := NumberDec;
  lt12 := λ n, match n with Some k => (k <? 12)%nat | None => false end;
  eq12 := λ n, match n with Some k => (k =? 12)%nat | None => false end;
  plus12 := λ n, match n with Some k => Some (k + 12) | None => None end;
  zero := Some 0;
  toString := λ n, match n with Some k => pretty k | None => "NaN" end
|}.

End Js.

(** ** The backend behind the service *)

Module Db.

Record RoutineRow : Type := mkRoutineRow {
  id : string;
  name : string;
  description : string;
  semester : string;
  is_active : bool;
  created_at : string;
  created_by : string
}.

Definition set_is_active (v : bool) (r : RoutineRow) : RoutineRow :=
  mkRoutineRow (id r) (name r) (description r) (semester r) v
               (created_at r) (created_by r).

(** A row of [routine_slots]; [id] and [created_at], which the backend
    assigns and the import never reads, are left out. *)
Record SlotRow : Type := mkSlotRow {
  routine_id : string;
  course_id : option string;
  teacher_id : option string;
  course_name : option string;
  teacher_name : option string;
  day_of_week : string;
  start_time : string;
  end_time : string;
  room_number : option string;
  section : option string
}.

Record CourseRow : Type := mkCourseRow {
  c_id : string;
  c_name : string;
  c_code : string
}.

Record TeacherRow : Type := mkTeacherRow {
  t_id : string;
  t_name : string
}.

(** The tables, and which requests fail: [faults n] is the error the backend
    answers to the [n]-th request ([None]: the request is served). *)
Record t : Type := mk {
  routines : list RoutineRow;
  routine_slots : list SlotRow;
  courses : list CourseRow;
  teachers : list TeacherRow;
  requests : nat;
  faults : nat → option string
}.

Definition set_routines (v : list RoutineRow) (db : t) : t :=
  mk v (routine_slots db) (courses db) (teachers db) (requests db) (faults db).

Definition set_routine_slots (v : list SlotRow) (db : t) : t :=
  mk (routines db) v (courses db) (teachers db) (requests db) (faults db).

(** One request reaches the backend: its error, if any, and the backend
    with the request counted. *)
Definition request (db : t) : option string * t :=
  (faults db (requests db),
   mk (routines db) (routine_slots db) (courses db) (teachers db)
      (S (requests db)) (faults db)).

(** Modelled from the spec: the schema of [routine_slots] is not among the
    sources; [start_time] and [end_time] are time-of-day values, compared
    here through the zero-padded [HH:MM:SS] text the import writes, whose
    text order is the order of the times. *)
Definition time_lte (a b : string) : bool := String.leb a b.
Definition time_lt (a b : string) : bool := String.ltb a b.

End Db.

(** ** The routine service ([services/routine.service]) *)

Module Service.

(** [activateRoutine]: two updates, one after the other. *)
Definition activateRoutine (routineId : string) (db : Db.t)
  : result unit * Db.t :=
  (* update({ is_active: false }).neq('id', routineId) *)
  let '(deactivateError, db) := Db.request db in
  match deactivateError with
  | Some msg => (Throw msg, db)
  | None =>
      let db := Db.set_routines
        ((λ r, if decide (Db.id r ≠ routineId)
               then Db.set_is_active false r else r) <$> Db.routines db) db in
      (* update({ is_active: true }).eq('id', routineId) *)
      let '(activateError, db) := Db.request db in
      match activateError with
      | Some msg => (Throw msg, db)
      | None =>
          (Ok (),
           Db.set_routines
             ((λ r, if decide (Db.id r = routineId)
                    then Db.set_is_active true r else r) <$> Db.routines db)
             db)
      end
  end.

(** [deactivateRoutine] *)
Definition deactivateRoutine (routineId : string) (db : Db.t)
  : result unit * Db.t :=
  let '(error, db) := Db.request db in
  match error with
  | Some msg => (Throw msg, db)
  | None =>
      (Ok (),
       Db.set_routines
         ((λ r, if decide (Db.id r = routineId)
                then Db.set_is_active false r else r) <$> Db.routines db)
         db)
  end.

Section BulkImport.
Context `{Js.Numeric}.

(** The [try] block of [convertTo24HourFormat]: [None] when it throws, which
    happens on [amPmPart.toUpperCase()] when the text has no space, and on
    [minutes.toString()] when the part before the space has no colon. *)
Definition convertTo24HourFormat_try (timeString : string) : option string :=
  let parts := Js.split " " timeString in
  let timePart := default EmptyString (parts !! 0) in
  let amPmPart := parts !! 1 in
  let nums := Js.Number <$> Js.split ":" timePart in
  let hours := default Js.zero (nums !! 0) in
  let minutes := nums !! 1 in
  match amPmPart with
  | None => None
  | Some amPm =>
      let hours :=
        if bool_decide (Js.toUpperCase amPm = "PM") && Js.lt12 hours
        then Js.plus12 hours
        else if bool_decide (Js.toUpperCase amPm = "AM") && Js.eq12 hours
        then Js.zero
        else hours in
      match minutes with
      | None => None
      | Some minutes =>
          Some (Js.padStart2 (Js.toString hours) +:+ ":" +:+
                Js.padStart2 (Js.toString minutes) +:+ ":00")
      end
  end.

(** [convertTo24HourFormat]: the [catch] returns the text it was given. *)
Definition convertTo24HourFormat (timeString : string) : string :=
  default timeString (convertTo24HourFormat_try timeString).

(** The texts on which the [try] block of the conversion throws: those
    without a space, and those whose part before the first space has no
    colon. *)
Definition unconvertible (timeString : string) : bool :=
  negb (Js.contains " " timeString) ||
  negb (Js.contains ":" (default EmptyString (Js.split " " timeString !! 0))).

(** A row of the imported JSON.  [teacher] is a required text in the
    declared type, but the rows come from a parsed file: a row without it is
    [None] (and makes [slot.teacher.trim()] throw). *)
Record ImportRow : Type := mkImportRow {
  day : string;
  start_time : string;
  end_time : string;
  course : option string;
  course_title : option string;
  course_code : option string;
  teacher : option string;
  room_number : option string;
  section : option string;
  _teacherId : option string;
  _courseId : option string
}.

(** [{ success, errors }]; an error is its [message]. *)
Record Report : Type := mkReport {
  success : nat;
  errors : list string
}.

(** The local variables of [bulkImportRoutineSlots] that the loop over the
    rows updates, with the backend. *)
Record ImportState : Type := mkImportState {
  db : Db.t;
  courseCache : gmap string (option string);
  teacherCache : gmap string (option string);
  processedSlots : list Db.SlotRow;
  import_errors : list string
}.

(** PostgreSQL's [ILIKE] (pattern first) is a parameter. *)
Variable ilike : string → string → bool.

(** The tables and the faults of a backend, without the count of requests. *)
Definition tables (d : Db.t) :=
  (Db.routines d, Db.routine_slots d, Db.courses d, Db.teachers d,
   Db.faults d).

(** What the lookups of a row keep: the tables, the rows processed so far
    and the errors. *)
Definition sameImport (st st' : ImportState) : Prop :=
  tables (db st') = tables (db st) ∧
  processedSlots st' = processedSlots st ∧
  import_errors st' = import_errors st.

(** [extractCourseCode] *)
Definition extractCourseCode (courseName : string) : string :=
  let parts := Js.split "-" courseName in
  if (2 <=? length parts)%nat
  then Js.trim (default EmptyString (last parts))
  else Js.trim courseName.

(** [.select('id').eq('id', routineId).single()] on [routines] *)
Definition select_routine (routineId : string) (d : Db.t)
  : option Db.RoutineRow * Db.t :=
  let '(error, d) := Db.request d in
  match error with
  | Some _ => (None, d)
  | None =>
      match filter (λ r, Db.id r = routineId) (Db.routines d) with
      | [r] => (Some r, d)
      | _ => (None, d)
      end
  end.

(** [.ilike('code', courseCode).limit(1).single()] on [courses] *)
Definition select_course_by_code (courseCode : string) (d : Db.t)
  : option Db.CourseRow * Db.t :=
  let '(error, d) := Db.request d in
  match error with
  | Some _ => (None, d)
  | None => (head (List.filter (λ c, ilike courseCode (Db.c_code c))
                               (Db.courses d)), d)
  end.

(** [.eq('id', courseId).single()] on [courses] *)
Definition select_course_by_id (courseId : string) (d : Db.t)
  : option Db.CourseRow * Db.t :=
  let '(error, d) := Db.request d in
  match error with
  | Some _ => (None, d)
  | None =>
      match filter (λ c, Db.c_id c = courseId) (Db.courses d) with
      | [c] => (Some c, d)
      | _ => (None, d)
      end
  end.

(** [.ilike('name', teacherNameToSearch).limit(1).single()] on [teachers] *)
Definition select_teacher_by_name (teacherName : string) (d : Db.t)
  : option Db.TeacherRow * Db.t :=
  let '(error, d) := Db.request d in
  match error with
  | Some _ => (None, d)
  | None => (head (List.filter (λ c, ilike teacherName (Db.t_name c))
                               (Db.teachers d)), d)
  end.

(** [.eq('id', teacherId).single()] on [teachers] *)
Definition select_teacher_by_id (teacherId : string) (d : Db.t)
  : option Db.TeacherRow * Db.t :=
  let '(error, d) := Db.request d in
  match error with
  | Some _ => (None, d)
  | None =>
      match filter (λ c, Db.t_id c = teacherId) (Db.teachers d) with
      | [c] => (Some c, d)
      | _ => (None, d)
      end
  end.

(** The filter of the conflict query:
    [.eq('routine_id', routineId).eq('day_of_week', slot.day)
     .or(`start_time.lte.${endTime},end_time.gte.${startTime}`)] *)
Definition conflict_filter (routineId day startTime endTime : string)
    (existing : Db.SlotRow) : bool :=
  bool_decide (Db.routine_id existing = routineId) &&
  bool_decide (Db.day_of_week existing = day) &&
  (Db.time_lte (Db.start_time existing) endTime ||
   Db.time_lte startTime (Db.end_time existing)).

(** The overlap as the specification words it:
    [existing.start < new.end AND existing.end > new.start]. *)
Definition spec_overlap (startTime endTime : string) (existing : Db.SlotRow)
  : bool :=
  Db.time_lt (Db.start_time existing) endTime &&
  Db.time_lt startTime (Db.end_time existing).

(** The conflict query with its [.limit(1)]: [None] is [data: null]. *)
Definition select_conflicts (routineId day startTime endTime : string)
    (d : Db.t) : option (list Db.SlotRow) * Db.t :=
  let '(conflictError, d) := Db.request d in
  match conflictError with
  | Some _ => (None, d)
  | None =>
      (Some (take 1 (List.filter
                       (conflict_filter routineId day startTime endTime)
                       (Db.routine_slots d))), d)
  end.

(** [.insert(rows).select()] on [routine_slots]: the rows as stored. *)
Definition insert_slots (rows : list Db.SlotRow) (d : Db.t)
  : result (list Db.SlotRow) * Db.t :=
  let '(error, d) := Db.request d in
  match error with
  | Some msg => (Throw msg, d)
  | None => (Ok rows, Db.set_routine_slots (Db.routine_slots d ++ rows) d)
  end.

(** The message of the [TypeError] of [slot.teacher.trim()] on a row
    without teacher (the text is the engine's). *)
Definition teacher_undefined_message : string :=
  "Cannot read properties of undefined (reading 'trim')".

(** The course part of one row: the course id and name, the cache and the
    backend after it. *)
Definition resolve_course (slot : ImportRow) (st : ImportState)
  : option string * option string * ImportState :=
  match Js.orNull (_courseId slot) with
  | None =>
      let '(courseCode, courseName) :=
        match Js.orNull (course_code slot) with
        | Some cc => (Js.trim cc, Js.orNull (course_title slot))
        | None =>
            match Js.orNull (course slot) with
            | Some c =>
                (extractCourseCode c,
                 Js.orNull (Js.trim <$> head (Js.split "-" c)))
            | None => (EmptyString, None)
            end
        end in
      if Js.truthy courseCode then
        match courseCache st !! courseCode with
        | Some cached => (Js.orNull cached, courseName, st)
        | None =>
            let '(found, d) := select_course_by_code courseCode (db st) in
            let courseId :=
              match found with
              | Some c => Js.orNull (Some (Db.c_id c))
              | None => None
              end in
            let courseName :=
              match found with
              | Some c =>
                  if Js.truthy (Db.c_name c) then Some (Db.c_name c)
                  else courseName
              | None => courseName
              end in
            (courseId, courseName,
             mkImportState d (<[courseCode := courseId]> (courseCache st))
                           (teacherCache st) (processedSlots st)
                           (import_errors st))
        end
      else (None, courseName, st)
  | Some courseId =>
      let '(found, d) := select_course_by_id courseId (db st) in
      (Some courseId, Db.c_name <$> found,
       mkImportState d (courseCache st) (teacherCache st)
                     (processedSlots st) (import_errors st))
  end.

(** The teacher part of one row; [Throw] when [slot.teacher.trim()] does. *)
Definition resolve_teacher (slot : ImportRow) (st : ImportState)
  : result (option string * option string) * ImportState :=
  match Js.orNull (_teacherId slot) with
  | None =>
      match teacher slot with
      | None => (Throw teacher_undefined_message, st)
      | Some t =>
          let teacherNameToSearch := Js.trim t in
          match teacherCache st !! teacherNameToSearch with
          | Some cached =>
              (Ok (Js.orNull cached, Some teacherNameToSearch), st)
          | None =>
              let '(found, d) :=
                select_teacher_by_name teacherNameToSearch (db st) in
              let teacherId :=
                match found with
                | Some c => Js.orNull (Some (Db.t_id c))
                | None => None
                end in
              (Ok (teacherId, Some teacherNameToSearch),
               mkImportState d (courseCache st)
                 (<[teacherNameToSearch := teacherId]> (teacherCache st))
                 (processedSlots st) (import_errors st))
          end
      end
  | Some teacherId =>
      let '(found, d) := select_teacher_by_id teacherId (db st) in
      (Ok (Some teacherId,
           match found with
           | Some c => Some (Db.t_name c)
           | None => teacher slot
           end),
       mkImportState d (courseCache st) (teacherCache st)
                     (processedSlots st) (import_errors st))
  end.

Definition push_error (msg : string) (st : ImportState) : ImportState :=
  mkImportState (db st) (courseCache st) (teacherCache st)
                (processedSlots st) (import_errors st ++ [msg]).

(** The body of the loop over [slotsData.entries()]. *)
Definition process_slot (routineId : string) (index : nat) (slot : ImportRow)
    (st : ImportState) : ImportState :=
  let '(courseId, courseName, st) := resolve_course slot st in
  let '(resolved, st) := resolve_teacher slot st in
  match resolved with
  | Throw msg =>
      push_error ("Error processing slot #" +:+ pretty (index + 1) +:+ ": "
                  +:+ msg) st
  | Ok (teacherId, teacherName) =>
      let startTime := convertTo24HourFormat (start_time slot) in
      let endTime := convertTo24HourFormat (end_time slot) in
      let '(conflicts, d) :=
        select_conflicts routineId (day slot) startTime endTime (db st) in
      let st := mkImportState d (courseCache st) (teacherCache st)
                              (processedSlots st) (import_errors st) in
      match conflicts with
      | Some (_ :: _) =>
          push_error ("Slot #" +:+ pretty (index + 1) +:+
                      ": Time conflict with existing slot on " +:+ day slot
                      +:+ " at " +:+ start_time slot +:+ " - "
                      +:+ end_time slot) st
      | _ =>
          mkImportState (db st) (courseCache st) (teacherCache st)
            (processedSlots st ++
             [Db.mkSlotRow routineId courseId teacherId courseName teacherName
                (day slot) startTime endTime (Js.orNull (room_number slot))
                (Js.orNull (section slot))])
            (import_errors st)
      end
  end.

Fixpoint process_slots (routineId : string) (index : nat)
    (slotsData : list ImportRow) (st : ImportState) : ImportState :=
  match slotsData with
  | [] => st
  | slot :: rest =>
      process_slots routineId (S index) rest
        (process_slot routineId index slot st)
  end.

(** The rows of the fallback insert: without [course_name], [teacher_name]. *)
Definition fallbackSlot (slot : Db.SlotRow) : Db.SlotRow :=
  Db.mkSlotRow (Db.routine_id slot) (Db.course_id slot) (Db.teacher_id slot)
    None None (Db.day_of_week slot) (Db.start_time slot) (Db.end_time slot)
    (Db.room_number slot) (Db.section slot).

(** [bulkImportRoutineSlots] *)
Definition bulkImportRoutineSlots (routineId : string)
    (slotsData : list ImportRow) (d : Db.t) : Report * Db.t :=
  let '(routine, d) := select_routine routineId d in
  match routine with
  | None =>
      (mkReport 0 ["Invalid routine ID: Routine not found"], d)
  | Some _ =>
      let st := process_slots routineId 0 slotsData
                  (mkImportState d ∅ ∅ [] []) in
      match processedSlots st with
      | [] => (mkReport 0 (import_errors st), db st)
      | _ :: _ =>
          let '(inserted, d) := insert_slots (processedSlots st) (db st) in
          match inserted with
          | Ok data => (mkReport (length data) (import_errors st), d)
          | Throw _ =>
              let '(inserted, d) :=
                insert_slots (fallbackSlot <$> processedSlots st) d in
              match inserted with
              | Ok data => (mkReport (length data) (import_errors st), d)
              | Throw msg =>
                  (mkReport 0
                     (import_errors st ++
                      ["Database error during import: " +:+ msg]), d)
              end
          end
      end
  end.

End BulkImport.
End Service.

(** ** The Local Store ([utils/offlineStorage]) *)

Module LocalStore.

(** Modelled from the spec: [utils/offlineStorage] (saveToIndexedDB,
    getAllFromIndexedDB, clearIndexedDBStore) is not among the sources.  The
    store is a collection keyed by entity id whose writes are whole-item
    replacements: saving an item replaces the stored item of the same id, or
    adds it; saving a list saves its items one by one; nothing but [clear]
    removes an item.  The content is kept as the list [getAll] returns. *)
Definition put (item : Routine.t) (store : list Routine.t) : list Routine.t :=
  match list_find (λ r, Routine.id r = Routine.id item) store with
  | Some (i, _) => <[i := item]> store
  | None => store ++ [item]
  end.

Definition putAll (items : list Routine.t) (store : list Routine.t)
  : list Routine.t :=
  foldl (λ st item, put item st) store items.

Definition clear (store : list Routine.t) : list Routine.t := [].

End LocalStore.

(** ** The [useRoutines] hook *)

Module Hook.

(** A row of [routine_slots] as [select('*')] returns it. *)
Record RawSlot : Type := mkRawSlot {
  raw_id : string;
  raw_routine_id : string;
  raw_day_of_week : string;
  raw_start_time : string;
  raw_end_time : string;
  raw_room_number : option string;
  raw_section : option string;
  raw_course_id : option string;
  raw_teacher_id : option string;
  raw_created_at : string
}.

(** The requests the hook sends, through the service or to the backend
    directly.  The payload of a create or update is the entity with the
    fields the source strips set to their empty value. *)
Inductive Call : Type :=
| FetchRoutines
| SelectRoutines
| SelectSlots (routineId : string)
| SelectCourses (ids : list string)
| SelectTeachers (ids : list string)
| RunDiagnostics
| CreateRoutine (routine : Routine.t)
| UpdateRoutine (id : string) (updates : Routine.t)
| DeleteRoutine (id : string)
| AddRoutineSlot (routineId : string) (slot : Slot.t)
| UpdateRoutineSlot (routineId slotId : string) (updates : Slot.t)
| DeleteRoutineSlot (routineId slotId : string)
| ActivateRoutine (routineId : string)
| DeactivateRoutine (routineId : string)
| BulkImportRoutineSlots (routineId : string)
                         (slotsData : list Service.ImportRow).

(** What the hook does outside its own state: reads and writes of the
    IndexedDB store, and requests. *)
Inductive Event : Type :=
| StoreRead
| StoreWrite
| StoreClear
| Remote (c : Call).

(** The requests of a log, in order. *)
Definition remoteCalls (log : list Event) : list Call :=
  omap (λ e, match e with Remote c => Some c | _ => None end) log.

(** The [fetchRoutines] requests of a log, counted. *)
Definition isFetch (e : Event) : bool :=
  match e with Remote FetchRoutines => true | _ => false end.

Definition fetches (log : list Event) : nat :=
  length (List.filter isFetch log).

Section WithGateway.

(** [G] is the state of the backend, [D] the report of the diagnostics. *)
Context {G D : Type}.

(** The remote gateway as the hook sees it: every request takes the backend
    from one state to the next and is answered or throws.  A [select] is
    answered with [None] for [data: null]. *)
Record Gateway : Type := mkGateway {
  fetchRoutines : G → result (list Routine.t) * G;
  selectRoutines : G → result (option (list Db.RoutineRow)) * G;
  selectSlots : string → G → result (option (list RawSlot)) * G;
  selectCourses : list string → G → result (option (list Db.CourseRow)) * G;
  selectTeachers : list string → G → result (option (list Db.TeacherRow)) * G;
  runServiceDiagnostics : G → D * G;
  createRoutineService : Routine.t → G → result Routine.t * G;
  updateRoutineService : string → Routine.t → G → result unit * G;
  deleteRoutineService : string → G → result unit * G;
  addRoutineSlotService : string → Slot.t → G → result Slot.t * G;
  updateRoutineSlotService : string → string → Slot.t → G → result unit * G;
  deleteRoutineSlotService : string → string → G → result unit * G;
  activateRoutineService : string → G → result unit * G;
  deactivateRoutineService : string → G → result unit * G;
  bulkImportRoutineSlotsService :
    string → list Service.ImportRow → G → result Service.Report * G
}.

Variable gw : Gateway.

(** The state of the hook ([useState]), the connectivity
    ([useOfflineStatus]), the IndexedDB store of routines, the
    [routines_last_fetched] entry of localStorage, the clock, the backend,
    and the log of what was done. *)
Record World : Type := mkWorld {
  routines : list Routine.t;
  loading : bool;
  error : option string;
  syncInProgress : bool;
  diagnosticState : option D;
  isOffline : bool;
  idb : list Routine.t;
  lastFetched : option Z;
  now : Z;
  remote : G;
  log : list Event
}.

Definition set_routines (v : list Routine.t) (w : World) : World :=
  mkWorld v (loading w) (error w) (syncInProgress w) (diagnosticState w)
          (isOffline w) (idb w) (lastFetched w) (now w) (remote w) (log w).
Definition set_loading (v : bool) (w : World) : World :=
  mkWorld (routines w) v (error w) (syncInProgress w) (diagnosticState w)
          (isOffline w) (idb w) (lastFetched w) (now w) (remote w) (log w).
Definition set_error (v : option string) (w : World) : World :=
  mkWorld (routines w) (loading w) v (syncInProgress w) (diagnosticState w)
          (isOffline w) (idb w) (lastFetched w) (now w) (remote w) (log w).
Definition set_syncInProgress (v : bool) (w : World) : World :=
  mkWorld (routines w) (loading w) (error w) v (diagnosticState w)
          (isOffline w) (idb w) (lastFetched w) (now w) (remote w) (log w).
Definition set_diagnosticState (v : option D) (w : World) : World :=
  mkWorld (routines w) (loading w) (error w) (syncInProgress w) v
          (isOffline w) (idb w) (lastFetched w) (now w) (remote w) (log w).
Definition set_isOffline (v : bool) (w : World) : World :=
  mkWorld (routines w) (loading w) (error w) (syncInProgress w)
          (diagnosticState w) v (idb w) (lastFetched w) (now w) (remote w)
          (log w).

Definition set_idb (v : list Routine.t) (w : World) : World :=
  mkWorld (routines w) (loading w) (error w) (syncInProgress w)
          (diagnosticState w) (isOffline w) v (lastFetched w) (now w)
          (remote w) (log w).
Definition set_lastFetched (v : option Z) (w : World) : World :=
  mkWorld (routines w) (loading w) (error w) (syncInProgress w)
          (diagnosticState w) (isOffline w) (idb w) v (now w) (remote w)
          (log w).
Definition set_remote (v : G) (w : World) : World :=
  mkWorld (routines w) (loading w) (error w) (syncInProgress w)
          (diagnosticState w) (isOffline w) (idb w) (lastFetched w) (now w)
          v (log w).
Definition add_event (e : Event) (w : World) : World :=
  mkWorld (routines w) (loading w) (error w) (syncInProgress w)
          (diagnosticState w) (isOffline w) (idb w) (lastFetched w) (now w)
          (remote w) (log w ++ [e]).

(** Everything of a world but the backend and the log. *)
Definition hookState (w : World) :=
  (routines w, loading w, error w, syncInProgress w, diagnosticState w,
   isOffline w, idb w, lastFetched w, now w).

(** *** The monad of the hook's asynchronous functions *)

Definition M (A : Type) : Type := World → result A * World.

Definition ret {A} (a : A) : M A := λ w, (Ok a, w).

Definition bind {A B} (m : M A) (k : A → M B) : M B :=
  λ w, match m w with
       | (Ok a, w') => k a w'
       | (Throw msg, w') => (Throw msg, w')
       end.

Definition throw {A} (msg : string) : M A := λ w, (Throw msg, w).

(** [try { m } catch (err) { handler err.message }] *)
Definition try_catch {A} (m : M A) (handler : string → M A) : M A :=
  λ w, match m w with
       | (Ok a, w') => (Ok a, w')
       | (Throw msg, w') => handler msg w'
       end.

(** [try { m } finally { cleanup }], for a cleanup that does not throw. *)
Definition try_finally {A} (m : M A) (cleanup : World → World) : M A :=
  λ w, let '(r, w') := m w in (r, cleanup w').

Definition modify (f : World → World) : M unit := λ w, (Ok (), f w).
Definition gets {A} (f : World → A) : M A := λ w, (Ok (f w), w).

(** A request: logged, answered by the gateway. *)
Definition request {A} (c : Call) (serve : G → result A * G) : M A :=
  λ w, let '(r, g) := serve (remote w) in
       (r, set_remote g (add_event (Remote c) w)).

(** stdpp's notations [x ← m; k] and [m;; k] stand for [bind]. *)
#[local] Instance M_ret : MRet M := @ret.
#[local] Instance M_bind : MBind M := λ A B k m, bind m k.

Fixpoint mapM {A B} (f : A → M B) (l : list A) : M (list B) :=
  match l with
  | [] => ret []
  | a :: l' => b ← f a; bs ← mapM f l'; ret (b :: bs)
  end.

(** *** What a computation does, as predicates

    Four properties of a computation that the proofs follow through its
    binds and handlers. *)

(** The log only grows. *)
Definition extends {A} (m : M A) : Prop :=
  ∀ w, log w `prefix_of` log (m w).2.

(** The computation does not throw. *)
Definition succeeds {A} (m : M A) : Prop :=
  ∀ w, is_ok (m w).1 = true.

(** From [w], the computation sends the request [c]. *)
Definition emits {A} (c : Call) (m : M A) (w : World)
  : Prop :=
  ∃ pre post, log (m w).2 = log w ++ pre ++ Remote c :: post.

(** The computation does not throw, sends exactly the requests [calls], in
    this order, does nothing else that is logged, and leaves the state of
    the hook as it is. *)
Definition issues {A} (calls : list Call) (m : M A) : Prop :=
  ∀ w, ∃ a w', m w = (Ok a, w') ∧ log w' = log w ++ (Remote <$> calls) ∧
               hookState w' = hookState w.

(** The computation sends at most [n] [fetchRoutines] requests. *)
Definition fetchesAtMost {A} (n : nat) (m : M A) : Prop :=
  ∀ w, fetches (log (m w).2) ≤ fetches (log w) + n.

(** *** IndexedDB, localStorage and [useState] *)

Definition getAllFromIndexedDB : M (list Routine.t) :=
  λ w, (Ok (idb w), add_event StoreRead w).

(** [saveToIndexedDB(STORES.ROUTINES, item)] *)
Definition saveToIndexedDB (item : Routine.t) : M unit :=
  modify (λ w, add_event StoreWrite (set_idb (LocalStore.put item (idb w)) w)).

(** [saveToIndexedDB(STORES.ROUTINES, items)] for an array *)
Definition saveAllToIndexedDB (items : list Routine.t) : M unit :=
  modify (λ w, add_event StoreWrite
                 (set_idb (LocalStore.putAll items (idb w)) w)).

Definition clearIndexedDBStore : M unit :=
  modify (λ w, add_event StoreClear (set_idb (LocalStore.clear (idb w)) w)).

Definition setRoutines (f : list Routine.t → list Routine.t) : M unit :=
  modify (λ w, set_routines (f (routines w)) w).
Definition setLoading (v : bool) : M unit := modify (set_loading v).
Definition setError (v : option string) : M unit := modify (set_error v).
Definition setSyncInProgress (v : bool) : M unit :=
  modify (set_syncInProgress v).
Definition setDiagnosticState (v : D) : M unit :=
  modify (set_diagnosticState (Some v)).

(** *** [refreshRoutineSlots] *)

(** [Array.from(new Set(ids))]: first occurrences, in order. *)
Definition uniqueIds (ids : list string) : list string :=
  reverse (remove_dups (reverse ids)).

(** [v || ''] *)
Definition orEmpty (v : option string) : string := default EmptyString v.

(** A [Map] filled by [forEach(x => map.set(key x, x))], read at [k]. *)
Definition mapGet {A} (key : A → string) (entries : list A) (k : string)
  : option A :=
  last (filter (λ x, key x = k) entries).

Definition formatSlot (courses : list Db.CourseRow)
    (teachers : list Db.TeacherRow) (slot : RawSlot) : Slot.t :=
  let courseInfo := raw_course_id slot ≫= mapGet Db.c_id courses in
  let teacherName := raw_teacher_id slot ≫= mapGet Db.t_id teachers in
  Slot.mk (raw_id slot) (raw_routine_id slot) (raw_day_of_week slot)
    (raw_start_time slot) (raw_end_time slot)
    (orEmpty (raw_room_number slot)) (orEmpty (raw_section slot))
    (orEmpty (raw_course_id slot)) (orEmpty (raw_teacher_id slot))
    (orEmpty (Db.c_name <$> courseInfo)) (orEmpty (Db.c_code <$> courseInfo))
    (orEmpty (Db.t_name <$> teacherName)) (raw_created_at slot)
    false false false.

(** [.filter(Boolean)] on optional ids *)
Definition presentIds (ids : list (option string)) : list string :=
  filter (λ i, Js.truthy i = true) (omap (λ i, i) ids).

Definition replaceSlots (routineId : string) (formattedSlots : list Slot.t)
    (rs : list Routine.t) : list Routine.t :=
  (λ routine, if decide (Routine.id routine = routineId)
              then Routine.with_slots formattedSlots routine
              else routine) <$> rs.

Definition refreshRoutineSlots (routineId : string) : M unit :=
  if negb (Js.truthy routineId) then ret ()
  else
    try_catch
      (slots ← request (SelectSlots routineId) (selectSlots gw routineId);
       match slots with
       | None | Some [] => ret ()
       | Some slots =>
           let courseIds := uniqueIds (presentIds (raw_course_id <$> slots)) in
           let teacherIds :=
             uniqueIds (presentIds (raw_teacher_id <$> slots)) in
           courses ←
             match courseIds with
             | [] => ret []
             | _ => data ← request (SelectCourses courseIds)
                                    (selectCourses gw courseIds);
                    ret (default [] data)
             end;
           teachers ←
             match teacherIds with
             | [] => ret []
             | _ => data ← request (SelectTeachers teacherIds)
                                    (selectTeachers gw teacherIds);
                    ret (default [] data)
             end;
           let formattedSlots := formatSlot courses teachers <$> slots in
           setRoutines (replaceSlots routineId formattedSlots);;
           updatedRoutines ← getAllFromIndexedDB;
           saveAllToIndexedDB
             (replaceSlots routineId formattedSlots updatedRoutines)
       end)
      (λ _, ret ()).

(** *** [loadRoutines], the variant with the retry loop *)

(** The slots of the direct fetch inside an attempt. *)
Definition directSlot (routineId : string) (slot : RawSlot) : Slot.t :=
  Slot.mk (raw_id slot) routineId (raw_day_of_week slot)
    (raw_start_time slot) (raw_end_time slot)
    (orEmpty (raw_room_number slot)) (orEmpty (raw_section slot))
    (orEmpty (raw_course_id slot)) (orEmpty (raw_teacher_id slot))
    EmptyString EmptyString EmptyString (raw_created_at slot)
    false false false.

Definition fetchSlotsDirectly (routine : Routine.t) : M Routine.t :=
  try_catch
    (slots ← request (SelectSlots (Routine.id routine))
                     (selectSlots gw (Routine.id routine));
     match slots with
     | Some (slot :: rest) =>
         ret (Routine.with_slots
                (directSlot (Routine.id routine) <$> slot :: rest) routine)
     | _ => ret routine
     end)
    (λ _, ret routine).

(** The [try] block of one attempt. *)
Definition fetchAttempt : M (list Routine.t) :=
  fetchedData ← request FetchRoutines (fetchRoutines gw);
  if negb (someHaveSlots fetchedData) && (0 <? length fetchedData)%nat
  then mapM fetchSlotsDirectly fetchedData
  else ret fetchedData.

(** [for (attempt = 0; attempt < 3 && !fetchSuccess; attempt++)]: the data
    of the first attempt that succeeds, or the error of the last one.  (The
    waits between the attempts are not modelled.) *)
Fixpoint fetchWithRetry (attempts : nat) (fetchError : string)
  : M (string + list Routine.t) :=
  match attempts with
  | 0 => ret (inl fetchError)
  | S attempts =>
      try_catch (fetchedData ← fetchAttempt; ret (inr fetchedData))
                (λ err, fetchWithRetry attempts err)
  end.

Definition cacheDurationMs (isAdminView : bool) : Z :=
  if isAdminView then 0 else 5 * 60 * 1000.

(** [isCacheValid] *)
Definition isCacheValid (duration : Z) (isAdminView forceRefresh : bool)
    (lastFetchedTimestamp : option Z) (currentTime : Z) : bool :=
  negb isAdminView && negb forceRefresh &&
  match lastFetchedTimestamp with
  | Some t => bool_decide (currentTime - t < duration)%Z
  | None => false
  end.

(** The fallback of a failed load: the cached routines, if there are any. *)
Definition loadFromCache : M unit :=
  offlineRoutines ← getAllFromIndexedDB;
  match offlineRoutines with
  | [] => ret ()
  | _ => setRoutines (λ _, offlineRoutines)
  end.

Definition runDiagnostics : M unit :=
  diagnostics ← request RunDiagnostics
                  (λ g, let '(d, g) := runServiceDiagnostics gw g in (Ok d, g));
  setDiagnosticState diagnostics.

(** What the cache branch decides: the cached routines were served, which
    ends the load ([return]), or the load goes on to the backend, with the
    value [forceRefresh] has from there. *)
Inductive CacheDecision : Type :=
| Served
| Refetch (forceRefresh : bool).

(** The cache branch; [duration] is the validity window. *)
Definition consultCache (duration : Z) (forceRefresh isAdminView : bool)
  : M CacheDecision :=
  lastFetchedTimestamp ← gets lastFetched;
  currentTime ← gets now;
  if isCacheValid duration isAdminView forceRefresh lastFetchedTimestamp
                  currentTime
     && negb forceRefresh
  then
    cachedRoutines ← getAllFromIndexedDB;
    match cachedRoutines with
    | [] => ret (Refetch forceRefresh)
    | _ =>
        if someHaveSlots cachedRoutines then
          setRoutines (λ _, cachedRoutines);;
          setLoading false;;
          ret Served
        else ret (Refetch true) (* the slots are missing *)
    end
  else ret (Refetch forceRefresh).

(** The condition under which the cache branch serves the cached
    routines, on the arguments of [loadRoutines]. *)
Definition servesCache (duration : Z) (forceRefresh isAdminView : bool)
    (w : World) : bool :=
  isCacheValid duration isAdminView (isAdminView || forceRefresh)
               (lastFetched w) (now w)
  && someHaveSlots (idb w).

(** [if (fetchSuccess) { ... }] *)
Definition publishFetched (fetchedData : list Routine.t) : M unit :=
  setRoutines (λ _, fetchedData);;
  currentTime ← gets now;
  modify (set_lastFetched (Some currentTime));;
  clearIndexedDBStore;;
  saveAllToIndexedDB fetchedData;;
  match find Routine.isActive fetchedData with
  | Some activeRoutine =>
      if negb (Routine.hasSlotData activeRoutine)
      then refreshRoutineSlots (Routine.id activeRoutine)
      else ret ()
  | None => ret ()
  end.

(** [else { ... }]: all the attempts failed. *)
Definition reportFetchFailure (fetchError : string) : M unit :=
  setError
    (Some (if Js.truthy fetchError then fetchError
           else "Failed to load routines after multiple attempts"));;
  loadFromCache;;
  runDiagnostics.

Definition loadRoutines (forceRefresh isAdminView : bool) : M unit :=
  try_finally
    (try_catch
       (setLoading true;;
        setError None;;
        let forceRefresh := isAdminView || forceRefresh in
        (if forceRefresh then modify (set_lastFetched None) else ret ());;
        offline ← gets isOffline;
        if offline : bool then
          offlineRoutines ← getAllFromIndexedDB;
          match offlineRoutines with
          | [] => setRoutines (λ _, [])
          | _ => setRoutines (λ _, offlineRoutines)
          end
        else
          decision ← consultCache (cacheDurationMs isAdminView)
                                  forceRefresh isAdminView;
          match decision with
          | Served => ret ()
          | Refetch _ =>
              fetched ← fetchWithRetry 3 EmptyString;
              match fetched with
              | inr fetchedData => publishFetched fetchedData
              | inl fetchError => reportFetchFailure fetchError
              end
          end)
       (λ err,
          setError (Some err);;
          offline ← gets isOffline;
          if negb offline then loadFromCache else ret ()))
    (set_loading false).

(** *** [syncOfflineChanges] *)

(** The local variables of the pass. *)
Record SyncVars : Type := mkSyncVars {
  syncedRoutines : list Routine.t;
  hasChanges : bool;
  syncErrors : nat
}.

(** The local variables of the loop over the slots of one routine. *)
Record SlotVars : Type := mkSlotVars {
  syncedSlots : list Slot.t;
  slotsChanged : bool;
  slotErrors : nat
}.

(** The test of the [continue] that skips a routine without offline
    changes, negated. *)
Definition routinePending (routine : Routine.t) : bool :=
  Routine._isOffline routine || Routine._isOfflineUpdated routine ||
  Routine._isOfflineDeleted routine ||
  Routine._needsActivationSync routine ||
  Routine._needsDeactivationSync routine ||
  existsb Slot.pending (Routine.slots routine).

(** [try { a = await call; then a } catch { syncErrors++ }] *)
Definition attempt {A} (call : M A) (onSuccess : A → SyncVars → SyncVars)
    (v : SyncVars) : M SyncVars :=
  try_catch
    (a ← call; ret (onSuccess a v))
    (λ _, ret (mkSyncVars (syncedRoutines v) (hasChanges v)
                          (S (syncErrors v)))).

Definition attemptSlot {A} (call : M A) (onSuccess : A → SlotVars → SlotVars)
    (v : SlotVars) : M SlotVars :=
  try_catch
    (a ← call; ret (onSuccess a v))
    (λ _, ret (mkSlotVars (syncedSlots v) (slotsChanged v)
                          (S (slotErrors v)))).

(** [index = syncedRoutines.findIndex(r => r.id === id)], and when
    [index >= 0]: [syncedRoutines[index] = f syncedRoutines[index];
    hasChanges = true]. *)
Definition updateSynced (id : string) (f : Routine.t → Routine.t)
    (v : SyncVars) : SyncVars :=
  match list_find (λ r, Routine.id r = id) (syncedRoutines v) with
  | Some (index, current) =>
      mkSyncVars (<[index := f current]> (syncedRoutines v)) true
                 (syncErrors v)
  | None => v
  end.

(** [const { _isOffline, id, ...routineData } = routine] *)
Definition createPayload (routine : Routine.t) : Routine.t :=
  Routine.with_id EmptyString (Routine.with_isOffline false routine).

(** [const { _isOfflineUpdated, _isOffline, _needsActivationSync,
    _needsDeactivationSync, slots, ...routineData } = routine] *)
Definition updatePayload (routine : Routine.t) : Routine.t :=
  Routine.mk (Routine.id routine) (Routine.name routine)
    (Routine.description routine) (Routine.semester routine)
    (Routine.isActive routine) (Routine.createdAt routine)
    (Routine.createdBy routine) [] false false
    (Routine._isOfflineDeleted routine) false false.

(** [{ ...current, ...routineData, _isOfflineUpdated: undefined }] *)
Definition mergeUpdate (routineData current : Routine.t) : Routine.t :=
  Routine.mk (Routine.id routineData) (Routine.name routineData)
    (Routine.description routineData) (Routine.semester routineData)
    (Routine.isActive routineData) (Routine.createdAt routineData)
    (Routine.createdBy routineData) (Routine.slots current)
    (Routine._isOffline current) false
    (Routine._isOfflineDeleted routineData)
    (Routine._needsActivationSync current)
    (Routine._needsDeactivationSync current).

(** [const { _isOffline, id, routineId, createdAt, ...slotData } = slot] *)
Definition addSlotPayload (slot : Slot.t) : Slot.t :=
  Slot.with_id EmptyString
    (Slot.with_routineId EmptyString
       (Slot.with_createdAt EmptyString (Slot.with_isOffline false slot))).

(** [const { _isOfflineUpdated, _isOffline, ...slotData } = slot] *)
Definition updateSlotPayload (slot : Slot.t) : Slot.t :=
  Slot.with_isOfflineUpdated false (Slot.with_isOffline false slot).

(** The body of the loop over [routine.slots]. *)
Definition syncSlot (routine : Routine.t) (slot : Slot.t) (v : SlotVars)
  : M SlotVars :=
  if negb (Slot.pending slot) then ret v
  else if Slot._isOfflineDeleted slot then
    attemptSlot
      (request (DeleteRoutineSlot (Routine.id routine) (Slot.id slot))
         (deleteRoutineSlotService gw (Routine.id routine) (Slot.id slot)))
      (λ _ v,
         match list_find (λ s, Slot.id s = Slot.id slot) (syncedSlots v) with
         | Some (slotIndex, _) =>
             mkSlotVars (delete slotIndex (syncedSlots v)) true (slotErrors v)
         | None => v
         end) v
  else if Slot._isOffline slot then
    attemptSlot
      (request (AddRoutineSlot (Routine.id routine) (addSlotPayload slot))
         (addRoutineSlotService gw (Routine.id routine) (addSlotPayload slot)))
      (λ newSlot v,
         match list_find (λ s, Slot.id s = Slot.id slot) (syncedSlots v) with
         | Some (slotIndex, _) =>
             mkSlotVars (<[slotIndex := newSlot]> (syncedSlots v)) true
                        (slotErrors v)
         | None => v
         end) v
  else if Slot._isOfflineUpdated slot then
    attemptSlot
      (request (UpdateRoutineSlot (Routine.id routine) (Slot.id slot)
                                  (updateSlotPayload slot))
         (updateRoutineSlotService gw (Routine.id routine) (Slot.id slot)
                                   (updateSlotPayload slot)))
      (λ _ v,
         match list_find (λ s, Slot.id s = Slot.id slot) (syncedSlots v) with
         | Some (slotIndex, _) =>
             mkSlotVars
               (<[slotIndex := Slot.with_routineId (Routine.id routine)
                                 (updateSlotPayload slot)]> (syncedSlots v))
               true (slotErrors v)
         | None => v
         end) v
  else ret v.

Fixpoint syncSlots (routine : Routine.t) (slots : list Slot.t) (v : SlotVars)
  : M SlotVars :=
  match slots with
  | [] => ret v
  | slot :: rest => v ← syncSlot routine slot v; syncSlots routine rest v
  end.

(** The body of the loop over [offlineRoutines]. *)
Definition syncRoutine (routine : Routine.t) (v : SyncVars) : M SyncVars :=
  let id := Routine.id routine in
  if negb (routinePending routine) then ret v
  else if Routine._isOfflineDeleted routine then
    (* routine deletions *)
    attempt (request (DeleteRoutine id) (deleteRoutineService gw id))
      (λ _ v, mkSyncVars (filter (λ r, Routine.id r ≠ id) (syncedRoutines v))
                         true (syncErrors v)) v
  else
    (* activation / deactivation *)
    v ← (if Routine._needsActivationSync routine then
           attempt (request (ActivateRoutine id) (activateRoutineService gw id))
             (λ _, updateSynced id
                     (λ r, Routine.with_needsActivationSync false
                             (Routine.with_isActive true r))) v
         else if Routine._needsDeactivationSync routine then
           attempt (request (DeactivateRoutine id)
                            (deactivateRoutineService gw id))
             (λ _, updateSynced id
                     (λ r, Routine.with_needsDeactivationSync false
                             (Routine.with_isActive false r))) v
         else ret v);
    if Routine._isOffline routine then
      (* routines created offline *)
      attempt (request (CreateRoutine (createPayload routine))
                       (createRoutineService gw (createPayload routine)))
        (λ newRoutine v,
           mkSyncVars
             (filter (λ r, Routine.id r ≠ id) (syncedRoutines v)
              ++ [newRoutine])
             true (syncErrors v)) v
    else
      (* routine updates *)
      v ← (if Routine._isOfflineUpdated routine then
             attempt (request (UpdateRoutine id (updatePayload routine))
                        (updateRoutineService gw id (updatePayload routine)))
               (λ _, updateSynced id (mergeUpdate (updatePayload routine))) v
           else ret v);
      (* slot changes *)
      match Routine.slots routine with
      | [] => ret v
      | _ =>
          sv ← syncSlots routine (Routine.slots routine)
                 (mkSlotVars (Routine.slots routine) false (syncErrors v));
          let v := mkSyncVars (syncedRoutines v) (hasChanges v)
                              (slotErrors sv) in
          if slotsChanged sv
          then ret (updateSynced id (Routine.with_slots (syncedSlots sv)) v)
          else ret v
      end.

Fixpoint syncRoutines (offlineRoutines : list Routine.t) (v : SyncVars)
  : M SyncVars :=
  match offlineRoutines with
  | [] => ret v
  | routine :: rest => v ← syncRoutine routine v; syncRoutines rest v
  end.

Definition syncOfflineChanges : M unit :=
  offline ← gets isOffline;
  inProgress ← gets syncInProgress;
  if (offline || inProgress : bool) then ret ()
  else
    try_finally
      (try_catch
         (setSyncInProgress true;;
          offlineRoutines ← getAllFromIndexedDB;
          v ← syncRoutines offlineRoutines
                (mkSyncVars offlineRoutines false 0);
          if hasChanges v then
            saveAllToIndexedDB (syncedRoutines v);;
            setRoutines (λ _, syncedRoutines v);;
            currentTime ← gets now;
            modify (set_lastFetched (Some currentTime))
          else ret ())
         (λ _, setError (Some "Failed to sync offline changes")))
      (set_syncInProgress false).

(** The requests of a pass, read off the loop bodies: what [syncSlot] sends
    for a slot and [syncRoutine] for a routine, whatever the backend
    answers. *)
Definition slotCalls (routine : Routine.t) (slot : Slot.t) : list Call :=
  if negb (Slot.pending slot) then []
  else if Slot._isOfflineDeleted slot then
    [DeleteRoutineSlot (Routine.id routine) (Slot.id slot)]
  else if Slot._isOffline slot then
    [AddRoutineSlot (Routine.id routine) (addSlotPayload slot)]
  else if Slot._isOfflineUpdated slot then
    [UpdateRoutineSlot (Routine.id routine) (Slot.id slot)
                       (updateSlotPayload slot)]
  else [].

Definition routineCalls (routine : Routine.t) : list Call :=
  let id := Routine.id routine in
  if negb (routinePending routine) then []
  else if Routine._isOfflineDeleted routine then [DeleteRoutine id]
  else
    (if Routine._needsActivationSync routine then [ActivateRoutine id]
     else if Routine._needsDeactivationSync routine then [DeactivateRoutine id]
     else [])
    ++
    (if Routine._isOffline routine then [CreateRoutine (createPayload routine)]
     else
       (if Routine._isOfflineUpdated routine
        then [UpdateRoutine id (updatePayload routine)] else [])
       ++ (Routine.slots routine ≫= slotCalls routine)).

(** What entitles a pass to send the request [c] for [routine]: the marker
    the routine or one of its slots carries, and no marker that takes
    precedence ([_isOfflineDeleted] over everything, [_needsActivationSync]
    over [_needsDeactivationSync], [_isOffline] over [_isOfflineUpdated] and
    over the slots). *)
Definition justifies (routine : Routine.t) (c : Call) : Prop :=
  let id := Routine.id routine in
  match c with
  | DeleteRoutine i => i = id ∧ Routine._isOfflineDeleted routine = true
  | ActivateRoutine i =>
      i = id ∧ Routine._isOfflineDeleted routine = false ∧
      Routine._needsActivationSync routine = true
  | DeactivateRoutine i =>
      i = id ∧ Routine._isOfflineDeleted routine = false ∧
      Routine._needsActivationSync routine = false ∧
      Routine._needsDeactivationSync routine = true
  | CreateRoutine payload =>
      Routine._isOfflineDeleted routine = false ∧
      Routine._isOffline routine = true ∧ payload = createPayload routine
  | UpdateRoutine i payload =>
      i = id ∧ Routine._isOfflineDeleted routine = false ∧
      Routine._isOffline routine = false ∧
      Routine._isOfflineUpdated routine = true ∧
      payload = updatePayload routine
  | DeleteRoutineSlot i slotId =>
      i = id ∧ Routine._isOfflineDeleted routine = false ∧
      Routine._isOffline routine = false ∧
      ∃ slot, slot ∈ Routine.slots routine ∧ Slot.id slot = slotId ∧
              Slot._isOfflineDeleted slot = true
  | AddRoutineSlot i payload =>
      i = id ∧ Routine._isOfflineDeleted routine = false ∧
      Routine._isOffline routine = false ∧
      ∃ slot, slot ∈ Routine.slots routine ∧
              Slot._isOfflineDeleted slot = false ∧
              Slot._isOffline slot = true ∧ payload = addSlotPayload slot
  | UpdateRoutineSlot i slotId payload =>
      i = id ∧ Routine._isOfflineDeleted routine = false ∧
      Routine._isOffline routine = false ∧
      ∃ slot, slot ∈ Routine.slots routine ∧ Slot.id slot = slotId ∧
              Slot._isOfflineDeleted slot = false ∧
              Slot._isOffline slot = false ∧
              Slot._isOfflineUpdated slot = true ∧
              payload = updateSlotPayload slot
  | _ => False
  end.

(** A gateway none of whose writes goes through: every service a pass may
    call throws, whatever the state of the backend. *)
Definition rejectsWrites : Prop :=
  (∀ r g, ∃ msg g', createRoutineService gw r g = (Throw msg, g')) ∧
  (∀ id u g, ∃ msg g', updateRoutineService gw id u g = (Throw msg, g')) ∧
  (∀ id g, ∃ msg g', deleteRoutineService gw id g = (Throw msg, g')) ∧
  (∀ id s g, ∃ msg g', addRoutineSlotService gw id s g = (Throw msg, g')) ∧
  (∀ id sid u g, ∃ msg g',
     updateRoutineSlotService gw id sid u g = (Throw msg, g')) ∧
  (∀ id sid g, ∃ msg g',
     deleteRoutineSlotService gw id sid g = (Throw msg, g')) ∧
  (∀ id g, ∃ msg g', activateRoutineService gw id g = (Throw msg, g')) ∧
  (∀ id g, ∃ msg g', deactivateRoutineService gw id g = (Throw msg, g')).

(** A step of a pass that gets nothing done: it does not throw, and it
    changes neither the state of the hook nor what the pass has gathered so
    far; only the count of errors may grow. *)
Definition stalls (v : SyncVars) (m : M SyncVars) : Prop :=
  ∀ w, ∃ v' w', m w = (Ok v', w') ∧
    syncedRoutines v' = syncedRoutines v ∧ hasChanges v' = hasChanges v ∧
    hookState w' = hookState w.

Definition stallsSlots (v : SlotVars) (m : M SlotVars) : Prop :=
  ∀ w, ∃ v' w', m w = (Ok v', w') ∧
    syncedSlots v' = syncedSlots v ∧ slotsChanged v' = slotsChanged v ∧
    hookState w' = hookState w.

(** *** The mutations *)

(** [catch (err) { setError(err.message); throw err; }] *)
Definition reportAndRethrow {A} (m : M A) : M A :=
  try_catch m (λ err, setError (Some err);; throw err).

(** What a mutation that failed with [msg] leaves: the message in the
    [error] state, and the visible routines, the store and the timestamp as
    they were. *)
Definition failedWith (msg : string) (w w' : World) : Prop :=
  error w' = Some msg ∧ routines w' = routines w ∧ idb w' = idb w ∧
  lastFetched w' = lastFetched w.

(** [createRoutine]; [random] is the text
    [Math.random().toString(36).substring(2, 9)] and [isoDate] the text
    [new Date().toISOString()] of the call. *)
Definition createRoutine (routine : Routine.t) (random isoDate : string)
  : M Routine.t :=
  reportAndRethrow
    (setError None;;
     offline ← gets isOffline;
     if offline : bool then
       currentTime ← gets now;
       let tempId := "temp-" +:+ pretty (currentTime : Z) +:+ "-" +:+ random in
       let offlineRoutine :=
         Routine.with_isOffline true
           (Routine.with_slots []
              (Routine.with_createdAt isoDate
                 (Routine.with_id tempId routine))) in
       saveToIndexedDB offlineRoutine;;
       setRoutines (λ prev, offlineRoutine :: prev);;
       ret offlineRoutine
     else
       newRoutine ← request (CreateRoutine routine)
                            (createRoutineService gw routine);
       setRoutines (λ prev, newRoutine :: prev);;
       saveToIndexedDB newRoutine;;
       ret newRoutine).

(** [prev.map(routine => routine.id === id ? { ...routine, ...updates }
    : routine)] *)
Definition applyUpdates (id : string) (updates : Routine.patch)
    (rs : list Routine.t) : list Routine.t :=
  (λ routine, if decide (Routine.id routine = id)
              then Routine.apply updates routine else routine) <$> rs.

(** [updateRoutine] *)
Definition updateRoutine (id : string) (updates : Routine.patch) : M unit :=
  reportAndRethrow
    (setError None;;
     offline ← gets isOffline;
     if offline : bool then
       existingRoutines ← getAllFromIndexedDB;
       match find (λ r, bool_decide (Routine.id r = id)) existingRoutines with
       | Some routineToUpdate =>
           saveToIndexedDB
             (Routine.with_isOfflineUpdated true
                (Routine.apply updates routineToUpdate));;
           setRoutines (applyUpdates id updates)
       | None => ret ()
       end
     else
       request (UpdateRoutine id (Routine.payload updates))
               (updateRoutineService gw id (Routine.payload updates));;
       setRoutines (applyUpdates id updates);;
       existingRoutines ← getAllFromIndexedDB;
       match find (λ r, bool_decide (Routine.id r = id)) existingRoutines with
       | Some routineToUpdate =>
           saveToIndexedDB (Routine.apply updates routineToUpdate)
       | None => ret ()
       end).

(** [deleteRoutine] *)
Definition deleteRoutine (id : string) : M unit :=
  reportAndRethrow
    (setError None;;
     offline ← gets isOffline;
     if offline : bool then
       existingRoutines ← getAllFromIndexedDB;
       match find (λ r, bool_decide (Routine.id r = id)) existingRoutines with
       | Some routineToDelete =>
           saveToIndexedDB (Routine.with_isOfflineDeleted true routineToDelete)
       | None => ret ()
       end;;
       setRoutines (filter (λ routine, Routine.id routine ≠ id))
     else
       request (DeleteRoutine id) (deleteRoutineService gw id);;
       setRoutines (filter (λ routine, Routine.id routine ≠ id));;
       existingRoutines ← getAllFromIndexedDB;
       let filteredRoutines :=
         filter (λ r, Routine.id r ≠ id) existingRoutines in
       clearIndexedDBStore;;
       match filteredRoutines with
       | [] => ret ()
       | _ => saveAllToIndexedDB filteredRoutines
       end;;
       currentTime ← gets now;
       modify (set_lastFetched (Some currentTime))).

(** [existingRoutines[routineIndex] = f existingRoutines[routineIndex]]
    for [routineIndex = existingRoutines.findIndex(r => r.id === routineId)],
    when [routineIndex >= 0]; [None] when the routine is not found. *)
Definition updateExisting (routineId : string) (f : Routine.t → Routine.t)
    (existingRoutines : list Routine.t) : option (list Routine.t) :=
  match list_find (λ r, Routine.id r = routineId) existingRoutines with
  | Some (routineIndex, routine) =>
      Some (<[routineIndex := f routine]> existingRoutines)
  | None => None
  end.

(** The slots the offline [deleteRoutineSlot] keeps: the slot is marked,
    and dropped at once when it was created offline. *)
Definition markSlotDeleted (slotId : string) (slots : list Slot.t)
  : list Slot.t :=
  filter (λ slot, ¬ (Slot.id slot = slotId ∧ Slot._isOffline slot = true))
    ((λ slot, if decide (Slot.id slot = slotId)
              then Slot.with_isOfflineDeleted true slot else slot) <$> slots).

Definition dropSlot (routineId slotId : string) (rs : list Routine.t)
  : list Routine.t :=
  (λ routine,
     if decide (Routine.id routine = routineId)
     then Routine.with_slots
            (filter (λ slot, Slot.id slot ≠ slotId) (Routine.slots routine))
            routine
     else routine) <$> rs.

(** [slots.map(slot => slot.id === slotId ? f slot : slot)] *)
Definition updateSlot (slotId : string) (f : Slot.t → Slot.t)
    (slots : list Slot.t) : list Slot.t :=
  (λ slot, if decide (Slot.id slot = slotId) then f slot else slot) <$> slots.

(** [prev.map(r => r.id === routineId ? { ...r, slots: r.slots?.map(slot =>
    slot.id === slotId ? { ...slot, ...updates } : slot) } : r)] *)
Definition applySlotUpdates (routineId slotId : string)
    (updates : Slot.patch) (rs : list Routine.t) : list Routine.t :=
  (λ r, if decide (Routine.id r = routineId)
        then Routine.with_slots
               (updateSlot slotId (Slot.apply updates) (Routine.slots r)) r
        else r) <$> rs.

(** [updateRoutineSlot] *)
Definition updateRoutineSlot (routineId slotId : string)
    (updates : Slot.patch) : M unit :=
  reportAndRethrow
    (setError None;;
     offline ← gets isOffline;
     if offline : bool then
       existingRoutines ← getAllFromIndexedDB;
       match updateExisting routineId
               (λ routine,
                  Routine.with_slots
                    (updateSlot slotId
                       (λ slot, Slot.with_isOfflineUpdated true
                                  (Slot.apply updates slot))
                       (Routine.slots routine)) routine)
               existingRoutines with
       | Some existingRoutines =>
           saveAllToIndexedDB existingRoutines;;
           setRoutines (applySlotUpdates routineId slotId updates)
       | None => ret ()
       end
     else
       request (UpdateRoutineSlot routineId slotId (Slot.payload updates))
               (updateRoutineSlotService gw routineId slotId
                                         (Slot.payload updates));;
       setRoutines (applySlotUpdates routineId slotId updates);;
       try_catch
         (existingRoutines ← getAllFromIndexedDB;
          match updateExisting routineId
                  (λ routine,
                     Routine.with_slots
                       (updateSlot slotId (Slot.apply updates)
                                   (Routine.slots routine)) routine)
                  existingRoutines with
          | Some existingRoutines => saveAllToIndexedDB existingRoutines
          | None => ret ()
          end)
         (λ _, ret ())).

(** [deleteRoutineSlot] *)
Definition deleteRoutineSlot (routineId slotId : string) : M unit :=
  reportAndRethrow
    (setError None;;
     offline ← gets isOffline;
     if offline : bool then
       existingRoutines ← getAllFromIndexedDB;
       match updateExisting routineId
               (λ routine, Routine.with_slots
                             (markSlotDeleted slotId (Routine.slots routine))
                             routine)
               existingRoutines with
       | Some existingRoutines => saveAllToIndexedDB existingRoutines
       | None => ret ()
       end;;
       setRoutines (dropSlot routineId slotId)
     else
       request (DeleteRoutineSlot routineId slotId)
               (deleteRoutineSlotService gw routineId slotId);;
       setRoutines (dropSlot routineId slotId);;
       existingRoutines ← getAllFromIndexedDB;
       match updateExisting routineId
               (λ routine,
                  Routine.with_slots
                    (filter (λ slot, Slot.id slot ≠ slotId)
                            (Routine.slots routine)) routine)
               existingRoutines with
       | Some existingRoutines => saveAllToIndexedDB existingRoutines
       | None => ret ()
       end).

(** [{ ...r, slots: [...(r.slots || []), newSlot] }] on the routine of the
    id, in [prev.map]. *)
Definition appendSlot (routineId : string) (newSlot : Slot.t)
    (rs : list Routine.t) : list Routine.t :=
  (λ r, if decide (Routine.id r = routineId)
        then Routine.with_slots (Routine.slots r ++ [newSlot]) r
        else r) <$> rs.

(** [addRoutineSlot]; [random] and [isoDate] are as in [createRoutine]. *)
Definition addRoutineSlot (routineId : string) (slot : Slot.t)
    (random isoDate : string) : M Slot.t :=
  reportAndRethrow
    (setError None;;
     offline ← gets isOffline;
     if offline : bool then
       currentTime ← gets now;
       let tempId :=
         "temp-slot-" +:+ pretty (currentTime : Z) +:+ "-" +:+ random in
       let newSlot :=
         Slot.with_isOffline true
           (Slot.with_createdAt isoDate
              (Slot.with_routineId routineId (Slot.with_id tempId slot))) in
       updatedRoutines ← getAllFromIndexedDB;
       match updateExisting routineId
               (λ routine,
                  Routine.with_slots (Routine.slots routine ++ [newSlot])
                                     routine)
               updatedRoutines with
       | Some updatedRoutines =>
           saveAllToIndexedDB updatedRoutines;;
           setRoutines (appendSlot routineId newSlot);;
           ret newSlot
       | None => throw "Routine not found"
       end
     else
       newSlot ← request (AddRoutineSlot routineId slot)
                         (addRoutineSlotService gw routineId slot);
       setRoutines (appendSlot routineId newSlot);;
       try_catch
         (existingRoutines ← getAllFromIndexedDB;
          match find (λ r, bool_decide (Routine.id r = routineId))
                     existingRoutines with
          | Some routineToUpdate =>
              saveToIndexedDB
                (Routine.with_slots
                   (Routine.slots routineToUpdate ++ [newSlot])
                   routineToUpdate)
          | None => ret ()
          end)
         (λ _, ret ());;
       ret newSlot).

(** [{ ...routine, isActive: routine.id === routineId,
       _needsActivationSync: routine.id === routineId ? true : undefined }] *)
Definition markActivated (routineId : string) (routine : Routine.t)
  : Routine.t :=
  Routine.with_needsActivationSync
    (bool_decide (Routine.id routine = routineId))
    (Routine.with_isActive (bool_decide (Routine.id routine = routineId))
                           routine).

(** [{ ...routine, isActive: routine.id === routineId }] *)
Definition mirrorActivated (routineId : string) (routine : Routine.t)
  : Routine.t :=
  Routine.with_isActive (bool_decide (Routine.id routine = routineId)) routine.

(** [activateRoutine] *)
Definition activateRoutine (routineId : string) : M unit :=
  reportAndRethrow
    (setError None;;
     offline ← gets isOffline;
     if offline : bool then
       setRoutines (fmap (markActivated routineId));;
       existingRoutines ← getAllFromIndexedDB;
       saveAllToIndexedDB (markActivated routineId <$> existingRoutines)
     else
       request (ActivateRoutine routineId)
               (activateRoutineService gw routineId);;
       setRoutines (fmap (mirrorActivated routineId));;
       existingRoutines ← getAllFromIndexedDB;
       saveAllToIndexedDB (mirrorActivated routineId <$> existingRoutines)).

(** [{ ...routine,
       isActive: routine.id === routineId ? false : routine.isActive,
       _needsDeactivationSync: routine.id === routineId ? true : undefined }] *)
Definition markDeactivated (routineId : string) (routine : Routine.t)
  : Routine.t :=
  Routine.with_needsDeactivationSync
    (bool_decide (Routine.id routine = routineId))
    (Routine.with_isActive
       (if decide (Routine.id routine = routineId) then false
        else Routine.isActive routine) routine).

Definition mirrorDeactivated (routineId : string) (routine : Routine.t)
  : Routine.t :=
  Routine.with_isActive
    (if decide (Routine.id routine = routineId) then false
     else Routine.isActive routine) routine.

(** The ids of the routines of a store that are active. *)
Definition activeIds (store : list Routine.t) : list string :=
  Routine.id <$> filter (λ r, Routine.isActive r = true) store.

(** [deactivateRoutine] *)
Definition deactivateRoutine (routineId : string) : M unit :=
  reportAndRethrow
    (setError None;;
     offline ← gets isOffline;
     if offline : bool then
       setRoutines (fmap (markDeactivated routineId));;
       existingRoutines ← getAllFromIndexedDB;
       saveAllToIndexedDB (markDeactivated routineId <$> existingRoutines)
     else
       request (DeactivateRoutine routineId)
               (deactivateRoutineService gw routineId);;
       setRoutines (fmap (mirrorDeactivated routineId));;
       existingRoutines ← getAllFromIndexedDB;
       saveAllToIndexedDB (mirrorDeactivated routineId <$> existingRoutines)).

(** [bulkImportSlots]; [load] is the hook's [loadRoutines]. *)
Definition bulkImportSlots (load : bool → bool → M unit) (routineId : string)
    (slotsData : list Service.ImportRow) : M Service.Report :=
  offline ← gets isOffline;
  if offline : bool then
    ret (Service.mkReport 0 ["Bulk import is not available in offline mode"])
  else
    try_catch
      (result ← request (BulkImportRoutineSlots routineId slotsData)
                  (bulkImportRoutineSlotsService gw routineId slotsData);
       load true false;;
       ret result)
      (λ err,
         ret (Service.mkReport 0
                [if Js.truthy err then err else "Failed to import slots"])).

(** *** [loadRoutines], the variant with the progressive load

    The work this variant starts without awaiting it (the timer of the
    cache branch, the promise chain that loads the slots of the routines
    that are not active) runs after [loadRoutines] has returned: the
    function returns what it has deferred, and [runDeferred] is that work.
    The bookkeeping under the localStorage key [fully_loaded_routines],
    which nothing reads, is left out. *)

Inductive Deferred : Type :=
| BackgroundRefresh
| RemainingSlots (mappedBasicRoutines : list Routine.t).

Definition cacheDurationMsProgressive (isAdminView : bool) : Z :=
  if isAdminView then 0 else 3 * 60 * 1000.

(** A row of [routines] as the progressive load maps it. *)
Definition mapBasicRoutine (r : Db.RoutineRow) : Routine.t :=
  Routine.mk (Db.id r) (Db.name r) EmptyString (Db.semester r)
    (Db.is_active r) (Db.created_at r) EmptyString []
    false false false false false.

(** The slots as first formatted: no course or teacher names yet. *)
Definition plainSlot (slot : RawSlot) : Slot.t := formatSlot [] [] slot.

Definition enrichSlot (courses : list Db.CourseRow)
    (teachers : list Db.TeacherRow) (slot : Slot.t) : Slot.t :=
  let courseInfo := mapGet Db.c_id courses (Slot.courseId slot) in
  Slot.with_names (orEmpty (Db.c_name <$> courseInfo))
    (orEmpty (Db.c_code <$> courseInfo))
    (orEmpty (Db.t_name <$> mapGet Db.t_id teachers (Slot.teacherId slot)))
    slot.

(** [.map(s => s.courseId).filter(Boolean)] made unique *)
Definition usedIds (ids : list string) : list string :=
  uniqueIds (filter (λ i, Js.truthy i = true) ids).

(** What a repair may do to a routine: give it other slots, and slots to
    one that had none; nothing else. *)
Definition repaired (r r' : Routine.t) : Prop :=
  Routine.with_slots (Routine.slots r) r' = r ∧
  (Routine.slots r ≠ [] → Routine.slots r' ≠ []).

(** [fixMissingSlotData], called while online. *)
Definition fixOne (updatedRoutines : list Routine.t) (routineId : string)
  : M (list Routine.t) :=
  slots ← request (SelectSlots routineId) (selectSlots gw routineId);
  match slots with
  | Some (slot :: rest) =>
      ret (default updatedRoutines
             (updateExisting routineId
                (Routine.with_slots (plainSlot <$> slot :: rest))
                updatedRoutines))
  | _ => ret updatedRoutines
  end.

Fixpoint fixAll (routineIds : list string) (updatedRoutines : list Routine.t)
  : M (list Routine.t) :=
  match routineIds with
  | [] => ret updatedRoutines
  | routineId :: rest =>
      updatedRoutines ← fixOne updatedRoutines routineId;
      fixAll rest updatedRoutines
  end.

Definition fixMissingSlotData (rs : list Routine.t) : M (list Routine.t) :=
  offline ← gets isOffline;
  match rs with
  | [] => ret rs
  | _ =>
      if offline : bool then ret rs
      else
        try_catch
          (let incompleteRoutines :=
             filter (λ r, Routine.hasSlotData r = false) rs in
           match incompleteRoutines with
           | [] => ret rs
           | _ =>
               let routinesToFix :=
                 option_list (find Routine.isActive rs) ++
                 filter (λ r, Routine.isActive r = false) incompleteRoutines in
               fixAll (uniqueIds (Routine.id <$> routinesToFix)) rs
           end)
          (λ _, ret rs)
  end.

(** [copy = [...base]; index = copy.findIndex(r => r.id === routineId);
    if (index >= 0) { copy[index] = { ...copy[index], slots };
    setRoutines(copy) }]: the copy. *)
Definition publishSlots (routineId : string) (slots : list Slot.t)
    (base : list Routine.t) : M (list Routine.t) :=
  match updateExisting routineId (Routine.with_slots slots) base with
  | Some copy => setRoutines (λ _, copy);; ret copy
  | None => ret base
  end.

(** The slots of the active routine, published step by step. *)
Definition loadActiveSlots (mappedBasicRoutines : list Routine.t)
    (activeRoutine : Routine.t) : M unit :=
  let activeId := Routine.id activeRoutine in
  activeSlots ← request (SelectSlots activeId) (selectSlots gw activeId);
  match activeSlots with
  | Some (slot :: rest) =>
      let formattedActiveSlots := plainSlot <$> slot :: rest in
      updatedRoutines ←
        publishSlots activeId formattedActiveSlots mappedBasicRoutines;
      let courseIds := usedIds (Slot.courseId <$> formattedActiveSlots) in
      let teacherIds := usedIds (Slot.teacherId <$> formattedActiveSlots) in
      match courseIds, teacherIds with
      | [], [] => ret ()
      | _, _ =>
          courses ←
            match courseIds with
            | [] => ret []
            | _ => data ← request (SelectCourses courseIds)
                                   (selectCourses gw courseIds);
                   ret (default [] data)
            end;
          teachers ←
            match teacherIds with
            | [] => ret []
            | _ => data ← request (SelectTeachers teacherIds)
                                   (selectTeachers gw teacherIds);
                   ret (default [] data)
            end;
          publishSlots activeId
            (enrichSlot courses teachers <$> formattedActiveSlots)
            updatedRoutines;;
          ret ()
      end
  | _ =>
      (* no slots from the backend: recover them from the cache *)
      existingRoutines ← getAllFromIndexedDB;
      match find (λ r, bool_decide (Routine.id r = activeId))
                 existingRoutines with
      | Some existingActive =>
          if Routine.hasSlotData existingActive then
            publishSlots activeId (Routine.slots existingActive)
                         mappedBasicRoutines;;
            ret ()
          else ret ()
      | None => ret ()
      end
  end.

(** The [try] block of the progressive load. *)
Definition progressiveLoad (forceRefresh : bool) : M (option Deferred) :=
  basicRoutines ← request SelectRoutines (selectRoutines gw);
  match basicRoutines with
  | Some (row :: rows) =>
      let mappedBasicRoutines := mapBasicRoutine <$> row :: rows in
      existingRoutines ← getAllFromIndexedDB;
      (if (0 <? length existingRoutines)%nat && someHaveSlots existingRoutines
          && negb forceRefresh
       then setRoutines (λ _, existingRoutines)
       else setRoutines (λ _, mappedBasicRoutines));;
      match find Routine.isActive mappedBasicRoutines with
      | Some activeRoutine => loadActiveSlots mappedBasicRoutines activeRoutine
      | None => ret ()
      end;;
      ret (Some (RemainingSlots mappedBasicRoutines))
  | _ => setRoutines (λ _, []);; ret None
  end.

(** The [catch (fetchErr)] of the progressive load. *)
Definition recoverFromCache (fetchErr : string) : M unit :=
  offlineRoutines ← getAllFromIndexedDB;
  match offlineRoutines with
  | [] => setRoutines (λ _, [])
  | _ =>
      fixedRoutines ← fixMissingSlotData offlineRoutines;
      setRoutines (λ _, fixedRoutines);;
      saveAllToIndexedDB fixedRoutines
  end;;
  runDiagnostics;;
  setError (Some (if Js.truthy fetchErr then fetchErr
                  else "Failed to load routines")).

Definition loadRoutinesProgressive (forceRefresh isAdminView : bool)
  : M (option Deferred) :=
  try_finally
    (try_catch
       (setLoading true;;
        setError None;;
        let forceRefresh := isAdminView || forceRefresh in
        (if forceRefresh then modify (set_lastFetched None) else ret ());;
        offline ← gets isOffline;
        if offline : bool then
          offlineRoutines ← getAllFromIndexedDB;
          match offlineRoutines with
          | [] => setRoutines (λ _, [])
          | _ => setRoutines (λ _, offlineRoutines)
          end;;
          ret None
        else
          decision ← consultCache (cacheDurationMsProgressive isAdminView)
                                  forceRefresh isAdminView;
          match decision with
          | Served => ret (Some BackgroundRefresh)
          | Refetch forceRefresh =>
              try_catch (progressiveLoad forceRefresh)
                        (λ fetchErr, recoverFromCache fetchErr;; ret None)
          end)
       (λ err,
          setError (Some err);;
          offline ← gets isOffline;
          (if negb offline then loadFromCache else ret ());;
          ret None))
    (set_loading false).

(** The slots found for one routine that is not active. *)
Definition loadOtherSlots (routine : Routine.t) : M (string * list Slot.t) :=
  let routineId := Routine.id routine in
  try_catch
    (slots ← request (SelectSlots routineId) (selectSlots gw routineId);
     match slots with
     | Some (slot :: rest) => ret (routineId, plainSlot <$> slot :: rest)
     | _ =>
         existingRoutines ← getAllFromIndexedDB;
         match find (λ r, bool_decide (Routine.id r = routineId))
                    existingRoutines with
         | Some existingRoutine => ret (routineId, Routine.slots existingRoutine)
         | None => ret (routineId, [])
         end
     end)
    (λ _, ret (routineId, [])).

(** [results.forEach(...)] on the copy of the basic routines *)
Definition applySlotResults (results : list (string * list Slot.t))
    (fullRoutines : list Routine.t) : list Routine.t :=
  foldl (λ full result,
           match result.2 with
           | [] => full
           | _ => default full
                    (updateExisting result.1 (Routine.with_slots result.2) full)
           end) fullRoutines results.

(** The work [loadRoutines] leaves behind. *)
Definition runDeferred (job : Deferred) : M unit :=
  match job with
  | BackgroundRefresh =>
      try_catch
        (freshData ← request FetchRoutines (fetchRoutines gw);
         match freshData with
         | [] => ret ()
         | _ =>
             saveAllToIndexedDB freshData;;
             currentTime ← gets now;
             modify (set_lastFetched (Some currentTime))
         end)
        (λ _, ret ())
  | RemainingSlots mappedBasicRoutines =>
      try_catch
        (results ← mapM loadOtherSlots
                     (filter (λ r, Routine.isActive r = false)
                             mappedBasicRoutines);
         fixedRoutines ←
           fixMissingSlotData (applySlotResults results mappedBasicRoutines);
         setRoutines (λ _, fixedRoutines);;
         saveAllToIndexedDB fixedRoutines;;
         currentTime ← gets now;
         modify (set_lastFetched (Some currentTime)))
        (λ _, ret ())
  end.

(** A sequence of calls of [activateRoutine], each made offline ([true]) or
    online; the caller goes on after a call that throws. *)
Definition activateCall (w : World) (call : bool * string) : World :=
  (activateRoutine call.2 (set_isOffline call.1 w)).2.

Definition activateCalls (calls : list (bool * string)) (w : World) : World :=
  foldl activateCall w calls.

(** *** Passes in flight

    Every render of the hook makes [syncOfflineChanges] anew, and the guard
    of the function reads the [isOffline] and the [syncInProgress] of the
    render that made it: they are constants of the closure.
    [setSyncInProgress] writes the state of the hook, which only a closure
    made by a later render reads.  An invocation runs up to its first
    [await] at once: that is the guard and [setSyncInProgress(true)].  The
    rest of the pass ([syncPass]) ends in the [finally]. *)

(** What a [syncOfflineChanges] has captured. *)
Record Closure : Type := mkClosure {
  c_isOffline : bool;
  c_syncInProgress : bool
}.

(** The closure made by a render of the hook in this state. *)
Definition render (w : World) : Closure :=
  mkClosure (isOffline w) (syncInProgress w).

(** An invocation of the [syncOfflineChanges] of the closure [c] up to its
    first [await]: [None] when the guard returns. *)
Definition syncEnterOf (c : Closure) (w : World) : option World :=
  if c_isOffline c || c_syncInProgress c then None
  else Some (set_syncInProgress true w).

(** The same for the closure of a render that has seen the state as it is:
    that is the invocation [syncOfflineChanges] stands for. *)
Definition syncEnter (w : World) : option World := syncEnterOf (render w) w.

Definition syncPass : M unit :=
  try_finally
    (try_catch
       (offlineRoutines ← getAllFromIndexedDB;
        v ← syncRoutines offlineRoutines (mkSyncVars offlineRoutines false 0);
        if hasChanges v then
          saveAllToIndexedDB (syncedRoutines v);;
          setRoutines (λ _, syncedRoutines v);;
          currentTime ← gets now;
          modify (set_lastFetched (Some currentTime))
        else ret ())
       (λ _, setError (Some "Failed to sync offline changes")))
    (set_syncInProgress false).

(** The hook while passes are in flight: its state, the closure it has
    handed to its callers at its last render, and the number of passes that
    have passed the guard and have not ended. *)
Record Flights : Type := mkFlights {
  hook : World;
  exposed : Closure;
  inFlight : nat
}.

(** What happens to the hook: React renders it again, and its callers get
    the closure of that render; a caller invokes the [syncOfflineChanges] it
    has; a pass in flight runs to its end; or anything else happens (nothing
    else writes [syncInProgress]). *)
Inductive FlightEvent : Type :=
| Rerender
| Invoke
| Settle
| Other (f : World → World).

Definition flightStep (s : Flights) (e : FlightEvent) : Flights :=
  match e with
  | Rerender => mkFlights (hook s) (render (hook s)) (inFlight s)
  | Invoke =>
      match syncEnterOf (exposed s) (hook s) with
      | None => s
      | Some w => mkFlights w (exposed s) (S (inFlight s))
      end
  | Settle =>
      match inFlight s with
      | 0 => s
      | S n => mkFlights (syncPass (hook s)).2 (exposed s) n
      end
  | Other f =>
      mkFlights (set_syncInProgress (syncInProgress (hook s)) (f (hook s)))
                (exposed s) (inFlight s)
  end.

(** The hook after the events, from a render in the state [w] with no pass
    in flight. *)
Definition runFlights (events : list FlightEvent) (w : World) : Flights :=
  foldl flightStep (mkFlights w (render w) 0) events.

End WithGateway.

#[global] Existing Instances M_ret M_bind.

Arguments fetchWithRetry {G D} gw attempts fetchError : simpl never.

Arguments Gateway : clear implicits.
Arguments World : clear implicits.

(** *** A test double of the gateway

    The backend counts the requests it receives; [failing n] tells whether
    the request number [n] fails; a created entity gets the id [srv-n] from
    the number [n] of the request; a fetch returns the routines the backend
    holds. *)
Module Double.

Record Backend : Type := mkBackend {
  held : list Routine.t;
  count : nat
}.

Section Failing.
Variable failing : nat → bool.

Definition answer {A} (a : A) (b : Backend) : result A * Backend :=
  (if failing (count b) then Throw "network error" else Ok a,
   mkBackend (held b) (S (count b))).

Definition serverId (b : Backend) : string := "srv-" +:+ pretty (count b).

Definition gateway : Gateway Backend unit := {|
  fetchRoutines := λ b, answer (held b) b;
  selectRoutines := λ b, answer None b;
  selectSlots := λ _ b, answer None b;
  selectCourses := λ _ b, answer None b;
  selectTeachers := λ _ b, answer None b;
  runServiceDiagnostics := λ b, ((), b);
  createRoutineService := λ r b,
    answer (Routine.mk (serverId b) (Routine.name r) (Routine.description r)
              (Routine.semester r) (Routine.isActive r) (Routine.createdAt r)
              (Routine.createdBy r) [] false false false false false) b;
  updateRoutineService := λ _ _ b, answer () b;
  deleteRoutineService := λ _ b, answer () b;
  addRoutineSlotService := λ routineId s b,
    answer (Slot.with_id (serverId b) (Slot.with_routineId routineId s)) b;
  updateRoutineSlotService := λ _ _ _ b, answer () b;
  deleteRoutineSlotService := λ _ _ b, answer () b;
  activateRoutineService := λ _ b, answer () b;
  deactivateRoutineService := λ _ b, answer () b;
  bulkImportRoutineSlotsService := λ _ rows b,
    answer (Service.mkReport (length rows) []) b
|}.

End Failing.

(** The backend that serves every request, and the one that serves none. *)
Definition reliable : Gateway Backend unit := gateway (λ _, false).
Definition unreachable : Gateway Backend unit := gateway (λ _, true).

(** A world of the double: offline or not, with the given store and the
    given timestamp of the last fetch; the clock shows 1000000. *)
Definition world (offline : bool) (store : list Routine.t)
    (lastFetched : option Z) : World Backend unit :=
  mkWorld store false None false None offline store lastFetched 1000000
          (mkBackend [] 0) [].

(** Sample entities. *)
Definition routine (id : string) (isActive : bool) : Routine.t :=
  Routine.mk id "Routine" "" "Spring" isActive "2024-01-01" "admin" []
             false false false false false.

Definition slot (id routineId : string) : Slot.t :=
  Slot.mk id routineId "Monday" "09:00:00" "10:00:00" "101" "A" "c1" "t1"
          "Algebra" "MAT101" "Noether" "2024-01-01" false false false.

End Double.
End Hook.

(** ** The routine service, seen from its requests

    The functions of [services/routine.service] that the hook calls to read
    the routines and to add or delete a slot, against the Supabase client
    taken as it is used: each query, awaited, gives the response
    [{ data, error }] or makes the [await] throw. *)

Module RoutineService.

Record PgError : Type := mkError {
  message : string;
  code : string
}.

Inductive answer (A : Type) : Type :=
| Response (data : option A) (error : option PgError)
| Rejects (msg : string).
Arguments Response {A} data error.
Arguments Rejects {A} msg.

(** A row of [routines] with the slots embedded by the select; the embedded
    slots carry no [routine_id] (it is read as empty). *)
Definition RoutineWithSlots : Type :=
  Db.RoutineRow * option (list Hook.RawSlot).

Section WithClient.

(** [B] is the state of the backend. *)
Context {B : Type}.

Record Client : Type := mkClient {
  (* from('routines').select('*, slots:routine_slots(...)').order(...) *)
  selectRoutinesWithSlots : B → answer (list RoutineWithSlots) * B;
  (* from('routine_slots').select('*').eq('routine_id', id) *)
  selectSlotsOf : string → B → answer (list Hook.RawSlot) * B;
  (* from('courses').select('id,name,code').in('id', ids) *)
  selectCoursesIn : list string → B → answer (list Db.CourseRow) * B;
  (* from('teachers').select('id,name').in('id', ids) *)
  selectTeachersIn : list string → B → answer (list Db.TeacherRow) * B;
  (* from('courses').select('name').eq('id', id).single() *)
  selectCourseName : string → B → answer string * B;
  (* from('teachers').select('name').eq('id', id).single() *)
  selectTeacherName : string → B → answer string * B;
  (* from('routine_slots').insert(row).select('*').single() *)
  insertSlot : Db.SlotRow → B → answer Hook.RawSlot * B;
  (* from('routine_slots').select('id').eq('id', slotId)
       .eq('routine_id', routineId).single() *)
  selectSlotId : string → string → B → answer string * B;
  (* from('routine_slots').delete().eq('id', slotId)
       .eq('routine_id', routineId) *)
  deleteSlot : string → string → B → answer unit * B;
  (* from('routines').select('semester').order('semester') *)
  selectSemesters : B → answer (list string) * B
}.

Variable client : Client.

(** *** [fetchRoutines] *)

(** [r.slots && r.slots.length > 0] *)
Definition hasSlots (row : RoutineWithSlots) : bool :=
  match row.2 with Some (_ :: _) => true | _ => false end.

(** The body of the loop over the routines that came without slots. *)
Definition fetchSlotsSeparately (row : RoutineWithSlots) (b : B)
  : RoutineWithSlots * B :=
  if hasSlots row then (row, b)
  else
    match selectSlotsOf client (Db.id row.1) b with
    | (Response (Some (slot :: slots)) None, b) =>
        ((row.1, Some (slot :: slots)), b)
    | (Response _ None, b) => ((row.1, Some []), b)
    | (Response _ (Some _), b) => (row, b)
    | (Rejects _, b) => (row, b)
    end.

Fixpoint fetchMissingSlots (rows : list RoutineWithSlots) (b : B)
  : list RoutineWithSlots * B :=
  match rows with
  | [] => ([], b)
  | row :: rest =>
      let '(row, b) := fetchSlotsSeparately row b in
      let '(rest, b) := fetchMissingSlots rest b in
      (row :: rest, b)
  end.

(** The batch query for the courses or the teachers of the slots: not sent
    for no id; an error of the response leaves the list empty. *)
Definition lookupAll {A} (ids : list string)
    (query : list string → B → answer (list A) * B) (b : B)
  : result (list A) * B :=
  match ids with
  | [] => (Ok [], b)
  | _ =>
      match query ids b with
      | (Response data _, b) => (Ok (default [] data), b)
      | (Rejects msg, b) => (Throw msg, b)
      end
  end.

Definition mapSlot (routineId : string) (courses : list Db.CourseRow)
    (teachers : list Db.TeacherRow) (slot : Hook.RawSlot) : Slot.t :=
  Slot.with_routineId routineId (Hook.formatSlot courses teachers slot).

Definition mapRoutine (courses : list Db.CourseRow)
    (teachers : list Db.TeacherRow) (row : RoutineWithSlots) : Routine.t :=
  Routine.mk (Db.id row.1) (Db.name row.1) (Db.description row.1)
    (Db.semester row.1) (Db.is_active row.1) (Db.created_at row.1)
    (Db.created_by row.1)
    (mapSlot (Db.id row.1) courses teachers <$> default [] row.2)
    false false false false false.

Definition fetchRoutines (b : B) : result (list Routine.t) * B :=
  match selectRoutinesWithSlots client b with
  | (Rejects msg, b) => (Throw msg, b)
  | (Response _ (Some routinesError), b) => (Throw (message routinesError), b)
  | (Response None None, b) => (Ok [], b)
  | (Response (Some []) None, b) => (Ok [], b)
  | (Response (Some routines) None, b) =>
      let '(routines, b) :=
        if (length (List.filter hasSlots routines) <? length routines)%nat
        then fetchMissingSlots routines b
        else (routines, b) in
      let allSlots := routines ≫= (λ row, default [] row.2) in
      let courseIds :=
        Hook.uniqueIds (Hook.presentIds (Hook.raw_course_id <$> allSlots)) in
      let teacherIds :=
        Hook.uniqueIds (Hook.presentIds (Hook.raw_teacher_id <$> allSlots)) in
      match lookupAll courseIds (selectCoursesIn client) b with
      | (Throw msg, b) => (Throw msg, b)
      | (Ok allCourses, b) =>
          match lookupAll teacherIds (selectTeachersIn client) b with
          | (Throw msg, b) => (Throw msg, b)
          | (Ok allTeachers, b) =>
              (Ok (mapRoutine allCourses allTeachers <$> routines), b)
          end
      end
  end.

(** *** [addRoutineSlot] *)

(** The name of the course or teacher of a new slot: the one given, or the
    one found for the id when none is given. *)
Definition resolveName (given id : string)
    (query : string → B → answer string * B) (b : B) : result string * B :=
  if Js.truthy id && negb (Js.truthy given) then
    match query id b with
    | (Response (Some name) _, b) => (Ok name, b)
    | (Response None _, b) => (Ok given, b)
    | (Rejects msg, b) => (Throw msg, b)
    end
  else (Ok given, b).

(** The test on the message of the error of the insert. *)
Definition missingNameColumns (msg : string) : bool :=
  let quoted name := String "034" (name +:+ String "034" EmptyString) in
  Js.includes msg ("column " +:+ quoted "course_name" +:+ " of relation "
                   +:+ quoted "routine_slots" +:+ " does not exist") ||
  Js.includes msg ("column " +:+ quoted "teacher_name" +:+ " of relation "
                   +:+ quoted "routine_slots" +:+ " does not exist").

(** The slot returned for the row as stored. *)
Definition storedSlot (data : Hook.RawSlot) (courseName teacherName : string)
  : Slot.t :=
  Slot.mk (Hook.raw_id data) (Hook.raw_routine_id data)
    (Hook.raw_day_of_week data) (Hook.raw_start_time data)
    (Hook.raw_end_time data) (Hook.orEmpty (Hook.raw_room_number data))
    (Hook.orEmpty (Hook.raw_section data))
    (Hook.orEmpty (Hook.raw_course_id data))
    (Hook.orEmpty (Hook.raw_teacher_id data))
    courseName EmptyString teacherName (Hook.raw_created_at data)
    false false false.

Definition noDataReturned : string :=
  "Failed to create routine slot: No data returned".

Definition addRoutineSlot (routineId : string) (slot : Slot.t) (b : B)
  : result Slot.t * B :=
  if negb (Js.truthy routineId) then (Throw "Missing routine ID", b)
  else if negb (Js.truthy (Slot.dayOfWeek slot))
  then (Throw "Day of week is required", b)
  else if negb (Js.truthy (Slot.startTime slot))
  then (Throw "Start time is required", b)
  else if negb (Js.truthy (Slot.endTime slot))
  then (Throw "End time is required", b)
  else
    match resolveName (Slot.courseName slot) (Slot.courseId slot)
                      (selectCourseName client) b with
    | (Throw msg, b) => (Throw msg, b)
    | (Ok courseName, b) =>
        match resolveName (Slot.teacherName slot) (Slot.teacherId slot)
                          (selectTeacherName client) b with
        | (Throw msg, b) => (Throw msg, b)
        | (Ok teacherName, b) =>
            let row :=
              Db.mkSlotRow routineId
                (Js.textOrNull (Slot.courseId slot))
                (Js.textOrNull (Slot.teacherId slot))
                (Js.textOrNull courseName) (Js.textOrNull teacherName)
                (Slot.dayOfWeek slot) (Slot.startTime slot)
                (Slot.endTime slot)
                (Js.textOrNull (Slot.roomNumber slot))
                (Js.textOrNull (Slot.section slot)) in
            match insertSlot client row b with
            | (Rejects msg, b) => (Throw msg, b)
            | (Response _ (Some error), b) =>
                if missingNameColumns (message error) then
                  match insertSlot client (Service.fallbackSlot row) b with
                  | (Rejects msg, b) => (Throw msg, b)
                  | (Response _ (Some fallbackError), b) =>
                      (Throw (message fallbackError), b)
                  | (Response None None, b) => (Throw noDataReturned, b)
                  | (Response (Some fallbackData) None, b) =>
                      (Ok (storedSlot fallbackData courseName teacherName), b)
                  end
                else (Throw (message error), b)
            | (Response None None, b) => (Throw noDataReturned, b)
            | (Response (Some data) None, b) =>
                (Ok (storedSlot data courseName teacherName), b)
            end
        end
    end.

(** *** [deleteRoutineSlot] *)

(** [error.code === 'PGRST116']: no row. *)
Definition notFound (error : PgError) : bool :=
  bool_decide (code error = "PGRST116").

Definition stillExists : string :=
  "Failed to delete slot: Record still exists after deletion attempt".

Definition deleteRoutineSlot (routineId slotId : string) (b : B)
  : result unit * B :=
  if negb (Js.truthy routineId) then (Throw "Missing routine ID", b)
  else if negb (Js.truthy slotId) then (Throw "Missing slot ID", b)
  else
    match selectSlotId client slotId routineId b with
    | (Rejects msg, b) => (Throw msg, b)
    | (Response _ (Some fetchError), b) =>
        if notFound fetchError then (Ok (), b)
        else (Throw (message fetchError), b)
    | (Response None None, b) => (Ok (), b)
    | (Response (Some _) None, b) =>
        match deleteSlot client slotId routineId b with
        | (Rejects msg, b) => (Throw msg, b)
        | (Response _ (Some error), b) => (Throw (message error), b)
        | (Response _ None, b) =>
            match selectSlotId client slotId routineId b with
            | (Rejects msg, b) => (Throw msg, b)
            | (Response checkSlot checkError, b) =>
                match checkError with
                | Some error =>
                    if negb (notFound error) then (Throw (message error), b)
                    else match checkSlot with
                         | Some _ => (Throw stillExists, b)
                         | None => (Ok (), b)
                         end
                | None =>
                    match checkSlot with
                    | Some _ => (Throw stillExists, b)
                    | None => (Ok (), b)
                    end
                end
            end
        end
    end.

(** What the answer of the select on a slot must be for the slot to count
    as absent. *)
Definition reportsAbsent (a : answer string) : Prop :=
  match a with
  | Response None None => True
  | Response _ (Some error) => notFound error = true
  | _ => False
  end.

(** *** [getAllSemesters] *)

Definition getAllSemesters (b : B) : list string * B :=
  match selectSemesters client b with
  | (Response data None, b) => (Hook.uniqueIds (default [] data), b)
  | (Response _ (Some _), b) => ([], b)
  | (Rejects _, b) => ([], b)
  end.

End WithClient.

Arguments Client : clear implicits.

End RoutineService.

(** ** The routine page ([pages/RoutinePage]) *)

Module Page.

(** An entry of [enrichedSlots]: the slot, the course and the teacher found
    for it, and the texts shown. *)
Record EnrichedSlot : Type := mkEnriched {
  slot : Slot.t;
  course : option Db.CourseRow;
  teacher : option Db.TeacherRow;
  courseName : string;
  courseCode : string;
  teacherName : string;
  roomNumber : string;
  dayOfWeek : string;
  startTime : string;
  endTime : string
}.

(** [currentRoutine] *)
Definition currentRoutine (routines : list Routine.t)
    (selectedRoutineId : string) : option Routine.t :=
  if Js.truthy selectedRoutineId
  then find (λ r, bool_decide (Routine.id r = selectedRoutineId)) routines
  else match find Routine.isActive routines with
       | Some r => Some r
       | None => head routines
       end.




(** [text && text.toLowerCase().includes(searchTerm.toLowerCase())] *)
Definition mentions (text searchTerm : string) : bool :=
  Js.truthy text &&
  Js.includes (Js.toLowerCase text) (Js.toLowerCase searchTerm).

Definition matchesSearch (searchTerm : string) (e : EnrichedSlot) : bool :=
  bool_decide (searchTerm = EmptyString) ||
  mentions (courseName e) searchTerm ||
  match course e with
  | Some c => mentions (Db.c_code c) searchTerm
  | None => false
  end ||
  mentions (roomNumber e) searchTerm ||
  mentions (teacherName e) searchTerm.

(** [format(selectedDate, 'EEEE').toLowerCase() ===
    slot.dayOfWeek.toLowerCase()]; [selectedDay] is the name of the day. *)
Definition matchesDay (selectedDay : string) (e : EnrichedSlot) : bool :=
  bool_decide (Js.toLowerCase selectedDay = Js.toLowerCase (dayOfWeek e)).

(** The test of [enrichedSlots.filter] in [filteredSlots]. *)
Definition shown (searchTerm selectedDay : string) (e : EnrichedSlot) : bool :=
  if negb (Js.truthy (dayOfWeek e)) || negb (Js.truthy (startTime e)) ||
     negb (Js.truthy (endTime e))
  then false
  else matchesSearch searchTerm e && matchesDay selectedDay e.


End Page.

(** ** The diagnostics of the hook ([runServiceDiagnostics]) *)

Module Diagnostics.

(** The tables probed, in the order of the probes. *)
Inductive Table : Type :=
| Health
| Routines
| RoutineSlots
| Teachers
| Courses.

#[global] Instance Table_eq_dec : EqDecision Table.
Proof. solve_decision. Defined.

(** What a probe, awaited, gives: the response with its error, if any, or
    the exception the [await] throws. *)
Inductive Probe : Type :=
| Answered (error : option string)
| Rejected (msg : string).

Record Results : Type := mkResults {
  supabaseConnection : bool;
  routineTableAccess : bool;
  routineSlotsTableAccess : bool;
  teachersTableAccess : bool;
  coursesTableAccess : bool;
  issues : list string
}.

Definition initial : Results := mkResults false false false false false [].

Definition access (t : Table) (r : Results) : bool :=
  match t with
  | Health => supabaseConnection r
  | Routines => routineTableAccess r
  | RoutineSlots => routineSlotsTableAccess r
  | Teachers => teachersTableAccess r
  | Courses => coursesTableAccess r
  end.

Definition setAccess (t : Table) (v : bool) (r : Results) : Results :=
  match t with
  | Health =>
      mkResults v (routineTableAccess r) (routineSlotsTableAccess r)
                (teachersTableAccess r) (coursesTableAccess r) (issues r)
  | Routines =>
      mkResults (supabaseConnection r) v (routineSlotsTableAccess r)
                (teachersTableAccess r) (coursesTableAccess r) (issues r)
  | RoutineSlots =>
      mkResults (supabaseConnection r) (routineTableAccess r) v
                (teachersTableAccess r) (coursesTableAccess r) (issues r)
  | Teachers =>
      mkResults (supabaseConnection r) (routineTableAccess r)
                (routineSlotsTableAccess r) v (coursesTableAccess r)
                (issues r)
  | Courses =>
      mkResults (supabaseConnection r) (routineTableAccess r)
                (routineSlotsTableAccess r) (teachersTableAccess r) v
                (issues r)
  end.

Definition pushIssue (issue : string) (r : Results) : Results :=
  mkResults (supabaseConnection r) (routineTableAccess r)
            (routineSlotsTableAccess r) (teachersTableAccess r)
            (coursesTableAccess r) (issues r ++ [issue]).

Definition failure (t : Table) : string :=
  match t with
  | Health => "Connection to Supabase failed: "
  | Routines => "Access to routines table failed: "
  | RoutineSlots => "Access to routine_slots table failed: "
  | Teachers => "Access to teachers table failed: "
  | Courses => "Access to courses table failed: "
  end.

Section WithBackend.
Context {B : Type} (probe : Table → B → Probe * B).

(** The probes one after the other, inside the [try]; the [catch] ends
    them. *)
Fixpoint runProbes (tables : list Table) (r : Results) (b : B)
  : Results * B :=
  match tables with
  | [] => (r, b)
  | t :: rest =>
      match probe t b with
      | (Answered error, b) =>
          let r := setAccess t (negb (bool_decide (is_Some error))) r in
          let r := match error with
                   | Some msg => pushIssue (failure t +:+ msg) r
                   | None => r
                   end in
          runProbes rest r b
      | (Rejected msg, b) =>
          (pushIssue ("Unexpected error during diagnostics: " +:+ msg) r, b)
      end
  end.

Definition runServiceDiagnostics (b : B) : Results * B :=
  runProbes [Health; Routines; RoutineSlots; Teachers; Courses] initial b.

End WithBackend.

End Diagnostics.

(** * Sample worlds and backends

    The stores, backends and import rows at which the properties below are
    evaluated. *)

Section Scenarios.
Import Hook.


(** A routine with a slot, and a store that holds it and was never
    fetched. *)
Definition cachedRoutine : Routine.t :=
  Routine.with_slots [Double.slot "s1" "r1"] (Double.routine "r1" true).

Definition staleCache : World Double.Backend unit :=
  Double.world false [cachedRoutine] None.

(** A slot created offline, the routine that owns it, and another routine
    marked for deletion. *)
Definition offlineSlot : Slot.t :=
  Slot.with_isOffline true (Double.slot "temp-slot-1" "B").

Definition slotOwner : Routine.t :=
  Routine.with_slots [offlineSlot] (Double.routine "B" true).


(** The creation of a routine while offline and, with the clock at 1000000,
    the temporary id it receives. *)
Definition createdOffline :=
  createRoutine Double.reliable (Double.routine "" false) "k3x9q2a"
                "2024-01-01T00:00:00.000Z" (Double.world true [] None).

Definition temporaryId : string := "temp-1000000-k3x9q2a".

(** A store whose routine has one slot created offline. *)
Definition ownerOffline : World Double.Backend unit :=
  Double.world true [slotOwner] None.

(** A routine activated offline, and a store of two routines of which it is
    the first. *)
Definition activatedOffline : Routine.t :=
  Routine.with_needsActivationSync true (Double.routine "A" true).

Definition twoRoutines : World Double.Backend unit :=
  Double.world true [activatedOffline; Double.routine "B" false] None.

(** The backend with the same two routines, whose second request fails. *)
Definition backendTwoRoutines : Db.t :=
  Db.mk [Db.mkRoutineRow "A" "Routine" "" "Spring" true "2024-01-01" "admin";
         Db.mkRoutineRow "B" "Routine" "" "Spring" false "2024-01-01" "admin"]
        [] [] [] 0
        (λ n, if (n =? 1)%nat then Some "connection lost" else None).

(** [ILIKE] without wildcards in the pattern, on texts of one case. *)
Definition ilikeExact (pattern text : string) : bool :=
  bool_decide (pattern = text).

(** An import row that names its teacher and no course. *)
Definition importRow (day start_time end_time : string) : Service.ImportRow :=
  Service.mkImportRow day start_time end_time None None None (Some "Noether")
                      None None None None.

(** The routine of the backends below. *)
Definition backendRoutine : Db.RoutineRow :=
  Db.mkRoutineRow "r1" "Routine" "" "Spring" true "2024-01-01" "admin".

(** A backend whose routine has no slot, and one whose routine has a slot
    on Monday from 09:00 to 10:00. *)
Definition backendEmpty : Db.t :=
  Db.mk [backendRoutine] [] [] [] 0 (λ _, None).

Definition mondayNine : Db.SlotRow :=
  Db.mkSlotRow "r1" None None None (Some "Noether") "Monday"
               "09:00:00" "10:00:00" None None.

Definition backendMonday : Db.t :=
  Db.mk [backendRoutine] [mondayNine] [] [] 0 (λ _, None).

(** The import of the service, on decimal numbers and with [ilikeExact]. *)
Definition import :=
  @Service.bulkImportRoutineSlots Js.DecimalNumeric ilikeExact.

(** A row whose times are already written on 24 hours. *)
Definition plainTimes : Service.ImportRow :=
  importRow "Tuesday" "09:30" "10:30".


(** A Supabase client over a table of slots, for the one routine of the
    backends above and without courses or teachers.  A select of a single
    row that finds none answers with the error PGRST116. *)
Definition noRows {A} : RoutineService.answer A :=
  RoutineService.Response None
    (Some (RoutineService.mkError "no rows returned" "PGRST116")).

Definition isSlot (slotId routineId : string) (s : RawSlot) : bool :=
  bool_decide (raw_id s = slotId) && bool_decide (raw_routine_id s = routineId).

Definition tableClient : RoutineService.Client (list RawSlot) :=
  RoutineService.mkClient
    (λ b, (RoutineService.Response
             (Some [(backendRoutine,
                     Some (List.filter
                             (λ s, bool_decide (raw_routine_id s = "r1"))
                             b))])
             None, b))
    (λ routineId b,
       (RoutineService.Response
          (Some (List.filter
                   (λ s, bool_decide (raw_routine_id s = routineId)) b))
          None, b))
    (λ _ b, (RoutineService.Response (Some []) None, b))
    (λ _ b, (RoutineService.Response (Some []) None, b))
    (λ _ b, (noRows, b))
    (λ _ b, (noRows, b))
    (λ row b,
       let data :=
         mkRawSlot ("slot-" +:+ pretty (length b)) (Db.routine_id row)
           (Db.day_of_week row) (Db.start_time row) (Db.end_time row)
           (Db.room_number row) (Db.section row) (Db.course_id row)
           (Db.teacher_id row) "2024-01-02" in
       (RoutineService.Response (Some data) None, b ++ [data]))
    (λ slotId routineId b,
       (match find (isSlot slotId routineId) b with
        | Some s => RoutineService.Response (Some (raw_id s)) None
        | None => noRows
        end, b))
    (λ slotId routineId b,
       (RoutineService.Response None None,
        List.filter (λ s, negb (isSlot slotId routineId s)) b))
    (λ b, (RoutineService.Response (Some ["Spring"; "Spring"; "Summer"]) None,
           b)).

(** The table with the slot of Monday. *)
Definition mondaySlot : RawSlot :=
  mkRawSlot "s1" "r1" "Monday" "09:00:00" "10:00:00" None None None None
            "2024-01-01".

Definition tableMonday : list RawSlot := [mondaySlot].

(** The store of [twoRoutines] once the connection is back, and a store
    with [cachedRoutine] that was fetched a moment ago. *)
Definition pendingOnline : World Double.Backend unit :=
  Double.world false [activatedOffline; Double.routine "B" false] None.

Definition freshCache : World Double.Backend unit :=
  Double.world false [cachedRoutine] (Some 999000%Z).

(** Two routines of which the second is active, offline. *)
Definition secondActive : World Double.Backend unit :=
  Double.world true [Double.routine "A" false; Double.routine "B" true] None.

End Scenarios.

(** * Properties *)

(** ** The Local Store *)

Section StoreProperties.
Implicit Types (store : list Routine.t) (item r : Routine.t).

(** Saving an item over the stored item of its id. *)
Lemma put_replaces item saved r rest :
  Forall (λ x, Routine.id x ≠ Routine.id item) saved →
  Routine.id r = Routine.id item →
  LocalStore.put item (saved ++ r :: rest) = saved ++ item :: rest.
Proof.
  intros Hfresh Hid. unfold LocalStore.put.
  rewrite list_find_app_r by by apply list_find_None.
  simpl. rewrite decide_True by done. simpl.
  by rewrite insert_app_r_alt, Nat.sub_diag.
Qed.

(** Saving the routines of the store, each changed by [f], which keeps the
    ids: the store holds the changed routines. *)
Lemma putAll_fmap_from (f : Routine.t → Routine.t) saved todo :
  (∀ r, Routine.id (f r) = Routine.id r) →
  NoDup (Routine.id <$> saved ++ todo) →
  LocalStore.putAll (f <$> todo) ((f <$> saved) ++ todo)
    = (f <$> saved) ++ (f <$> todo).
Proof.
  intros Hf. revert saved.
  induction todo as [|r todo IH]; intros saved Hnodup; [done|].
  unfold LocalStore.putAll in *. rewrite fmap_cons. cbn [foldl].
  rewrite put_replaces; [|..|by rewrite Hf].
  - replace ((f <$> saved) ++ f r :: todo)
      with ((f <$> saved ++ [r]) ++ todo)
      by (by rewrite fmap_app, <- app_assoc).
    replace ((f <$> saved) ++ f r :: (f <$> todo))
      with ((f <$> saved ++ [r]) ++ (f <$> todo))
      by (by rewrite fmap_app, <- app_assoc).
    apply IH. by rewrite <- app_assoc.
  - apply Forall_fmap, Forall_forall. intros x Hx. simpl. rewrite !Hf.
    rewrite fmap_app, fmap_cons in Hnodup.
    apply NoDup_app in Hnodup as (_ & Hdisjoint & _).
    intros Heq. apply (Hdisjoint (Routine.id x)).
    + by apply list_elem_of_fmap_2.
    + rewrite Heq. by left.
Qed.

Lemma putAll_fmap (f : Routine.t → Routine.t) store :
  (∀ r, Routine.id (f r) = Routine.id r) →
  NoDup (Routine.id <$> store) →
  LocalStore.putAll (f <$> store) store = f <$> store.
Proof. intros Hf Hnodup. by apply (putAll_fmap_from f []). Qed.

Lemma fmap_keeps_ids (f : Routine.t → Routine.t) store :
  (∀ r, Routine.id (f r) = Routine.id r) →
  Routine.id <$> (f <$> store) = Routine.id <$> store.
Proof.
  intros Hf. rewrite <- list_fmap_compose. apply list_fmap_ext.
  intros i r _. apply Hf.
Qed.

(** After every routine got [isActive := (id = routineId)], the routine of
    that id is the one active routine. *)
Lemma activeIds_none (f : Routine.t → Routine.t) routineId store :
  (∀ r, Routine.id (f r) = Routine.id r) →
  (∀ r, Routine.isActive (f r) = bool_decide (Routine.id r = routineId)) →
  routineId ∉ Routine.id <$> store →
  Hook.activeIds (f <$> store) = [].
Proof.
  intros Hid Hactive. unfold Hook.activeIds.
  induction store as [|r store IH]; intros Hnotin; [done|].
  rewrite fmap_cons in Hnotin. apply not_elem_of_cons in Hnotin as [Hne Hnotin].
  rewrite fmap_cons, filter_cons_False; [by apply IH|].
  rewrite Hactive. intros Htrue%bool_decide_eq_true. congruence.
Qed.

Lemma activeIds_one (f : Routine.t → Routine.t) routineId store :
  (∀ r, Routine.id (f r) = Routine.id r) →
  (∀ r, Routine.isActive (f r) = bool_decide (Routine.id r = routineId)) →
  NoDup (Routine.id <$> store) →
  routineId ∈ Routine.id <$> store →
  Hook.activeIds (f <$> store) = [routineId].
Proof.
  intros Hid Hactive.
  induction store as [|r store IH]; intros Hnodup Hin.
  { by apply elem_of_nil in Hin. }
  rewrite fmap_cons in Hnodup, Hin. apply NoDup_cons in Hnodup as [Hfresh Hnodup].
  destruct (decide (Routine.id r = routineId)) as [Heq|Hne].
  - pose proof (activeIds_none f routineId store Hid Hactive) as Hnone.
    unfold Hook.activeIds in *. rewrite fmap_cons, filter_cons_True.
    + rewrite fmap_cons, Hid, Heq, Hnone; [done|]. by rewrite <- Heq.
    + rewrite Hactive. by apply bool_decide_eq_true.
  - apply elem_of_cons in Hin as [Hin|Hin]; [congruence|].
    unfold Hook.activeIds in *. rewrite fmap_cons, filter_cons_False.
    + by apply IH.
    + rewrite Hactive. intros Htrue%bool_decide_eq_true. congruence.
Qed.

(** Saving an item whose id is not in the store adds it at the end. *)
Lemma put_fresh item store :
  Routine.id item ∉ Routine.id <$> store →
  LocalStore.put item store = store ++ [item].
Proof.
  intros Hfresh. unfold LocalStore.put.
  destruct (list_find _ store) as [[i r]|] eqn:Hfind; [|done].
  apply list_find_Some in Hfind as (Hi & Hid & _).
  destruct Hfresh. rewrite <- Hid.
  apply list_elem_of_fmap_2. by eapply list_elem_of_lookup_2.
Qed.

(** A save adds at most the id of the item to the ids of the store. *)
Lemma put_ids item store :
  Routine.id <$> LocalStore.put item store = Routine.id <$> store ∨
  Routine.id <$> LocalStore.put item store
    = (Routine.id <$> store) ++ [Routine.id item].
Proof.
  unfold LocalStore.put.
  destruct (list_find _ store) as [[i r]|] eqn:Hfind.
  - left. apply list_find_Some in Hfind as (Hi & Hid & _).
    rewrite list_fmap_insert. apply list_insert_id.
    by rewrite list_lookup_fmap, Hi, <- Hid.
  - right. by rewrite fmap_app.
Qed.

Lemma putAll_ids items store i :
  i ∈ Routine.id <$> LocalStore.putAll items store →
  i ∈ Routine.id <$> store ∨ i ∈ Routine.id <$> items.
Proof.
  unfold LocalStore.putAll. revert store.
  induction items as [|item items IH]; intros store; simpl; [by left|].
  intros Hin. destruct (IH _ Hin) as [Hstore|Hitems].
  - destruct (put_ids item store) as [Heq|Heq]; rewrite Heq in Hstore.
    + by left.
    + apply elem_of_app in Hstore as [Hstore|Hitem]; [by left|].
      right. apply list_elem_of_singleton in Hitem as ->.
      apply elem_of_cons. by left.
  - right. apply elem_of_cons. by right.
Qed.

(** Saving items of distinct ids, none of which is in the store, adds them
    in order. *)
Lemma putAll_fresh items store :
  NoDup (Routine.id <$> items) →
  Forall (λ x, Routine.id x ∉ Routine.id <$> store) items →
  LocalStore.putAll items store = store ++ items.
Proof.
  unfold LocalStore.putAll. revert store.
  induction items as [|item items IH]; intros store Hnodup Hfresh; simpl.
  - by rewrite app_nil_r.
  - rewrite fmap_cons in Hnodup. apply NoDup_cons in Hnodup as [Hitem Hnodup].
    apply Forall_cons in Hfresh as [Hfirst Hfresh].
    rewrite put_fresh by done. rewrite IH; [by rewrite <- app_assoc|done|].
    apply Forall_forall. intros x Hx.
    rewrite fmap_app. intros [Hstore|Hlast]%elem_of_app.
    + rewrite Forall_forall in Hfresh. by apply (Hfresh x).
    + apply list_elem_of_singleton in Hlast. apply Hitem. rewrite <- Hlast.
      by apply list_elem_of_fmap_2.
Qed.

(** With distinct ids, the update of the routine of an id is a map over the
    routines. *)
Lemma updateExisting_fmap routineId (f : Routine.t → Routine.t) store :
  NoDup (Routine.id <$> store) →
  default store (Hook.updateExisting routineId f store)
    = (λ x, if decide (Routine.id x = routineId) then f x else x) <$> store.
Proof.
  intros Hnodup. unfold Hook.updateExisting.
  destruct (list_find _ store) as [[i r]|] eqn:Hfind; simpl.
  - apply list_find_Some in Hfind as (Hi & Hid & _).
    apply list_eq. intros j. rewrite list_lookup_fmap.
    destruct (decide (i = j)) as [<-|Hne].
    + rewrite list_lookup_insert_eq by by eapply lookup_lt_Some.
      rewrite Hi. simpl. by rewrite decide_True.
    + rewrite list_lookup_insert_ne by done.
      destruct (store !! j) as [y|] eqn:Hj; simpl; [|done].
      rewrite decide_False; [done|]. intros Hy. apply Hne.
      eapply NoDup_lookup; [exact Hnodup| |].
      * by rewrite list_lookup_fmap, Hi.
      * by rewrite list_lookup_fmap, Hj, Hid; simpl; rewrite Hy.
  - apply list_find_None in Hfind.
    apply list_eq. intros j. rewrite list_lookup_fmap.
    destruct (store !! j) as [y|] eqn:Hj; simpl; [|done].
    rewrite decide_False; [done|].
    by eapply (Forall_lookup_1 _ _ _ _ Hfind).
Qed.

Lemma updateExisting_found routineId (f : Routine.t → Routine.t) store :
  is_Some (Hook.updateExisting routineId f store)
  ↔ routineId ∈ Routine.id <$> store.
Proof.
  unfold Hook.updateExisting.
  destruct (list_find _ store) as [[i r]|] eqn:Hfind; simpl.
  - apply list_find_Some in Hfind as (Hi & Hid & _).
    split; [intros _|by eauto]. rewrite <- Hid.
    apply list_elem_of_fmap_2. by eapply list_elem_of_lookup_2.
  - apply list_find_None in Hfind. split; [by intros [? [=]]|].
    intros (y & -> & Hy)%list_elem_of_fmap.
    rewrite Forall_forall in Hfind. by destruct (Hfind y Hy).
Qed.

End StoreProperties.

(** ** The routine service *)

Section ServiceProperties.
Context `{Js.Numeric} (ilike : string → string → bool).
Import Service.

Lemma split_go_no_separator c cur s :
  Js.contains c s = false → Js.split_go c cur s = [String.rev_app cur s].
Proof.
  revert cur. induction s as [|a s IH]; intros cur Hnone; [done|].
  simpl in *. apply orb_false_elim in Hnone as [-> Hnone]. by apply IH.
Qed.

Lemma split_no_separator c s : Js.contains c s = false → Js.split c s = [s].
Proof. intros Hnone. unfold Js.split. by rewrite split_go_no_separator. Qed.

Lemma split_go_nonempty c cur s : Js.split_go c cur s ≠ [].
Proof.
  revert cur. induction s as [|a s IH]; intros cur; simpl; [done|].
  destruct (Ascii.eqb a c); [done|apply IH].
Qed.

Lemma split_go_separator c cur s :
  Js.contains c s = true → ∃ a b rest, Js.split_go c cur s = a :: b :: rest.
Proof.
  revert cur. induction s as [|x s IH]; intros cur Hsep; [done|].
  simpl in *. destruct (Ascii.eqb x c); simpl in *.
  - pose proof (split_go_nonempty c EmptyString s) as Hrest.
    destruct (Js.split_go c EmptyString s) as [|b rest]; [done|]. eauto.
  - by apply IH.
Qed.

(** The conversion throws exactly on the texts without a space and on
    those whose part before the first space has no colon; its [catch] gives
    them back as they are. *)
Lemma convertTo24HourFormat_try_None timeString :
  convertTo24HourFormat_try timeString = None ↔
  unconvertible timeString = true.
Proof.
  unfold convertTo24HourFormat_try, unconvertible. cbv zeta.
  destruct (Js.contains " " timeString) eqn:Hspace.
  - destruct (split_go_separator " " EmptyString timeString Hspace)
      as (timePart & amPm & rest & Hsplit).
    fold (Js.split " " timeString) in Hsplit. rewrite Hsplit. simpl.
    destruct (Js.contains ":" timePart) eqn:Hcolon.
    + destruct (split_go_separator ":" EmptyString timePart Hcolon)
        as (hours & minutes & rest' & Hparts).
      fold (Js.split ":" timePart) in Hparts. rewrite Hparts. simpl. done.
    + by rewrite (split_no_separator _ _ Hcolon).
  - by rewrite (split_no_separator _ _ Hspace).
Qed.

Lemma convertTo24HourFormat_unconvertible timeString :
  unconvertible timeString = true →
  convertTo24HourFormat timeString = timeString.
Proof.
  intros Hthrows%convertTo24HourFormat_try_None.
  unfold convertTo24HourFormat. by rewrite Hthrows.
Qed.

Lemma resolve_course_keeps slot st :
  sameImport st (resolve_course ilike slot st).2.
Proof.
  unfold resolve_course, sameImport, select_course_by_code,
    select_course_by_id, Db.request.
  destruct (Js.orNull (_courseId slot)).
  - destruct (Db.faults (db st) (Db.requests (db st))); simpl; [done|].
    by destruct (filter _ _) as [|? [|? ?]].
  - destruct (match Js.orNull (course_code slot) with
              | Some cc => _ | None => _ end) as [courseCode courseName].
    destruct (Js.truthy courseCode); [|done].
    destruct (courseCache st !! courseCode); [done|].
    by destruct (Db.faults (db st) (Db.requests (db st))).
Qed.

Lemma resolve_teacher_keeps slot st :
  sameImport st (resolve_teacher ilike slot st).2.
Proof.
  unfold resolve_teacher, sameImport, select_teacher_by_name,
    select_teacher_by_id, Db.request.
  destruct (Js.orNull (_teacherId slot)).
  - destruct (Db.faults (db st) (Db.requests (db st))); simpl; [done|].
    by destruct (filter _ _) as [|? [|? ?]].
  - destruct (teacher slot); [|done].
    destruct (teacherCache st !! _); [done|].
    by destruct (Db.faults (db st) (Db.requests (db st))).
Qed.

Lemma resolve_teacher_present slot st :
  is_Some (Js.orNull (_teacherId slot)) ∨ is_Some (teacher slot) →
  is_ok (resolve_teacher ilike slot st).1 = true.
Proof.
  unfold resolve_teacher, select_teacher_by_name, select_teacher_by_id,
    Db.request.
  intros Hpresent.
  destruct (Js.orNull (_teacherId slot)) as [teacherId|] eqn:Hid.
  - destruct (Db.faults (db st) (Db.requests (db st))); simpl; [done|].
    by destruct (filter _ _) as [|? [|? ?]].
  - destruct Hpresent as [[? [=]]|[t ->]].
    destruct (teacherCache st !! _); [done|].
    by destruct (Db.faults (db st) (Db.requests (db st))).
Qed.

(** A row without conflict is handed to the insert with the times as
    converted, and leaves no error. *)
Lemma no_conflict_found routineId day startTime endTime rows :
  Forall (λ e, Db.routine_id e ≠ routineId ∨ Db.day_of_week e ≠ day) rows →
  List.filter (conflict_filter routineId day startTime endTime) rows = [].
Proof.
  induction 1 as [|e rows He _ IH]; [done|]. simpl.
  unfold conflict_filter at 1.
  destruct He as [He|He]; rewrite (bool_decide_eq_false_2 _ He); simpl;
    [done|by rewrite andb_false_r].
Qed.

Lemma process_slot_pushes routineId index slot st :
  is_Some (Js.orNull (_teacherId slot)) ∨ is_Some (teacher slot) →
  Forall (λ e, Db.routine_id e ≠ routineId ∨ Db.day_of_week e ≠ day slot)
         (Db.routine_slots (db st)) →
  let st' := process_slot ilike routineId index slot st in
  import_errors st' = import_errors st ∧
  ∃ row, processedSlots st' = processedSlots st ++ [row] ∧
    Db.start_time row = convertTo24HourFormat (start_time slot) ∧
    Db.end_time row = convertTo24HourFormat (end_time slot).
Proof.
  intros Hteacher Hempty. cbv zeta. unfold process_slot.
  pose proof (resolve_course_keeps slot st) as Hcourse.
  destruct (resolve_course ilike slot st) as [[courseId courseName] st1].
  pose proof (resolve_teacher_keeps slot st1) as Hkeeps.
  pose proof (resolve_teacher_present slot st1 Hteacher) as Hok.
  destruct (resolve_teacher ilike slot st1) as [[[teacherId teacherName]|msg] st2];
    [|done].
  simpl in *. destruct Hcourse as ([= _ Hslots1 _ _ _] & Hrows1 & Herrors1).
  destruct Hkeeps as ([= _ Hslots2 _ _ _] & Hrows2 & Herrors2).
  unfold select_conflicts, Db.request.
  destruct (Db.faults (db st2) (Db.requests (db st2))); simpl.
  - split; [congruence|]. eexists. split; [by rewrite Hrows2, Hrows1|done].
  - rewrite Hslots2, Hslots1, (no_conflict_found _ _ _ _ _ Hempty). simpl.
    split; [congruence|]. eexists. split; [by rewrite Hrows2, Hrows1|done].
Qed.

(** A row without teacher is an error of its own; the batch goes on. *)
Lemma process_slot_without_teacher routineId index slot st :
  Js.orNull (_teacherId slot) = None → teacher slot = None →
  let st' := process_slot ilike routineId index slot st in
  processedSlots st' = processedSlots st ∧
  import_errors st' = import_errors st ++
    ["Error processing slot #" +:+ pretty (index + 1) +:+ ": " +:+
     teacher_undefined_message].
Proof.
  intros Hid Hteacher. cbv zeta. unfold process_slot.
  pose proof (resolve_course_keeps slot st) as Hcourse.
  destruct (resolve_course ilike slot st) as [[courseId courseName] st1].
  unfold resolve_teacher. rewrite Hid, Hteacher. simpl in *.
  destruct Hcourse as (_ & -> & ->). done.
Qed.

(** An unknown routine id: nothing is imported, one error is reported. *)
Lemma bulkImportRoutineSlots_unknown_routine routineId slotsData d :
  Forall (λ r, Db.id r ≠ routineId) (Db.routines d) →
  (bulkImportRoutineSlots ilike routineId slotsData d).1
    = mkReport 0 ["Invalid routine ID: Routine not found"] ∧
  Db.routine_slots (bulkImportRoutineSlots ilike routineId slotsData d).2
    = Db.routine_slots d.
Proof.
  intros Hunknown. unfold bulkImportRoutineSlots, select_routine, Db.request.
  destruct (Db.faults d (Db.requests d)); simpl; [done|].
  assert (filter (λ r, Db.id r = routineId) (Db.routines d) = []) as ->; [|done].
  induction Hunknown as [|r rs Hr _ IH]; [done|].
  by rewrite filter_cons_False.
Qed.

(** When the insert fails and the fallback insert fails too, nothing is
    counted and the error of the fallback is appended to the errors. *)
Lemma bulkImportRoutineSlots_insert_failure routineId slotsData d found d1 m1 m2 :
  select_routine routineId d = (Some found, d1) →
  let st := process_slots ilike routineId 0 slotsData
              (mkImportState d1 ∅ ∅ [] []) in
  processedSlots st ≠ [] →
  Db.faults (db st) (Db.requests (db st)) = Some m1 →
  Db.faults (db st) (S (Db.requests (db st))) = Some m2 →
  (bulkImportRoutineSlots ilike routineId slotsData d).1
    = mkReport 0 (import_errors st ++
                  ["Database error during import: " +:+ m2]).
Proof.
  intros Hfound st Hrows Hfirst Hsecond.
  unfold bulkImportRoutineSlots. rewrite Hfound. fold st.
  destruct (processedSlots st) as [|row rows]; [done|].
  unfold insert_slots, Db.request. rewrite Hfirst. simpl.
  by rewrite Hsecond.
Qed.

(** When the insert is served, the rows handed to it are counted. *)
Lemma bulkImportRoutineSlots_inserted routineId slotsData d found d1 :
  select_routine routineId d = (Some found, d1) →
  let st := process_slots ilike routineId 0 slotsData
              (mkImportState d1 ∅ ∅ [] []) in
  Db.faults (db st) (Db.requests (db st)) = None →
  (bulkImportRoutineSlots ilike routineId slotsData d).1
    = mkReport (length (processedSlots st)) (import_errors st) ∧
  Db.routine_slots (bulkImportRoutineSlots ilike routineId slotsData d).2
    = Db.routine_slots (db st) ++ processedSlots st.
Proof.
  intros Hfound st Hserved.
  unfold bulkImportRoutineSlots. rewrite Hfound. fold st.
  destruct (processedSlots st) as [|row rows] eqn:Hrows.
  { by rewrite app_nil_r. }
  unfold insert_slots, Db.request. rewrite Hserved. done.
Qed.

(** The conflict filter holds for every existing slot of the routine and
    the day, as soon as neither slot ends before it starts. *)
Lemma conflict_filter_always routineId day startTime endTime existing :
  Db.routine_id existing = routineId →
  Db.day_of_week existing = day →
  Db.time_lte (Db.start_time existing) (Db.end_time existing) = true →
  Db.time_lte startTime endTime = true →
  conflict_filter routineId day startTime endTime existing = true.
Proof.
  intros Hroutine Hday Hexisting Hnew. unfold conflict_filter.
  rewrite !bool_decide_eq_true_2 by done. simpl.
  destruct (Db.time_lte (Db.start_time existing) endTime) eqn:Hfirst; [done|].
  simpl. unfold Db.time_lte in *.
  destruct (total String.le (Db.start_time existing) endTime) as [Hle|Hle].
  { apply Is_true_true in Hle. congruence. }
  apply Is_true_true.
  change (String.le startTime (Db.end_time existing)).
  etrans; [apply Is_true_true, Hnew|].
  etrans; [exact Hle|]. apply Is_true_true, Hexisting.
Qed.

(** ** Every row of an import is accounted for *)

Lemma resolve_course_requests slot st :
  Db.requests (db st) ≤ Db.requests (db (resolve_course ilike slot st).2)
    ≤ Db.requests (db st) + 1.
Proof.
  unfold resolve_course, select_course_by_code, select_course_by_id,
    Db.request.
  destruct (Js.orNull (_courseId slot)).
  - destruct (Db.faults (db st) (Db.requests (db st))); simpl; [lia|].
    destruct (filter _ _) as [|? [|? ?]]; simpl; lia.
  - destruct (match Js.orNull (course_code slot) with
              | Some cc => _ | None => _ end) as [courseCode courseName].
    destruct (Js.truthy courseCode); [|simpl; lia].
    destruct (courseCache st !! courseCode); [simpl; lia|].
    destruct (Db.faults (db st) (Db.requests (db st))); simpl; lia.
Qed.

Lemma resolve_teacher_requests slot st :
  Db.requests (db st) ≤ Db.requests (db (resolve_teacher ilike slot st).2)
    ≤ Db.requests (db st) + 1.
Proof.
  unfold resolve_teacher, select_teacher_by_name, select_teacher_by_id,
    Db.request.
  destruct (Js.orNull (_teacherId slot)).
  - destruct (Db.faults (db st) (Db.requests (db st))); simpl; [lia|].
    destruct (filter _ _) as [|? [|? ?]]; simpl; lia.
  - destruct (teacher slot); [|simpl; lia].
    destruct (teacherCache st !! _); [simpl; lia|].
    destruct (Db.faults (db st) (Db.requests (db st))); simpl; lia.
Qed.

Lemma process_slot_accounts routineId index slot st :
  let st' := process_slot ilike routineId index slot st in
  tables (db st') = tables (db st) ∧
  Db.requests (db st) ≤ Db.requests (db st') ≤ Db.requests (db st) + 3 ∧
  ((∃ row, processedSlots st' = processedSlots st ++ [row] ∧
           Db.routine_id row = routineId ∧
           import_errors st' = import_errors st) ∨
   (processedSlots st' = processedSlots st ∧
    ∃ msg, import_errors st' = import_errors st ++ [msg])).
Proof.
  cbv zeta. unfold process_slot.
  pose proof (resolve_course_keeps slot st) as Hcourse.
  pose proof (resolve_course_requests slot st) as Hn1.
  destruct (resolve_course ilike slot st) as [[courseId courseName] st1].
  pose proof (resolve_teacher_keeps slot st1) as Hteacher.
  pose proof (resolve_teacher_requests slot st1) as Hn2.
  destruct (resolve_teacher ilike slot st1)
    as [[[teacherId teacherName]|msg] st2]; simpl in *;
    destruct Hcourse as (Htables1 & Hrows1 & Herrors1);
    destruct Hteacher as (Htables2 & Hrows2 & Herrors2).
  - unfold select_conflicts, Db.request.
    destruct (Db.faults (db st2) (Db.requests (db st2))); simpl.
    + split; [by rewrite <- Htables1, <- Htables2|]. split; [lia|].
      left. eexists. split; [by rewrite Hrows2, Hrows1|].
      split; [done|congruence].
    + destruct (List.filter _ _) as [|conflict rest]; simpl.
      * split; [by rewrite <- Htables1, <- Htables2|]. split; [lia|].
        left. eexists. split; [by rewrite Hrows2, Hrows1|].
        split; [done|congruence].
      * split; [by rewrite <- Htables1, <- Htables2|]. split; [lia|].
        right. split; [congruence|]. eexists. by rewrite Herrors2, Herrors1.
  - split; [congruence|]. split; [lia|].
    right. split; [congruence|]. eexists. by rewrite Herrors2, Herrors1.
Qed.

Lemma process_slots_accounts routineId index slotsData st :
  let st' := process_slots ilike routineId index slotsData st in
  tables (db st') = tables (db st) ∧
  Db.requests (db st) ≤ Db.requests (db st')
    ≤ Db.requests (db st) + 3 * length slotsData ∧
  ∃ rows errs,
    processedSlots st' = processedSlots st ++ rows ∧
    import_errors st' = import_errors st ++ errs ∧
    Forall (λ row, Db.routine_id row = routineId) rows ∧
    length rows + length errs = length slotsData.
Proof.
  cbv zeta. revert index st.
  induction slotsData as [|slot rest IH]; intros index st; simpl.
  - split; [done|]. split; [lia|]. exists [], []. by rewrite !app_nil_r.
  - destruct (process_slot_accounts routineId index slot st)
      as (Htables & Hn & Hrow).
    destruct (IH (S index) (process_slot ilike routineId index slot st))
      as (Htables' & Hn' & rows & errs & Hrows & Herrs & Hids & Hlen).
    split; [congruence|]. split; [lia|].
    destruct Hrow as [(row & Hpushed & Hid & Hsame)|(Hsame & msg & Hpushed)].
    + exists (row :: rows), errs.
      rewrite Hrows, Herrs, Hpushed, Hsame, <- app_assoc. simpl.
      split; [done|]. split; [done|]. split; [by constructor|lia].
    + exists rows, (msg :: errs).
      rewrite Hrows, Herrs, Hpushed, Hsame, <- app_assoc. simpl.
      split; [done|]. split; [done|]. split; [done|].
      rewrite <- Hlen. lia.
Qed.

(** X18. [bulkImportRoutineSlots] accounts for every row and writes nothing
    but its own rows.  Whatever the backend answers, the slot table after an
    import is the table before it followed by as many new rows as the report
    counts successes, all under the routine id given; the other tables are
    not written; and when at least one row was imported, the successes and
    the errors of the report add up to the number of rows handed in (in
    every case to at most one more, the database error).  An import sends at
    most three requests a row, and three more. *)
Theorem bulkImportRoutineSlots_accounts_for_every_row (routineId : string)
    (slotsData : list ImportRow) (d : Db.t) :
  let run := bulkImportRoutineSlots ilike routineId slotsData d in
  (∃ rows,
     Db.routine_slots run.2 = Db.routine_slots d ++ rows ∧
     length rows = success run.1 ∧
     Forall (λ row, Db.routine_id row = routineId) rows) ∧
  (Db.routines run.2, Db.courses run.2, Db.teachers run.2)
    = (Db.routines d, Db.courses d, Db.teachers d) ∧
  success run.1 + length (errors run.1) ≤ length slotsData + 1 ∧
  (0 < success run.1 →
   success run.1 + length (errors run.1) = length slotsData) ∧
  Db.requests run.2 ≤ Db.requests d + 3 * length slotsData + 3.
Proof.
  cbv zeta. unfold bulkImportRoutineSlots, select_routine, Db.request.
  destruct (Db.faults d (Db.requests d)); simpl.
  { split; [exists []; by rewrite app_nil_r|]. repeat split; lia. }
  destruct (filter _ (Db.routines d)) as [|found [|? ?]]; simpl;
    try (split; [exists []; by rewrite app_nil_r|]; repeat split; lia).
  match goal with |- context [process_slots ilike routineId 0 slotsData ?st0] =>
    destruct (process_slots_accounts routineId 0 slotsData st0)
      as (Htables & Hn & rows & errs & Hrows & Herrs & Hids & Hlen);
    set (st := process_slots ilike routineId 0 slotsData st0) in *
  end.
  simpl in *. injection Htables as Hroutines Hslots Hcourses Hteachers Hfaults.
  subst rows.
  destruct (processedSlots st) as [|row rows] eqn:Hprocessed; simpl.
  { split; [exists []; by rewrite app_nil_r|]. rewrite Herrs.
    split; [congruence|]. simpl in Hlen. repeat split; lia. }
  unfold insert_slots, Db.request.
  destruct (Db.faults (db st) (Db.requests (db st))); simpl.
  - destruct (Db.faults (db st) (S (Db.requests (db st)))); simpl.
    + split; [exists []; by rewrite app_nil_r|]. rewrite Herrs.
      split; [congruence|]. rewrite length_app. simpl in *.
      repeat split; lia.
    + split.
      { exists (fallbackSlot row :: (fallbackSlot <$> rows)).
        rewrite Hslots. split; [done|]. split; [done|].
        apply (Forall_fmap _ _ (row :: rows)).
        eapply Forall_impl; [exact Hids|]. by intros []. }
      rewrite Herrs. split; [congruence|]. rewrite length_fmap. simpl in *.
      repeat split; lia.
  - split.
    { exists (row :: rows). by rewrite Hslots. }
    rewrite Herrs. split; [congruence|]. simpl in *. repeat split; lia.
Qed.

(** ** Activation on the backend *)

(** X19. The service's [activateRoutine], by what its two updates are
    answered.  When both are served, every row of [routines] is active if
    and only if its id is the one given, and nothing else of any row
    changes: an unknown id leaves no routine active at all.  When the first
    update fails nothing is written; when the second fails, the routines of
    every other id have already been deactivated and stay so.  The call
    throws the error of the update that failed. *)
Theorem service_activateRoutine_outcomes (routineId : string) (d : Db.t) :
  let run := activateRoutine routineId d in
  (Db.routine_slots run.2, Db.courses run.2, Db.teachers run.2)
    = (Db.routine_slots d, Db.courses d, Db.teachers d) ∧
  match Db.faults d (Db.requests d), Db.faults d (S (Db.requests d)) with
  | Some msg, _ => run.1 = Throw msg ∧ Db.routines run.2 = Db.routines d
  | None, Some msg =>
      run.1 = Throw msg ∧
      Db.routines run.2
        = (λ r, if decide (Db.id r = routineId) then r
                else Db.set_is_active false r) <$> Db.routines d
  | None, None =>
      run.1 = Ok () ∧
      Db.routines run.2
        = (λ r, Db.set_is_active (bool_decide (Db.id r = routineId)) r)
            <$> Db.routines d ∧
      (routineId ∉ Db.id <$> Db.routines d →
       Forall (λ r, Db.is_active r = false) (Db.routines run.2))
  end.
Proof.
  cbv zeta. unfold activateRoutine, Db.request.
  destruct (Db.faults d (Db.requests d)) as [msg|]; simpl; [done|].
  destruct (Db.faults d (S (Db.requests d))) as [msg|]; simpl.
  - split; [done|]. split; [done|]. apply list_fmap_ext. intros i r _.
    by destruct (decide (Db.id r = routineId)), (decide (Db.id r ≠ routineId)).
  - split; [done|]. split; [done|].
    assert (Hrows : ∀ rows : list Db.RoutineRow,
      (λ r, if decide (Db.id r = routineId) then Db.set_is_active true r
            else r)
        <$> ((λ r, if decide (Db.id r ≠ routineId)
                   then Db.set_is_active false r else r) <$> rows)
      = (λ r, Db.set_is_active (bool_decide (Db.id r = routineId)) r)
          <$> rows).
    { intros rows. rewrite <- list_fmap_compose. apply list_fmap_ext.
      intros i r _. simpl.
      destruct (decide (Db.id r ≠ routineId)) as [Hne|Heq]; simpl.
      - by rewrite decide_False, bool_decide_false.
      - apply dec_stable in Heq.
        by rewrite decide_True, bool_decide_true. }
    rewrite Hrows. split; [done|]. intros Hunknown.
    apply Forall_fmap, Forall_forall. intros r Hin. simpl.
    apply bool_decide_eq_false. intros Hid. apply Hunknown. rewrite <- Hid.
    by apply list_elem_of_fmap_2.
Qed.

End ServiceProperties.

Section HookProperties.
Context {G D : Type} (gw : Hook.Gateway G D).
Import Hook.

Local Abbreviation extends := (extends (G:=G) (D:=D)).
Local Abbreviation succeeds := (succeeds (G:=G) (D:=D)).
Local Abbreviation emits := (emits (G:=G) (D:=D)).
Local Abbreviation issues := (issues (G:=G) (D:=D)).

Lemma syncOfflineChanges_enter (w : World G D) :
  syncOfflineChanges gw w =
  match syncEnter w with
  | None => (Ok (), w)
  | Some w1 => syncPass gw w1
  end.
Proof.
  unfold syncOfflineChanges, syncEnter, syncEnterOf, render, syncPass.
  unfold mbind, M_bind, bind, gets, try_finally, try_catch, setSyncInProgress,
    modify. simpl.
  destruct (isOffline w || syncInProgress w); reflexivity.
Qed.

Lemma syncPass_clears_flag (w : World G D) :
  syncInProgress (syncPass gw w).2 = false.
Proof.
  unfold syncPass, try_finally.
  destruct (try_catch _ _ w). reflexivity.
Qed.

(** ** The log only grows *)

Lemma extends_ret {A} (a : A) : extends (ret a).
Proof. intros w. reflexivity. Qed.

Lemma extends_throw {A} (msg : string) : extends (throw (A:=A) msg).
Proof. intros w. reflexivity. Qed.

Lemma extends_gets {A} (f : World G D → A) : extends (gets f).
Proof. intros w. reflexivity. Qed.

Lemma extends_modify (f : World G D → World G D) :
  (∀ w, log w `prefix_of` log (f w)) → extends (modify f).
Proof. intros Hf w. apply Hf. Qed.

Lemma extends_bind {A B} (m : M A) (k : A → M B) :
  extends m → (∀ a, extends (k a)) → extends (m ≫= k).
Proof.
  intros Hm Hk w. unfold mbind, M_bind, bind.
  specialize (Hm w). destruct (m w) as [[a|msg] w1]; simpl in *; [|exact Hm].
  etrans; [exact Hm|apply Hk].
Qed.

Lemma extends_try_catch {A} (m : M A) (handler : string → M A) :
  extends m → (∀ msg, extends (handler msg)) → extends (try_catch m handler).
Proof.
  intros Hm Hh w. unfold try_catch.
  specialize (Hm w). destruct (m w) as [[a|msg] w1]; simpl in *; [exact Hm|].
  etrans; [exact Hm|apply Hh].
Qed.

Lemma extends_try_finally {A} (m : M A) (cleanup : World G D → World G D) :
  extends m → (∀ w, log (cleanup w) = log w) →
  extends (try_finally m cleanup).
Proof.
  intros Hm Hc w. unfold try_finally.
  specialize (Hm w). destruct (m w) as [r w1]; simpl in *.
  rewrite Hc. exact Hm.
Qed.

Lemma request_log {A} (c : Call) (serve : G → result A * G) (w : World G D) :
  log (request c serve w).2 = log w ++ [Remote c].
Proof. unfold request. destruct (serve (remote w)). reflexivity. Qed.

Lemma extends_request {A} (c : Call) (serve : G → result A * G) :
  extends (request c serve).
Proof. intros w. rewrite request_log. by apply prefix_app_r. Qed.

Lemma extends_getAllFromIndexedDB : extends getAllFromIndexedDB.
Proof. intros w. simpl. by apply prefix_app_r. Qed.

Lemma extends_saveToIndexedDB item : extends (saveToIndexedDB item).
Proof. intros w. simpl. by apply prefix_app_r. Qed.

Lemma extends_saveAllToIndexedDB items : extends (saveAllToIndexedDB items).
Proof. intros w. simpl. by apply prefix_app_r. Qed.

Lemma extends_clearIndexedDBStore : extends clearIndexedDBStore.
Proof. intros w. simpl. by apply prefix_app_r. Qed.

Lemma extends_setRoutines f : extends (setRoutines f).
Proof. intros w. reflexivity. Qed.

Lemma extends_setLoading v : extends (setLoading v).
Proof. intros w. reflexivity. Qed.

Lemma extends_setError v : extends (setError v).
Proof. intros w. reflexivity. Qed.

Lemma extends_setDiagnosticState v : extends (setDiagnosticState v).
Proof. intros w. reflexivity. Qed.

Lemma extends_set_lastFetched v : extends (modify (set_lastFetched v)).
Proof. intros w. reflexivity. Qed.

Create HintDb extends discriminated.
#[local] Hint Resolve extends_ret extends_throw extends_gets extends_request
  extends_getAllFromIndexedDB extends_saveToIndexedDB
  extends_saveAllToIndexedDB extends_clearIndexedDBStore extends_setRoutines
  extends_setLoading extends_setError extends_setDiagnosticState
  extends_set_lastFetched : extends.

(** Goes through the binds, matches and handlers of a computation. *)
Ltac extends_step :=
  match goal with
  | |- extends (_ ≫= _) => apply extends_bind; [|intros]
  | |- extends (try_catch _ _) => apply extends_try_catch; [|intros]
  | |- extends (match ?x with _ => _ end) => destruct x
  | |- extends (let _ := _ in _) => cbv zeta
  | |- extends _ => solve [eauto with extends]
  end.
Ltac solve_extends := repeat extends_step.

Lemma extends_mapM {A B} (f : A → M B) (l : list A) :
  (∀ a, extends (f a)) → extends (mapM f l).
Proof. intros Hf. induction l; simpl; solve_extends. Qed.

Lemma extends_refreshRoutineSlots routineId :
  extends (refreshRoutineSlots gw routineId).
Proof. unfold refreshRoutineSlots. solve_extends. Qed.

Lemma extends_loadFromCache : extends loadFromCache.
Proof. unfold loadFromCache. solve_extends. Qed.

Lemma extends_runDiagnostics : extends (runDiagnostics gw).
Proof. unfold runDiagnostics. solve_extends. Qed.

#[local] Hint Resolve extends_refreshRoutineSlots extends_loadFromCache
  extends_runDiagnostics : extends.

Lemma extends_publishFetched fetchedData :
  extends (publishFetched gw fetchedData).
Proof. unfold publishFetched. solve_extends. Qed.

Lemma extends_reportFetchFailure fetchError :
  extends (reportFetchFailure gw fetchError).
Proof. unfold reportFetchFailure. solve_extends. Qed.

Lemma extends_fetchSlotsDirectly routine :
  extends (fetchSlotsDirectly gw routine).
Proof. unfold fetchSlotsDirectly. solve_extends. Qed.

Lemma extends_fetchAttempt : extends (fetchAttempt gw).
Proof.
  unfold fetchAttempt. solve_extends.
  apply extends_mapM, extends_fetchSlotsDirectly.
Qed.

Lemma extends_fetchWithRetry attempts fetchError :
  extends (fetchWithRetry gw attempts fetchError).
Proof.
  revert fetchError. induction attempts as [|n IH]; intros fetchError; simpl.
  - solve_extends.
  - apply extends_try_catch; [|intros; apply IH].
    apply extends_bind; [apply extends_fetchAttempt|intros; solve_extends].
Qed.

(** ** Requests a computation is sure to send *)

Lemma emits_request {A} c (serve : G → result A * G) w :
  emits c (request c serve) w.
Proof. exists [], []. apply request_log. Qed.

Lemma emits_extended {A} c (m : M A) w (w' : World G D) :
  emits c m w → log (m w).2 `prefix_of` log w' →
  ∃ pre post, log w' = log w ++ pre ++ Remote c :: post.
Proof.
  intros (pre & post & Hm) [more Hmore]. exists pre, (post ++ more).
  rewrite Hmore, Hm. by rewrite <- !app_assoc.
Qed.

Lemma emits_bind_first {A B} c (m : M A) (k : A → M B) w :
  emits c m w → (∀ a, extends (k a)) → emits c (m ≫= k) w.
Proof.
  intros Hm Hk. eapply emits_extended; [exact Hm|].
  unfold mbind, M_bind, bind. destruct (m w) as [[a|msg] w1]; simpl.
  - apply Hk.
  - reflexivity.
Qed.

Lemma emits_bind_ok {A B} c (m : M A) (k : A → M B) w a w1 :
  m w = (Ok a, w1) → log w `prefix_of` log w1 → emits c (k a) w1 →
  emits c (m ≫= k) w.
Proof.
  intros Hm [more Hmore] (pre & post & Hk).
  exists (more ++ pre), post. unfold mbind, M_bind, bind. rewrite Hm.
  rewrite Hk, Hmore. by rewrite <- !app_assoc.
Qed.

Lemma emits_try_catch {A} c (m : M A) (handler : string → M A) w :
  emits c m w → (∀ msg, extends (handler msg)) →
  emits c (try_catch m handler) w.
Proof.
  intros Hm Hh. eapply emits_extended; [exact Hm|].
  unfold try_catch. destruct (m w) as [[a|msg] w1]; simpl.
  - reflexivity.
  - apply Hh.
Qed.

Lemma emits_try_finally {A} c (m : M A) (cleanup : World G D → World G D) w :
  emits c m w → (∀ w, log (cleanup w) = log w) →
  emits c (try_finally m cleanup) w.
Proof.
  intros Hm Hc. eapply emits_extended; [exact Hm|].
  unfold try_finally. destruct (m w) as [r w1]; simpl. by rewrite Hc.
Qed.

Lemma emits_fetchWithRetry attempts fetchError w :
  emits FetchRoutines (fetchWithRetry gw (S attempts) fetchError) w.
Proof.
  simpl. apply emits_try_catch; [|intros; apply extends_fetchWithRetry].
  apply emits_bind_first; [|intros; apply extends_ret].
  unfold fetchAttempt. apply emits_bind_first; [apply emits_request|].
  intros fetchedData. solve_extends.
  apply extends_mapM, extends_fetchSlotsDirectly.
Qed.

(** When the condition of the cache branch fails, the load goes on to the
    backend; the store may have been read. *)
Lemma consultCache_refetch duration forceRefresh isAdminView (w : World G D) :
  isCacheValid duration isAdminView forceRefresh (lastFetched w) (now w)
    && someHaveSlots (idb w) = false →
  ∃ forceRefresh' w1,
    consultCache duration forceRefresh isAdminView w
      = (Ok (Refetch forceRefresh'), w1) ∧
    (w1 = w ∨ w1 = add_event StoreRead w).
Proof.
  intros Hcond. unfold consultCache, mbind, M_bind, bind, gets. simpl.
  destruct (isCacheValid _ _ _ _ _) eqn:Hvalid; simpl in *.
  - destruct forceRefresh; simpl; [eauto|].
    destruct (idb w) as [|r rs] eqn:Hidb; simpl; [eauto|].
    simpl in Hcond. rewrite Hcond. simpl. eauto.
  - eauto.
Qed.


Lemma extends_publishSlots routineId slots base :
  extends (publishSlots routineId slots base).
Proof. unfold publishSlots. solve_extends. Qed.

Lemma extends_fixAll routineIds updatedRoutines :
  extends (fixAll gw routineIds updatedRoutines).
Proof.
  revert updatedRoutines.
  induction routineIds as [|routineId rest IH]; intros updatedRoutines; simpl.
  - solve_extends.
  - apply extends_bind; [unfold fixOne; solve_extends|intros; apply IH].
Qed.

Lemma extends_fixMissingSlotData rs : extends (fixMissingSlotData gw rs).
Proof.
  unfold fixMissingSlotData. solve_extends; apply extends_fixAll.
Qed.

#[local] Hint Resolve extends_publishSlots extends_fixMissingSlotData
  : extends.

Lemma extends_loadActiveSlots mapped activeRoutine :
  extends (loadActiveSlots gw mapped activeRoutine).
Proof. unfold loadActiveSlots. solve_extends. Qed.

Lemma extends_recoverFromCache fetchErr :
  extends (recoverFromCache gw fetchErr).
Proof. unfold recoverFromCache. solve_extends. Qed.

#[local] Hint Resolve extends_loadActiveSlots extends_recoverFromCache
  : extends.


(** Steps of a computation that always succeed, taken one at a time. *)
Ltac emits_next :=
  eapply emits_bind_ok; [reflexivity|simpl; try reflexivity|]; simpl.


(** ** Computations that do not throw *)

Lemma succeeds_ret {A} (a : A) : succeeds (ret a).
Proof. intros w. reflexivity. Qed.

Lemma succeeds_gets {A} (f : World G D → A) : succeeds (gets f).
Proof. intros w. reflexivity. Qed.

Lemma succeeds_modify (f : World G D → World G D) : succeeds (modify f).
Proof. intros w. reflexivity. Qed.

Lemma succeeds_bind {A B} (m : M A) (k : A → M B) :
  succeeds m → (∀ a, succeeds (k a)) → succeeds (m ≫= k).
Proof.
  intros Hm Hk w. unfold mbind, M_bind, bind.
  specialize (Hm w). destruct (m w) as [[a|msg] w1]; simpl in *; [|done].
  apply Hk.
Qed.

Lemma succeeds_try_catch {A} (m : M A) (handler : string → M A) :
  (∀ msg, succeeds (handler msg)) → succeeds (try_catch m handler).
Proof.
  intros Hh w. unfold try_catch.
  destruct (m w) as [[a|msg] w1]; simpl; [done|apply Hh].
Qed.

Lemma succeeds_try_finally {A} (m : M A) cleanup :
  succeeds m → succeeds (try_finally m cleanup).
Proof.
  intros Hm w. unfold try_finally. specialize (Hm w).
  destruct (m w) as [r w1]. exact Hm.
Qed.

Lemma succeeds_getAllFromIndexedDB : succeeds getAllFromIndexedDB.
Proof. intros w. reflexivity. Qed.

Create HintDb succeeds discriminated.
#[local] Hint Resolve succeeds_ret succeeds_gets succeeds_modify
  succeeds_getAllFromIndexedDB : succeeds.
#[local] Hint Extern 1 (succeeds (saveToIndexedDB _)) =>
  apply succeeds_modify : succeeds.
#[local] Hint Extern 1 (succeeds (saveAllToIndexedDB _)) =>
  apply succeeds_modify : succeeds.
#[local] Hint Extern 1 (succeeds clearIndexedDBStore) =>
  apply succeeds_modify : succeeds.
#[local] Hint Extern 1 (succeeds (setRoutines _)) =>
  apply succeeds_modify : succeeds.
#[local] Hint Extern 1 (succeeds (setLoading _)) =>
  apply succeeds_modify : succeeds.
#[local] Hint Extern 1 (succeeds (setError _)) =>
  apply succeeds_modify : succeeds.
#[local] Hint Extern 1 (succeeds (setDiagnosticState _)) =>
  apply succeeds_modify : succeeds.

Ltac succeeds_step :=
  match goal with
  | |- succeeds (_ ≫= _) => apply succeeds_bind; [|intros]
  | |- succeeds (try_catch _ _) => apply succeeds_try_catch; intros
  | |- succeeds (try_finally _ _) => apply succeeds_try_finally
  | |- succeeds (match ?x with _ => _ end) => destruct x
  | |- succeeds (let _ := _ in _) => cbv zeta
  | |- succeeds _ => solve [eauto with succeeds]
  end.
Ltac solve_succeeds := repeat succeeds_step.

Lemma succeeds_ok {A} (m : M A) (w : World G D) :
  succeeds m → ∃ a w', m w = (Ok a, w').
Proof.
  intros Hm. specialize (Hm w). destruct (m w) as [[a|msg] w']; [eauto|done].
Qed.

Lemma succeeds_refreshRoutineSlots routineId :
  succeeds (refreshRoutineSlots gw routineId).
Proof. unfold refreshRoutineSlots. solve_succeeds. Qed.

Lemma succeeds_loadFromCache : succeeds loadFromCache.
Proof. unfold loadFromCache. solve_succeeds. Qed.

Lemma succeeds_runDiagnostics : succeeds (runDiagnostics gw).
Proof.
  unfold runDiagnostics. apply succeeds_bind; [|intros; solve_succeeds].
  intros w. unfold request. destruct (runServiceDiagnostics gw (remote w)).
  reflexivity.
Qed.

Lemma succeeds_fetchWithRetry attempts fetchError :
  succeeds (fetchWithRetry gw attempts fetchError).
Proof.
  revert fetchError. induction attempts as [|n IH]; intros fetchError.
  - apply succeeds_ret.
  - apply succeeds_try_catch. intros. apply IH.
Qed.

Lemma succeeds_consultCache duration forceRefresh isAdminView :
  succeeds (consultCache duration forceRefresh isAdminView).
Proof. unfold consultCache. solve_succeeds. Qed.

#[local] Hint Resolve succeeds_refreshRoutineSlots succeeds_loadFromCache
  succeeds_runDiagnostics succeeds_fetchWithRetry succeeds_consultCache
  : succeeds.

(** [loadRoutines] never throws. *)
Lemma succeeds_loadRoutines forceRefresh isAdminView :
  succeeds (loadRoutines gw forceRefresh isAdminView).
Proof.
  unfold loadRoutines, publishFetched, reportFetchFailure. solve_succeeds.
Qed.

(** ** A fetch that fails *)





(** ** The progressive variant when the select on [routines] throws *)









(** ** The requests of a reconciliation pass *)

Lemma issues_ret {A} (a : A) : issues [] (ret a).
Proof. intros w. exists a, w. by rewrite app_nil_r. Qed.

Lemma issues_bind {A B} c1 c2 (m : M A) (k : A → M B) :
  issues c1 m → (∀ a, issues c2 (k a)) → issues (c1 ++ c2) (m ≫= k).
Proof.
  intros Hm Hk w. destruct (Hm w) as (a & w1 & Hrun & Hlog & Hst).
  destruct (Hk a w1) as (b & w2 & Hrun2 & Hlog2 & Hst2).
  exists b, w2. unfold mbind, M_bind, bind. rewrite Hrun.
  split; [exact Hrun2|]. split.
  - by rewrite Hlog2, Hlog, fmap_app, app_assoc.
  - by rewrite Hst2.
Qed.

Lemma issues_eq {A} c c' (m : M A) : issues c m → c = c' → issues c' m.
Proof. by intros ? <-. Qed.

Lemma issues_attempt {A} c (serve : G → result A * G) onSuccess v :
  issues [c] (attempt (request c serve) onSuccess v).
Proof.
  intros w. unfold attempt, try_catch, mbind, M_bind, bind, request.
  destruct (serve (remote w)) as [[a|msg] g]; by eexists _, _.
Qed.

Lemma issues_attemptSlot {A} c (serve : G → result A * G) onSuccess v :
  issues [c] (attemptSlot (request c serve) onSuccess v).
Proof.
  intros w. unfold attemptSlot, try_catch, mbind, M_bind, bind, request.
  destruct (serve (remote w)) as [[a|msg] g]; by eexists _, _.
Qed.

Lemma issues_syncSlot routine slot v :
  issues (slotCalls routine slot) (syncSlot gw routine slot v).
Proof.
  unfold syncSlot, slotCalls.
  destruct (negb (Slot.pending slot)); [apply issues_ret|].
  destruct (Slot._isOfflineDeleted slot); [apply issues_attemptSlot|].
  destruct (Slot._isOffline slot); [apply issues_attemptSlot|].
  destruct (Slot._isOfflineUpdated slot); [apply issues_attemptSlot|].
  apply issues_ret.
Qed.

Lemma issues_syncSlots routine slots v :
  issues (slots ≫= slotCalls routine) (syncSlots gw routine slots v).
Proof.
  revert v. induction slots as [|slot rest IH]; intros v; simpl.
  - apply issues_ret.
  - apply issues_bind; [apply issues_syncSlot|]. intros v'. apply IH.
Qed.

Lemma issues_syncRoutine routine v :
  issues (routineCalls routine) (syncRoutine gw routine v).
Proof.
  unfold syncRoutine, routineCalls. cbv zeta.
  destruct (negb (routinePending routine)); [apply issues_ret|].
  destruct (Routine._isOfflineDeleted routine); [apply issues_attempt|].
  apply issues_bind.
  { destruct (Routine._needsActivationSync routine); [apply issues_attempt|].
    destruct (Routine._needsDeactivationSync routine);
      [apply issues_attempt|apply issues_ret]. }
  intros v1.
  destruct (Routine._isOffline routine); [apply issues_attempt|].
  apply issues_bind.
  { destruct (Routine._isOfflineUpdated routine);
      [apply issues_attempt|apply issues_ret]. }
  intros v2.
  destruct (Routine.slots routine) as [|slot rest] eqn:Hslots;
    [apply issues_ret|].
  eapply issues_eq; [|apply app_nil_r].
  apply issues_bind; [apply issues_syncSlots|].
  intros sv. destruct (slotsChanged sv); apply issues_ret.
Qed.

Lemma issues_syncRoutines offlineRoutines v :
  issues (offlineRoutines ≫= routineCalls)
         (syncRoutines gw offlineRoutines v).
Proof.
  revert v. induction offlineRoutines as [|routine rest IH]; intros v; simpl.
  - apply issues_ret.
  - apply issues_bind; [apply issues_syncRoutine|]. intros v'. apply IH.
Qed.

Lemma remoteCalls_app l1 l2 :
  remoteCalls (l1 ++ l2) = remoteCalls l1 ++ remoteCalls l2.
Proof. apply omap_app. Qed.

Lemma remoteCalls_Remote calls : remoteCalls (Remote <$> calls) = calls.
Proof.
  unfold remoteCalls. induction calls as [|c calls IH]; simpl; [done|].
  f_equal. exact IH.
Qed.

(** The requests of a pass that starts: those of the routines of the store,
    routine after routine. *)
Lemma syncOfflineChanges_calls (w : World G D) :
  isOffline w = false → syncInProgress w = false →
  (syncOfflineChanges gw w).1 = Ok () ∧
  remoteCalls (log (syncOfflineChanges gw w).2)
    = remoteCalls (log w) ++ (idb w ≫= routineCalls).
Proof.
  intros Hon Hidle.
  destruct (issues_syncRoutines (idb w) (mkSyncVars (idb w) false 0)
              (add_event StoreRead (set_syncInProgress true w)))
    as (v & w1 & Hrun & Hlog & _).
  assert (Hcalls : remoteCalls (log w1)
                   = remoteCalls (log w) ++ (idb w ≫= routineCalls)).
  { rewrite Hlog, remoteCalls_app, remoteCalls_Remote. f_equal.
    change (log (add_event StoreRead (set_syncInProgress true w)))
      with (log w ++ [StoreRead]).
    rewrite remoteCalls_app. apply app_nil_r. }
  unfold syncOfflineChanges, try_finally, try_catch, mbind, M_bind, bind,
    gets, setSyncInProgress, getAllFromIndexedDB, modify.
  simpl. rewrite Hon, Hidle. simpl. rewrite Hrun.
  destruct (hasChanges v); simpl; (split; [reflexivity|]).
  - rewrite remoteCalls_app, Hcalls. apply app_nil_r.
  - exact Hcalls.
Qed.








(** ** Activation *)

Lemma markActivated_id routineId r :
  Routine.id (markActivated routineId r) = Routine.id r.
Proof. reflexivity. Qed.

Lemma mirrorActivated_id routineId r :
  Routine.id (mirrorActivated routineId r) = Routine.id r.
Proof. reflexivity. Qed.

(** What a call of [activateRoutine] does to the Local Store: offline, or
    online when the gateway succeeds, every stored routine gets its flag;
    when the gateway throws, the call throws and the store is untouched. *)
Lemma activateRoutine_store routineId (w : World G D) :
  NoDup (Routine.id <$> idb w) →
  let call := activateRoutine gw routineId w in
  (call.1 = Ok () ∧
   idb call.2 = (if isOffline w then markActivated routineId
                 else mirrorActivated routineId) <$> idb w ∧
   (isOffline w = true →
    remote call.2 = remote w ∧
    log call.2 = log w ++ [StoreRead; StoreWrite]))
  ∨ (isOffline w = false ∧
     (∃ msg, call.1 = Throw msg ∧ error call.2 = Some msg) ∧
     idb call.2 = idb w).
Proof.
  intros Hnodup. cbv zeta.
  unfold activateRoutine, reportAndRethrow, try_catch, mbind, M_bind, bind,
    setError, setRoutines, getAllFromIndexedDB, saveAllToIndexedDB, modify,
    gets, throw, request.
  simpl. destruct (isOffline w) eqn:Hoff; simpl.
  - left. rewrite putAll_fmap by done. rewrite <- app_assoc. auto.
  - destruct (activateRoutineService gw routineId (remote w))
      as [[[]|msg] g]; simpl.
    + left. rewrite putAll_fmap by done. split; [done|]. split; [done|].
      done.
    + right. eauto.
Qed.

Lemma activateCall_ids (w : World G D) (call : bool * string) :
  NoDup (Routine.id <$> idb w) →
  Routine.id <$> idb (activateCall gw w call) = Routine.id <$> idb w.
Proof.
  intros Hnodup. unfold activateCall.
  destruct (activateRoutine_store call.2 (set_isOffline call.1 w) Hnodup)
    as [(_ & -> & _)|(_ & _ & ->)]; [|done].
  simpl. destruct call.1; by apply fmap_keeps_ids.
Qed.

Lemma activateCalls_ids (calls : list (bool * string)) (w : World G D) :
  NoDup (Routine.id <$> idb w) →
  Routine.id <$> idb (activateCalls gw calls w) = Routine.id <$> idb w.
Proof.
  revert w. induction calls as [|call calls IH]; intros w Hnodup; [done|].
  unfold activateCalls in *. simpl. rewrite IH.
  - by apply activateCall_ids.
  - by rewrite activateCall_ids.
Qed.

(** C6 (amended). After any sequence of calls of [activateRoutine], offline
    or online, a further call for a routine of the Local Store that does not
    throw (every offline call, and every online call the gateway serves)
    leaves exactly one routine of the Local Store active, the activated
    one; a call that throws is an online call the gateway failed, has its
    error recorded, and leaves the Local Store as it was.  (The gateway's
    own activation is two updates that are not atomic.) *)
Theorem activateRoutine_single_active (calls : list (bool * string))
    (offline : bool) (routineId : string) (w : World G D) :
  NoDup (Routine.id <$> idb w) →
  routineId ∈ Routine.id <$> idb w →
  let before := activateCalls gw calls w in
  let call := activateRoutine gw routineId (set_isOffline offline before) in
  (call.1 = Ok () → activeIds (idb call.2) = [routineId]) ∧
  (call.1 ≠ Ok () →
   offline = false ∧ idb call.2 = idb before ∧
   ∃ msg, call.1 = Throw msg ∧ error call.2 = Some msg).
Proof.
  intros Hnodup Hin before call.
  assert (Hids : Routine.id <$> idb before = Routine.id <$> idb w)
    by by apply activateCalls_ids.
  destruct (activateRoutine_store routineId (set_isOffline offline before))
    as [(Hok & Hidb & _)|(Hoff & (msg & Hthrow & Herror) & Hidb)].
  { simpl. by rewrite Hids. }
  - fold call in Hok, Hidb. split; [|by rewrite Hok].
    intros _. rewrite Hidb. simpl.
    destruct offline; (apply activeIds_one; [done|done|by rewrite Hids..]).
  - fold call in Hthrow, Herror, Hidb. split; [by rewrite Hthrow|].
    intros _. simpl in Hoff. eauto.
Qed.

(** C9 (amended). The offline path of [activateRoutine] sends no request
    and changes, in every routine of the Local Store, the two fields
    [isActive] and [_needsActivationSync] only: both become true in the
    target and false in every other routine, whose [_needsActivationSync]
    from an earlier offline activation is thereby cleared.  All the other
    fields of every routine, [_isOffline], [_isOfflineUpdated],
    [_isOfflineDeleted] and [_needsDeactivationSync] among them, stay as
    they were. *)
Theorem activateRoutine_offline_frame (routineId : string) (w : World G D) :
  isOffline w = true →
  NoDup (Routine.id <$> idb w) →
  let call := activateRoutine gw routineId w in
  call.1 = Ok () ∧
  remote call.2 = remote w ∧
  remoteCalls (log call.2) = remoteCalls (log w) ∧
  length (idb call.2) = length (idb w) ∧
  ∀ i r, idb w !! i = Some r →
    ∃ r', idb call.2 !! i = Some r' ∧
      Routine.isActive r' = bool_decide (Routine.id r = routineId) ∧
      Routine._needsActivationSync r'
        = bool_decide (Routine.id r = routineId) ∧
      Routine.id r' = Routine.id r ∧
      Routine.name r' = Routine.name r ∧
      Routine.description r' = Routine.description r ∧
      Routine.semester r' = Routine.semester r ∧
      Routine.createdAt r' = Routine.createdAt r ∧
      Routine.createdBy r' = Routine.createdBy r ∧
      Routine.slots r' = Routine.slots r ∧
      Routine._isOffline r' = Routine._isOffline r ∧
      Routine._isOfflineUpdated r' = Routine._isOfflineUpdated r ∧
      Routine._isOfflineDeleted r' = Routine._isOfflineDeleted r ∧
      Routine._needsDeactivationSync r' = Routine._needsDeactivationSync r.
Proof.
  intros Hoff Hnodup call.
  destruct (activateRoutine_store routineId w Hnodup)
    as [(Hok & Hidb & Hquiet)|(Hon & _)]; [|congruence].
  fold call in Hok, Hidb, Hquiet. destruct (Hquiet Hoff) as [Hremote Hlog].
  rewrite Hoff in Hidb.
  split; [done|]. split; [done|]. split.
  { rewrite Hlog, remoteCalls_app. apply app_nil_r. }
  split; [by rewrite Hidb, length_fmap|].
  intros i r Hi. exists (markActivated routineId r). split.
  - by rewrite Hidb, list_lookup_fmap, Hi.
  - repeat split.
Qed.

(** ** Bulk import through the hook *)

Lemma bulkImportSlots_result (load : bool → bool → M unit) routineId slotsData
    (w : World G D) :
  ∃ report w',
    bulkImportSlots gw load routineId slotsData w = (Ok report, w') ∧
    (isOffline w = true →
     report = Service.mkReport 0
                ["Bulk import is not available in offline mode"] ∧
     w' = w) ∧
    (isOffline w = false →
     ∀ msg g,
       bulkImportRoutineSlotsService gw routineId slotsData (remote w)
         = (Throw msg, g) →
       report = Service.mkReport 0
                  [if Js.truthy msg then msg else "Failed to import slots"]) ∧
    (isOffline w = false →
     ∀ served g w1,
       bulkImportRoutineSlotsService gw routineId slotsData (remote w)
         = (Ok served, g) →
       load true false
            (set_remote g
               (add_event (Remote (BulkImportRoutineSlots routineId slotsData))
                          w)) = (Ok (), w1) →
       report = served).
Proof.
  unfold bulkImportSlots, try_catch, mbind, M_bind, bind, gets, request.
  destruct (isOffline w) eqn:Hoff.
  - eexists _, _. split; [reflexivity|]. repeat split; done.
  - destruct (bulkImportRoutineSlotsService gw routineId slotsData (remote w))
      as [[served|msg] g] eqn:Hservice.
    + destruct (load true false _) as [[[]|msg] w1] eqn:Hload; simpl;
        eexists _, _; (split; [reflexivity|]); repeat split; try done.
      * by intros _ served' g' w1' [= <- <-] _.
      * intros _ served' g' w1' [= <- <-] Hloaded. congruence.
    + simpl. eexists _, _. split; [reflexivity|]. repeat split; try done.
      by intros _ msg' g' [= <- <-].
Qed.

(** ** The mutations *)

Lemma remoteCalls_quiet (l : list Event) (e : Event) :
  (∀ c, e ≠ Remote c) → remoteCalls (l ++ [e]) = remoteCalls l.
Proof.
  intros He. rewrite remoteCalls_app. destruct e; simpl;
    try apply app_nil_r. by destruct (He c).
Qed.

Lemma isTempId_temp (s : string) : isTempId ("temp-" +:+ s) = true.
Proof. unfold isTempId. cbn. by destruct s. Qed.

(** X1. Called offline, [createRoutine] never throws and contacts nothing:
    it returns the routine it was given under a temporary id, marked
    [_isOffline] and without slots, puts it in front of the visible routines
    and saves it, that and nothing else, in the Local Store. *)
Theorem createRoutine_offline_is_local (routine : Routine.t)
    (random isoDate : string) (w : World G D) :
  isOffline w = true →
  ∃ created w',
    createRoutine gw routine random isoDate w = (Ok created, w') ∧
    isTempId (Routine.id created) = true ∧
    Routine._isOffline created = true ∧
    Routine.slots created = [] ∧
    Routine.createdAt created = isoDate ∧
    (Routine.name created, Routine.description created,
     Routine.semester created, Routine.isActive created)
      = (Routine.name routine, Routine.description routine,
         Routine.semester routine, Routine.isActive routine) ∧
    routines w' = created :: routines w ∧
    idb w' = LocalStore.put created (idb w) ∧
    error w' = None ∧
    remote w' = remote w ∧
    remoteCalls (log w') = remoteCalls (log w).
Proof.
  intros Hoff.
  unfold createRoutine, reportAndRethrow, try_catch, mbind, M_bind, bind,
    setError, setRoutines, saveToIndexedDB, modify, gets.
  simpl. rewrite Hoff. simpl. eexists _, _. split; [reflexivity|].
  simpl. repeat split; [apply isTempId_temp|]. by apply remoteCalls_quiet.
Qed.

(** Runs a mutation whose request fails. *)
Ltac mutation_fails Hon Hservice :=
  unfold reportAndRethrow, try_catch, mbind, M_bind, bind, setError,
    setRoutines, modify, gets, request, throw;
  simpl; rewrite Hon; simpl; rewrite Hservice; simpl;
  eexists; split; [reflexivity|]; by repeat split.

(** X2. No mutation is applied before its request has succeeded: when the
    service throws, an online [createRoutine], [updateRoutine],
    [deleteRoutine], [addRoutineSlot], [updateRoutineSlot],
    [deleteRoutineSlot], [activateRoutine] or [deactivateRoutine] throws the
    same error, records its message in the [error] state, and leaves the
    visible routines, the Local Store and the freshness timestamp as they
    were. *)
Theorem online_mutation_failure_changes_nothing (w : World G D) :
  isOffline w = false →
  (∀ routine random isoDate msg g,
     createRoutineService gw routine (remote w) = (Throw msg, g) →
     ∃ w', createRoutine gw routine random isoDate w = (Throw msg, w') ∧
           failedWith msg w w') ∧
  (∀ id updates msg g,
     updateRoutineService gw id (Routine.payload updates) (remote w)
       = (Throw msg, g) →
     ∃ w', updateRoutine gw id updates w = (Throw msg, w') ∧
           failedWith msg w w') ∧
  (∀ id msg g,
     deleteRoutineService gw id (remote w) = (Throw msg, g) →
     ∃ w', deleteRoutine gw id w = (Throw msg, w') ∧ failedWith msg w w') ∧
  (∀ routineId slot random isoDate msg g,
     addRoutineSlotService gw routineId slot (remote w) = (Throw msg, g) →
     ∃ w', addRoutineSlot gw routineId slot random isoDate w
             = (Throw msg, w') ∧
           failedWith msg w w') ∧
  (∀ routineId slotId updates msg g,
     updateRoutineSlotService gw routineId slotId (Slot.payload updates)
                              (remote w) = (Throw msg, g) →
     ∃ w', updateRoutineSlot gw routineId slotId updates w
             = (Throw msg, w') ∧
           failedWith msg w w') ∧
  (∀ routineId slotId msg g,
     deleteRoutineSlotService gw routineId slotId (remote w)
       = (Throw msg, g) →
     ∃ w', deleteRoutineSlot gw routineId slotId w = (Throw msg, w') ∧
           failedWith msg w w') ∧
  (∀ routineId msg g,
     activateRoutineService gw routineId (remote w) = (Throw msg, g) →
     ∃ w', activateRoutine gw routineId w = (Throw msg, w') ∧
           failedWith msg w w') ∧
  (∀ routineId msg g,
     deactivateRoutineService gw routineId (remote w) = (Throw msg, g) →
     ∃ w', deactivateRoutine gw routineId w = (Throw msg, w') ∧
           failedWith msg w w').
Proof.
  intros Hon. repeat split.
  - intros routine random isoDate msg g Hservice.
    unfold createRoutine. mutation_fails Hon Hservice.
  - intros id updates msg g Hservice.
    unfold updateRoutine. mutation_fails Hon Hservice.
  - intros id msg g Hservice.
    unfold deleteRoutine. mutation_fails Hon Hservice.
  - intros routineId slot random isoDate msg g Hservice.
    unfold addRoutineSlot. mutation_fails Hon Hservice.
  - intros routineId slotId updates msg g Hservice.
    unfold updateRoutineSlot. mutation_fails Hon Hservice.
  - intros routineId slotId msg g Hservice.
    unfold deleteRoutineSlot. mutation_fails Hon Hservice.
  - intros routineId msg g Hservice.
    unfold activateRoutine. mutation_fails Hon Hservice.
  - intros routineId msg g Hservice.
    unfold deactivateRoutine. mutation_fails Hon Hservice.
Qed.

Lemma filter_ids_NoDup (P : Routine.t → Prop) `{∀ x, Decision (P x)}
    (rs : list Routine.t) :
  NoDup (Routine.id <$> rs) → NoDup (Routine.id <$> filter P rs).
Proof.
  intros Hnodup. eapply sublist_NoDup; [exact Hnodup|].
  apply fmap_sublist, sublist_filter.
Qed.

(** X3. An online [deleteRoutine] that the service accepts removes the
    routine everywhere: no visible routine and no routine of the Local Store
    has its id any more, the other visible routines stay, the store gets no
    new id (with distinct ids it is the old store without the routine), the
    freshness timestamp is set to the time of the call, and the one request
    sent is the delete. *)
Theorem deleteRoutine_online_removes (id : string) (w : World G D) (g : G) :
  isOffline w = false →
  deleteRoutineService gw id (remote w) = (Ok (), g) →
  ∃ w', deleteRoutine gw id w = (Ok (), w') ∧
    (id ∉ Routine.id <$> routines w') ∧
    (∀ r, r ∈ routines w → Routine.id r ≠ id → r ∈ routines w') ∧
    (id ∉ Routine.id <$> idb w') ∧
    (∀ i, i ∈ Routine.id <$> idb w' → i ∈ Routine.id <$> idb w) ∧
    (NoDup (Routine.id <$> idb w) →
     idb w' = filter (λ r, Routine.id r ≠ id) (idb w)) ∧
    lastFetched w' = Some (now w) ∧
    error w' = None ∧
    remote w' = g ∧
    remoteCalls (log w') = remoteCalls (log w) ++ [DeleteRoutine id].
Proof.
  intros Hon Hservice.
  set (kept := filter (λ r, Routine.id r ≠ id) (idb w)).
  assert (Hstore : ∃ w',
    deleteRoutine gw id w = (Ok (), w') ∧
    routines w' = filter (λ r, Routine.id r ≠ id) (routines w) ∧
    idb w' = LocalStore.putAll kept [] ∧
    lastFetched w' = Some (now w) ∧ error w' = None ∧ remote w' = g ∧
    remoteCalls (log w') = remoteCalls (log w) ++ [DeleteRoutine id]).
  { unfold deleteRoutine, reportAndRethrow, try_catch, mbind, M_bind, bind,
      setError, setRoutines, getAllFromIndexedDB, clearIndexedDBStore,
      saveAllToIndexedDB, modify, gets, request, throw.
    simpl. rewrite Hon. simpl. rewrite Hservice. simpl. fold kept.
    destruct kept as [|r kept']; simpl; eexists; (split; [reflexivity|]);
      simpl; repeat split;
      rewrite ?remoteCalls_app; simpl; by rewrite ?app_nil_r. }
  destruct Hstore as (w' & Hrun & Hroutines & Hidb & Htime & Herror & Hg & Hlog).
  exists w'. split; [exact Hrun|]. rewrite Hroutines, Hidb.
  assert (Hkept : ∀ i, i ∈ Routine.id <$> kept →
                       i ≠ id ∧ i ∈ Routine.id <$> idb w).
  { intros i (r & -> & [Hr Hin]%list_elem_of_filter)%list_elem_of_fmap.
    split; [done|]. by apply list_elem_of_fmap_2. }
  split.
  { intros (r & Hid & [Hr _]%list_elem_of_filter)%list_elem_of_fmap. done. }
  split.
  { intros r Hin Hr. by apply list_elem_of_filter. }
  split.
  { intros [Hin|Hin]%putAll_ids; [by apply elem_of_nil in Hin|].
    by destruct (Hkept _ Hin). }
  split.
  { intros i [Hin|Hin]%putAll_ids; [by apply elem_of_nil in Hin|].
    by destruct (Hkept _ Hin). }
  split; [|done].
  intros Hnodup. rewrite putAll_fresh; [done|by apply filter_ids_NoDup|].
  apply Forall_forall. intros x _ Hin. by apply elem_of_nil in Hin.
Qed.

(** ** Slots deleted offline *)

(** The routine of the id changed by [f], the others as they are. *)
Lemma save_updated routineId (f : Routine.t → Routine.t)
    (store : list Routine.t) :
  (∀ r, Routine.id (f r) = Routine.id r) →
  NoDup (Routine.id <$> store) →
  match updateExisting routineId f store with
  | Some updated => LocalStore.putAll updated store
  | None => store
  end = (λ x, if decide (Routine.id x = routineId) then f x else x) <$> store.
Proof.
  intros Hf Hnodup.
  pose proof (updateExisting_fmap routineId f store Hnodup) as Hmap.
  destruct (updateExisting routineId f store) as [updated|]; simpl in Hmap;
    [|exact Hmap].
  rewrite Hmap. apply putAll_fmap; [|done].
  intros r. by destruct (decide _).
Qed.

Lemma markSlotDeleted_spec slotId (slots : list Slot.t) :
  (∀ s, s ∈ slots → Slot.id s ≠ slotId → s ∈ markSlotDeleted slotId slots) ∧
  (∀ s, s ∈ slots → Slot.id s = slotId → Slot._isOffline s = false →
        Slot.with_isOfflineDeleted true s ∈ markSlotDeleted slotId slots) ∧
  (∀ s', s' ∈ markSlotDeleted slotId slots → Slot.id s' = slotId →
         Slot._isOffline s' = false ∧ Slot._isOfflineDeleted s' = true ∧
         ∃ s, s ∈ slots ∧ s' = Slot.with_isOfflineDeleted true s).
Proof.
  unfold markSlotDeleted. split; [|split].
  - intros s Hin Hid. apply list_elem_of_filter. split; [by intros [? _]|].
    apply list_elem_of_fmap. exists s. by rewrite decide_False.
  - intros s Hin Hid Hsynced. apply list_elem_of_filter. split.
    + simpl. intros [_ Hoff]. congruence.
    + apply list_elem_of_fmap. exists s. by rewrite decide_True.
  - intros s' [Hkeep (s & -> & Hin)%list_elem_of_fmap]%list_elem_of_filter Hid.
    destruct (decide (Slot.id s = slotId)) as [Hs|Hs]; [|done].
    split; [|split; [done|by exists s]].
    destruct (Slot._isOffline (Slot.with_isOfflineDeleted true s)) eqn:Hoff;
      [|done].
    destruct Hkeep. by split.
Qed.

(** X4. Called offline, [deleteRoutineSlot] sends nothing and never throws.
    In the Local Store (of distinct routine ids) only the routine of the
    given id changes, and only in its slots: the slots of another id stay, a
    slot of the given id that was never synchronised ([_isOffline]) is
    removed, and a synchronised one is kept, marked [_isOfflineDeleted], for
    the next pass.  In the visible routines the slot is gone either way. *)
Theorem deleteRoutineSlot_offline_marks_or_drops (routineId slotId : string)
    (w : World G D) :
  isOffline w = true →
  NoDup (Routine.id <$> idb w) →
  ∃ w', deleteRoutineSlot gw routineId slotId w = (Ok (), w') ∧
    remote w' = remote w ∧
    remoteCalls (log w') = remoteCalls (log w) ∧
    (∀ r, r ∈ routines w' → Routine.id r = routineId →
          slotId ∉ Slot.id <$> Routine.slots r) ∧
    Routine.id <$> routines w' = Routine.id <$> routines w ∧
    ∀ i r, idb w !! i = Some r →
      ∃ r', idb w' !! i = Some r' ∧
        (Routine.id r ≠ routineId → r' = r) ∧
        Routine.with_slots (Routine.slots r) r' = r ∧
        (Routine.id r = routineId →
         (∀ s, s ∈ Routine.slots r → Slot.id s ≠ slotId →
               s ∈ Routine.slots r') ∧
         (∀ s, s ∈ Routine.slots r → Slot.id s = slotId →
               Slot._isOffline s = false →
               Slot.with_isOfflineDeleted true s ∈ Routine.slots r') ∧
         (∀ s', s' ∈ Routine.slots r' → Slot.id s' = slotId →
                Slot._isOffline s' = false ∧
                Slot._isOfflineDeleted s' = true ∧
                ∃ s, s ∈ Routine.slots r ∧
                     s' = Slot.with_isOfflineDeleted true s)).
Proof.
  intros Hoff Hnodup.
  set (f := λ routine : Routine.t,
         Routine.with_slots (markSlotDeleted slotId (Routine.slots routine))
                            routine).
  pose proof (save_updated routineId f (idb w) (λ _, eq_refl) Hnodup) as Hsave.
  assert (Hrun : ∃ w',
    deleteRoutineSlot gw routineId slotId w = (Ok (), w') ∧
    remote w' = remote w ∧ remoteCalls (log w') = remoteCalls (log w) ∧
    routines w' = dropSlot routineId slotId (routines w) ∧
    idb w' = (λ x, if decide (Routine.id x = routineId) then f x else x)
               <$> idb w).
  { unfold deleteRoutineSlot, reportAndRethrow, try_catch, mbind, M_bind,
      bind, setError, setRoutines, getAllFromIndexedDB, saveAllToIndexedDB,
      modify, gets.
    simpl. rewrite Hoff. simpl. fold f.
    destruct (updateExisting routineId f (idb w)) as [updated|]; simpl;
      eexists; (split; [reflexivity|]); simpl; rewrite <- Hsave;
      repeat split; rewrite ?remoteCalls_app; simpl; by rewrite ?app_nil_r. }
  destruct Hrun as (w' & Hrun & Hremote & Hlog & Hroutines & Hidb).
  exists w'. split; [exact Hrun|]. split; [exact Hremote|].
  split; [exact Hlog|]. rewrite Hroutines, Hidb. split; [|split].
  - unfold dropSlot. intros r (r0 & -> & Hin)%list_elem_of_fmap Hid.
    destruct (decide (Routine.id r0 = routineId)); [|done]. simpl.
    intros (s & Hs & [Hne _]%list_elem_of_filter)%list_elem_of_fmap. done.
  - unfold dropSlot. rewrite <- list_fmap_compose. apply list_fmap_ext.
    intros i r _. simpl. by destruct (decide _).
  - intros i r Hi. rewrite list_lookup_fmap, Hi. simpl.
    destruct (decide (Routine.id r = routineId)) as [Hid|Hid].
    + exists (f r). split; [done|]. split; [done|]. split; [by destruct r|].
      intros _. apply markSlotDeleted_spec.
    + exists r. split; [done|]. split; [done|]. split; [by destruct r|done].
Qed.

(** ** What a pass sends, and why *)

Ltac no_call H := by apply elem_of_nil in H.
Ltac one_call H := apply list_elem_of_singleton in H as ->; simpl.

Lemma slotCalls_justified routine slot c :
  c ∈ slotCalls routine slot →
  Routine._isOfflineDeleted routine = false →
  Routine._isOffline routine = false →
  slot ∈ Routine.slots routine →
  justifies routine c.
Proof.
  unfold slotCalls. intros H Hkept Hsynced Hin.
  destruct (negb (Slot.pending slot)); [no_call H|].
  destruct (Slot._isOfflineDeleted slot) eqn:Hdel.
  { one_call H. eauto 10. }
  destruct (Slot._isOffline slot) eqn:Hoff.
  { one_call H. eauto 10. }
  destruct (Slot._isOfflineUpdated slot) eqn:Hupd; [|no_call H].
  one_call H. eauto 12.
Qed.

Lemma routineCalls_justified routine c :
  c ∈ routineCalls routine → justifies routine c.
Proof.
  unfold routineCalls. cbv zeta. intros H.
  destruct (negb (routinePending routine)); [no_call H|].
  destruct (Routine._isOfflineDeleted routine) eqn:Hdel.
  { by one_call H. }
  apply elem_of_app in H as [H|H].
  { destruct (Routine._needsActivationSync routine) eqn:Hact.
    { by one_call H. }
    destruct (Routine._needsDeactivationSync routine) eqn:Hdeact;
      [by one_call H|no_call H]. }
  destruct (Routine._isOffline routine) eqn:Hoff.
  { by one_call H. }
  apply elem_of_app in H as [H|H].
  { destruct (Routine._isOfflineUpdated routine) eqn:Hupd;
      [by one_call H|no_call H]. }
  apply list_elem_of_bind in H as (slot & Hcall & Hin).
  by eapply slotCalls_justified.
Qed.

Lemma slot_pending_routine routine slot :
  slot ∈ Routine.slots routine → Slot.pending slot = true →
  routinePending routine = true.
Proof.
  intros Hin Hpending. unfold routinePending.
  assert (existsb Slot.pending (Routine.slots routine) = true) as ->.
  { apply existsb_exists. exists slot. split; [|done].
    by apply list_elem_of_In. }
  by rewrite !orb_true_r.
Qed.

Lemma flag_pending routine :
  Routine._isOffline routine = true ∨ Routine._isOfflineUpdated routine = true ∨
  Routine._isOfflineDeleted routine = true ∨
  Routine._needsActivationSync routine = true ∨
  Routine._needsDeactivationSync routine = true →
  routinePending routine = true.
Proof.
  unfold routinePending.
  intros [-> | [-> | [-> | [-> | ->]]]]; by rewrite ?orb_true_r.
Qed.

(** Finds a request in the requests of a routine known to be pending. *)
Ltac find_call routine Hpending :=
  unfold routineCalls; cbv zeta; rewrite Hpending; simpl;
  destruct (Routine._isOfflineDeleted routine),
    (Routine._needsActivationSync routine),
    (Routine._needsDeactivationSync routine),
    (Routine._isOffline routine),
    (Routine._isOfflineUpdated routine);
  try discriminate; simpl;
  rewrite ?elem_of_app, ?elem_of_cons; auto 10.

Lemma justified_slotCall routine slot c :
  c ∈ slotCalls routine slot →
  slot ∈ Routine.slots routine → Slot.pending slot = true →
  Routine._isOfflineDeleted routine = false →
  Routine._isOffline routine = false →
  c ∈ routineCalls routine.
Proof.
  intros Hc Hin Hslot Hdel Hoff.
  pose proof (slot_pending_routine routine slot Hin Hslot) as Hpending.
  assert (c ∈ Routine.slots routine ≫= slotCalls routine).
  { apply list_elem_of_bind. by exists slot. }
  find_call routine Hpending.
Qed.

Lemma justified_routineCalls routine c :
  justifies routine c → c ∈ routineCalls routine.
Proof.
  destruct c; simpl; try done.
  - intros (Hdel & Hoff & ->).
    assert (Hpending : routinePending routine = true)
      by (apply flag_pending; auto).
    find_call routine Hpending.
  - intros (-> & Hdel & Hoff & Hupd & ->).
    assert (Hpending : routinePending routine = true)
      by (apply flag_pending; auto).
    find_call routine Hpending.
  - intros (-> & Hdel).
    assert (Hpending : routinePending routine = true)
      by (apply flag_pending; auto).
    find_call routine Hpending.
  - intros (-> & Hdel & Hoff & sl & Hin & Hslot_del & Hslot_off & ->).
    apply (justified_slotCall routine sl); try done.
    + unfold slotCalls, Slot.pending. rewrite Hslot_del, Hslot_off. simpl.
      apply elem_of_cons. by left.
    + unfold Slot.pending. by rewrite Hslot_off.
  - intros (-> & Hdel & Hoff & sl & Hin & <- & Hslot_del & Hslot_off
            & Hslot_upd & ->).
    apply (justified_slotCall routine sl); try done.
    + unfold slotCalls, Slot.pending.
      rewrite Hslot_del, Hslot_off, Hslot_upd. simpl.
      apply elem_of_cons. by left.
    + unfold Slot.pending. by rewrite Hslot_upd, orb_true_r.
  - intros (-> & Hdel & Hoff & sl & Hin & <- & Hslot_del).
    apply (justified_slotCall routine sl); try done.
    + unfold slotCalls, Slot.pending. rewrite Hslot_del, !orb_true_r. simpl.
      apply elem_of_cons. by left.
    + unfold Slot.pending. by rewrite Hslot_del, orb_true_r.
  - intros (-> & Hdel & Hact).
    assert (Hpending : routinePending routine = true)
      by (apply flag_pending; auto).
    find_call routine Hpending.
  - intros (-> & Hdel & Hact & Hdeact).
    assert (Hpending : routinePending routine = true)
      by (apply flag_pending; auto).
    find_call routine Hpending.
Qed.

(** X5. A pass sends the requests that the markers of the Local Store call
    for, and no other: a request is sent by a pass that starts if and only
    if a routine of the store, as the pass read it, entitles it.  So a
    routine marked [_isOfflineDeleted] gets its delete and nothing else; a
    routine marked [_isOffline] gets its create (after its activation or
    deactivation, if marked) and no request for its slots; a deactivation is
    sent only for a routine not marked for activation; and a pass never
    fetches, selects or imports. *)
Theorem syncOfflineChanges_sends_what_is_marked (w : World G D) :
  isOffline w = false → syncInProgress w = false →
  ∃ calls,
    remoteCalls (log (syncOfflineChanges gw w).2)
      = remoteCalls (log w) ++ calls ∧
    ∀ c, c ∈ calls ↔ ∃ routine, routine ∈ idb w ∧ justifies routine c.
Proof.
  intros Hon Hidle.
  destruct (syncOfflineChanges_calls w Hon Hidle) as [_ Hcalls].
  exists (idb w ≫= routineCalls). split; [exact Hcalls|].
  intros c. rewrite list_elem_of_bind. split.
  - intros (routine & Hc & Hin). exists routine. split; [exact Hin|].
    by apply routineCalls_justified.
  - intros (routine & Hin & Hc). exists routine. split; [|exact Hin].
    by apply justified_routineCalls.
Qed.

(** ** Deactivation *)

Lemma activateRoutine_offline_run routineId (w : World G D) :
  isOffline w = true → NoDup (Routine.id <$> idb w) →
  ∃ w', activateRoutine gw routineId w = (Ok (), w') ∧
    idb w' = markActivated routineId <$> idb w ∧
    routines w' = markActivated routineId <$> routines w ∧
    remote w' = remote w ∧ log w' = log w ++ [StoreRead; StoreWrite] ∧
    isOffline w' = true ∧ syncInProgress w' = syncInProgress w.
Proof.
  intros Hoff Hnodup.
  unfold activateRoutine, reportAndRethrow, try_catch, mbind, M_bind, bind,
    setError, setRoutines, getAllFromIndexedDB, saveAllToIndexedDB, modify,
    gets.
  simpl. rewrite Hoff. simpl. eexists. split; [reflexivity|]. simpl.
  rewrite putAll_fmap by done. rewrite <- app_assoc. by repeat split.
Qed.

Lemma deactivateRoutine_offline_run routineId (w : World G D) :
  isOffline w = true → NoDup (Routine.id <$> idb w) →
  ∃ w', deactivateRoutine gw routineId w = (Ok (), w') ∧
    idb w' = markDeactivated routineId <$> idb w ∧
    routines w' = markDeactivated routineId <$> routines w ∧
    remote w' = remote w ∧ log w' = log w ++ [StoreRead; StoreWrite] ∧
    isOffline w' = true ∧ syncInProgress w' = syncInProgress w.
Proof.
  intros Hoff Hnodup.
  unfold deactivateRoutine, reportAndRethrow, try_catch, mbind, M_bind, bind,
    setError, setRoutines, getAllFromIndexedDB, saveAllToIndexedDB, modify,
    gets.
  simpl. rewrite Hoff. simpl. eexists. split; [reflexivity|]. simpl.
  rewrite putAll_fmap by done. rewrite <- app_assoc. by repeat split.
Qed.

(** X6. Called offline, [deactivateRoutine] sends nothing and never throws;
    in every routine of the Local Store (of distinct ids) it writes the two
    fields [isActive] and [_needsDeactivationSync] and nothing else: the
    target becomes inactive and marked, every other routine keeps its
    [isActive] and loses the [_needsDeactivationSync] an earlier offline
    deactivation left on it.  [_needsActivationSync] is not touched, on the
    target either. *)
Theorem deactivateRoutine_offline_frame (routineId : string) (w : World G D) :
  isOffline w = true →
  NoDup (Routine.id <$> idb w) →
  ∃ w', deactivateRoutine gw routineId w = (Ok (), w') ∧
    remote w' = remote w ∧
    remoteCalls (log w') = remoteCalls (log w) ∧
    ∀ i r, idb w !! i = Some r →
      ∃ r', idb w' !! i = Some r' ∧
        Routine.isActive r'
          = (if decide (Routine.id r = routineId) then false
             else Routine.isActive r) ∧
        Routine._needsDeactivationSync r'
          = bool_decide (Routine.id r = routineId) ∧
        Routine.with_isActive (Routine.isActive r)
          (Routine.with_needsDeactivationSync
             (Routine._needsDeactivationSync r) r') = r.
Proof.
  intros Hoff Hnodup.
  destruct (deactivateRoutine_offline_run routineId w Hoff Hnodup)
    as (w' & Hrun & Hidb & _ & Hremote & Hlog & _).
  exists w'. split; [exact Hrun|]. split; [exact Hremote|]. split.
  { rewrite Hlog, remoteCalls_app. apply app_nil_r. }
  intros i r Hi. exists (markDeactivated routineId r).
  rewrite Hidb, list_lookup_fmap, Hi. by destruct r.
Qed.

(** X7. An offline deactivation does not cancel the offline activation that
    came before it.  After [activateRoutine] and then [deactivateRoutine]
    for the same routine, both offline, the routine is inactive in the Local
    Store and carries both markers; since a pass looks at
    [_needsActivationSync] first, the next pass sends the activation of the
    routine and no deactivation. *)
Theorem offline_deactivation_after_activation (routineId : string)
    (w : World G D) :
  isOffline w = true → syncInProgress w = false →
  NoDup (Routine.id <$> idb w) →
  (∃ r, r ∈ idb w ∧ Routine.id r = routineId ∧
        Routine._isOfflineDeleted r = false) →
  let w1 := (activateRoutine gw routineId w).2 in
  let w2 := (deactivateRoutine gw routineId w1).2 in
  let pass := syncOfflineChanges gw (set_isOffline false w2) in
  (∀ r, r ∈ idb w2 → Routine.id r = routineId →
        Routine.isActive r = false ∧
        Routine._needsActivationSync r = true ∧
        Routine._needsDeactivationSync r = true) ∧
  ∃ calls,
    remoteCalls (log pass.2) = remoteCalls (log w) ++ calls ∧
    ActivateRoutine routineId ∈ calls ∧
    DeactivateRoutine routineId ∉ calls.
Proof.
  intros Hoff Hidle Hnodup (r & Hin & Hid & Hdel) w1 w2 pass.
  destruct (activateRoutine_offline_run routineId w Hoff Hnodup)
    as (w1' & Hrun1 & Hidb1 & _ & _ & Hlog1 & Hoff1 & Hidle1).
  assert (w1 = w1') as -> by (unfold w1; by rewrite Hrun1).
  assert (Hnodup1 : NoDup (Routine.id <$> idb w1')).
  { rewrite Hidb1, fmap_keeps_ids; done. }
  destruct (deactivateRoutine_offline_run routineId w1' Hoff1 Hnodup1)
    as (w2' & Hrun2 & Hidb2 & _ & _ & Hlog2 & Hoff2 & Hidle2).
  assert (w2 = w2') as -> by (unfold w2; by rewrite Hrun2).
  assert (Hstore : idb w2' = (markDeactivated routineId
                              ∘ markActivated routineId) <$> idb w).
  { by rewrite Hidb2, Hidb1, <- list_fmap_compose. }
  split.
  { intros r2. rewrite Hstore.
    intros (r0 & -> & _)%list_elem_of_fmap Hid2. simpl in *.
    rewrite decide_True by done. by rewrite bool_decide_true. }
  destruct (syncOfflineChanges_calls (set_isOffline false w2'))
    as [_ Hcalls]; [done|simpl; congruence|].
  fold pass in Hcalls. simpl in Hcalls.
  exists (idb w2' ≫= routineCalls). split.
  { rewrite Hcalls, Hlog2, Hlog1, !remoteCalls_app. simpl.
    by rewrite !app_nil_r. }
  split.
  - apply list_elem_of_bind.
    exists (markDeactivated routineId (markActivated routineId r)).
    split;
      [|rewrite Hstore;
        exact (list_elem_of_fmap_2
                 (markDeactivated routineId ∘ markActivated routineId)
                 _ _ Hin)].
    rewrite <- Hid. apply justified_routineCalls. simpl.
    by rewrite bool_decide_true.
  - rewrite Hstore.
    intros (x & Hc & (r0 & -> & _)%list_elem_of_fmap)%list_elem_of_bind.
    pose proof (routineCalls_justified _ _ Hc) as (Hx & _ & Hnone & _).
    simpl in Hx, Hnone. rewrite bool_decide_true in Hnone; done.
Qed.

(** ** Passes that change nothing *)

Local Abbreviation stalls := (stalls (G:=G) (D:=D)).
Local Abbreviation stallsSlots := (stallsSlots (G:=G) (D:=D)).

Lemma syncRoutines_clean (rs : list Routine.t) (v : SyncVars) (w : World G D) :
  Forall (λ r, routinePending r = false) rs →
  syncRoutines gw rs v w = (Ok v, w).
Proof.
  induction 1 as [|r rs Hr _ IH]; [done|]. simpl.
  unfold mbind, M_bind, bind, syncRoutine. rewrite Hr. simpl. exact IH.
Qed.

(** X8. A pass over a Local Store without pending changes does nothing but
    read the store: no request, no write, and the visible routines, the
    error and the freshness timestamp stay as they are. *)
Theorem syncOfflineChanges_without_changes (w : World G D) :
  isOffline w = false → syncInProgress w = false →
  Forall (λ r, routinePending r = false) (idb w) →
  syncOfflineChanges gw w = (Ok (), add_event StoreRead w).
Proof.
  intros Hon Hidle Hclean.
  unfold syncOfflineChanges, try_finally, try_catch, mbind, M_bind, bind,
    gets, setSyncInProgress, getAllFromIndexedDB, modify.
  simpl. rewrite Hon, Hidle. simpl.
  rewrite syncRoutines_clean by done. simpl.
  destruct w. simpl in *. by subst.
Qed.

Lemma stalls_ret v : stalls v (ret v).
Proof. intros w. by exists v, w. Qed.

Lemma stalls_bind v (m : M SyncVars) (k : SyncVars → M SyncVars) :
  stalls v m → (∀ v', stalls v' (k v')) → stalls v (m ≫= k).
Proof.
  intros Hm Hk w. destruct (Hm w) as (v1 & w1 & Hrun & Hs & Hc & Hst).
  destruct (Hk v1 w1) as (v2 & w2 & Hrun2 & Hs2 & Hc2 & Hst2).
  exists v2, w2. unfold mbind, M_bind, bind. rewrite Hrun.
  split; [exact Hrun2|]. split; [congruence|]. split; congruence.
Qed.

Lemma stalls_attempt {A} c (serve : G → result A * G) onSuccess v :
  (∀ g, ∃ msg g', serve g = (Throw msg, g')) →
  stalls v (attempt (request c serve) onSuccess v).
Proof.
  intros Hfails w. destruct (Hfails (remote w)) as (msg & g' & Hserve).
  unfold attempt, try_catch, mbind, M_bind, bind, request. rewrite Hserve.
  by eexists _, _.
Qed.

Lemma stallsSlots_attempt {A} c (serve : G → result A * G) onSuccess v :
  (∀ g, ∃ msg g', serve g = (Throw msg, g')) →
  stallsSlots v (attemptSlot (request c serve) onSuccess v).
Proof.
  intros Hfails w. destruct (Hfails (remote w)) as (msg & g' & Hserve).
  unfold attemptSlot, try_catch, mbind, M_bind, bind, request. rewrite Hserve.
  by eexists _, _.
Qed.

Lemma stallsSlots_syncSlot routine slot v :
  rejectsWrites gw → stallsSlots v (syncSlot gw routine slot v).
Proof.
  intros (_ & _ & _ & Hadd & Hupdate & Hdelete & _).
  unfold syncSlot.
  destruct (negb (Slot.pending slot)); [intros w; by exists v, w|].
  destruct (Slot._isOfflineDeleted slot); [by apply stallsSlots_attempt|].
  destruct (Slot._isOffline slot); [by apply stallsSlots_attempt|].
  destruct (Slot._isOfflineUpdated slot); [by apply stallsSlots_attempt|].
  intros w. by exists v, w.
Qed.

Lemma stallsSlots_syncSlots routine slots v :
  rejectsWrites gw → stallsSlots v (syncSlots gw routine slots v).
Proof.
  intros Hrejects. revert v.
  induction slots as [|slot rest IH]; intros v; simpl.
  - intros w. by exists v, w.
  - intros w.
    destruct (stallsSlots_syncSlot routine slot v Hrejects w)
      as (v1 & w1 & Hrun & Hs & Hc & Hst).
    destruct (IH v1 w1) as (v2 & w2 & Hrun2 & Hs2 & Hc2 & Hst2).
    exists v2, w2. unfold mbind, M_bind, bind. rewrite Hrun.
    split; [exact Hrun2|]. split; [congruence|]. split; congruence.
Qed.

Lemma stalls_syncRoutine routine v :
  rejectsWrites gw → stalls v (syncRoutine gw routine v).
Proof.
  intros Hrejects.
  pose proof Hrejects
    as (Hcreate & Hupdate & Hdelete & _ & _ & _ & Hactivate & Hdeactivate).
  unfold syncRoutine. cbv zeta.
  destruct (negb (routinePending routine)); [apply stalls_ret|].
  destruct (Routine._isOfflineDeleted routine); [by apply stalls_attempt|].
  apply stalls_bind.
  { destruct (Routine._needsActivationSync routine);
      [by apply stalls_attempt|].
    destruct (Routine._needsDeactivationSync routine);
      [by apply stalls_attempt|apply stalls_ret]. }
  intros v1.
  destruct (Routine._isOffline routine); [by apply stalls_attempt|].
  apply stalls_bind.
  { destruct (Routine._isOfflineUpdated routine);
      [by apply stalls_attempt|apply stalls_ret]. }
  intros v2.
  destruct (Routine.slots routine) as [|slot rest] eqn:Hslots;
    [apply stalls_ret|].
  intros w.
  destruct (stallsSlots_syncSlots routine (slot :: rest)
              (mkSlotVars (slot :: rest) false (syncErrors v2)) Hrejects w)
    as (sv & w1 & Hrun & _ & Hchanged & Hst).
  unfold mbind, M_bind, bind. rewrite Hrun. simpl in Hchanged.
  rewrite Hchanged. by eexists _, _.
Qed.

Lemma stalls_syncRoutines rs v :
  rejectsWrites gw → stalls v (syncRoutines gw rs v).
Proof.
  intros Hrejects. revert v.
  induction rs as [|routine rest IH]; intros v; simpl.
  - apply stalls_ret.
  - apply stalls_bind; [by apply stalls_syncRoutine|]. intros v'. apply IH.
Qed.

(** X9. A pass none of whose requests goes through fails silently: it
    returns normally, and the visible routines, the Local Store with its
    markers, the freshness timestamp and the [error] state are what they
    were before the pass (the failures are counted and logged to the console
    only), so that the next pass will send the same requests again. *)
Theorem syncOfflineChanges_fails_silently (w : World G D) :
  isOffline w = false → syncInProgress w = false →
  rejectsWrites gw →
  ∃ w', syncOfflineChanges gw w = (Ok (), w') ∧
    hookState w' = hookState w ∧
    idb w' ≫= routineCalls = idb w ≫= routineCalls.
Proof.
  intros Hon Hidle Hrejects.
  destruct (stalls_syncRoutines (idb w) (mkSyncVars (idb w) false 0) Hrejects
              (add_event StoreRead (set_syncInProgress true w)))
    as (v & w1 & Hrun & _ & Hchanged & Hst).
  unfold syncOfflineChanges, try_finally, try_catch, mbind, M_bind, bind,
    gets, setSyncInProgress, getAllFromIndexedDB, modify.
  simpl. rewrite Hon, Hidle. simpl. rewrite Hrun. simpl in Hchanged.
  rewrite Hchanged. simpl. eexists. split; [reflexivity|].
  unfold hookState in *. simpl in *.
  injection Hst as -> -> -> _ -> -> -> -> ->. by rewrite Hidle.
Qed.

(** ** [refreshRoutineSlots] *)

Ltac refresh_done :=
  eexists; (split; [reflexivity|]); simpl; (repeat split; try done);
  first [by left | right; by eexists _, _].

Lemma refreshRoutineSlots_run routineId (w : World G D) :
  ∃ w', refreshRoutineSlots gw routineId w = (Ok (), w') ∧
    (routineId = "" → w' = w) ∧
    error w' = error w ∧ loading w' = loading w ∧
    lastFetched w' = lastFetched w ∧
    (routines w' = routines w ∨
     ∃ slot rest, routines w'
                  = replaceSlots routineId (slot :: rest) (routines w)).
Proof.
  unfold refreshRoutineSlots.
  destruct routineId as [|a routineId']; simpl; [refresh_done|].
  set (routineId := String a routineId').
  unfold try_catch, mbind, M_bind, bind, request, setRoutines,
    getAllFromIndexedDB, saveAllToIndexedDB, modify, mret, M_ret, ret.
  simpl.
  destruct (selectSlots gw routineId (remote w)) as [[[[|slot rest]|]|msg] g];
    simpl; try refresh_done.
  repeat case_match; simplify_eq/=; refresh_done.
Qed.

(** X10. [refreshRoutineSlots] never throws, whatever the backend answers,
    and does nothing at all for an empty id.  It leaves the [error] state
    alone and changes the visible routines in one way only: the routine of
    the id may get new slots.  No routine is added, dropped or moved, every
    other routine and every other field stay as they are, and a routine that
    had slots still has slots afterwards (an empty or failed answer replaces
    nothing). *)
Theorem refreshRoutineSlots_keeps_routines (routineId : string)
    (w : World G D) :
  ∃ w', refreshRoutineSlots gw routineId w = (Ok (), w') ∧
    (routineId = "" → w' = w) ∧
    error w' = error w ∧
    length (routines w') = length (routines w) ∧
    ∀ i r, routines w !! i = Some r →
      ∃ r', routines w' !! i = Some r' ∧
        Routine.with_slots (Routine.slots r) r' = r ∧
        (Routine.id r ≠ routineId → r' = r) ∧
        (Routine.slots r ≠ [] → Routine.slots r' ≠ []).
Proof.
  destruct (refreshRoutineSlots_run routineId w)
    as (w' & Hrun & Hempty & Herror & _ & _ & Hroutines).
  exists w'. split; [exact Hrun|]. split; [exact Hempty|].
  split; [exact Herror|].
  destruct Hroutines as [->|(slot & rest & ->)].
  - split; [done|]. intros i r Hi. exists r. by destruct r.
  - unfold replaceSlots. split; [by rewrite length_fmap|].
    intros i r Hi. rewrite list_lookup_fmap, Hi. simpl.
    destruct (decide (Routine.id r = routineId)).
    + eexists. split; [reflexivity|]. by destruct r.
    + exists r. by destruct r.
Qed.

(** ** Loading *)

(** X11. Called offline, [loadRoutines] (in both variants) contacts nothing
    and shows the Local Store as it is: the visible routines become the
    stored ones, [loading] ends false and [error] empty, and the store is not
    written.  The freshness timestamp is still removed when a refresh was
    forced or the view is the admin's, although nothing was fetched. *)
Theorem loadRoutines_offline_shows_store (forceRefresh isAdminView : bool)
    (w : World G D) :
  isOffline w = true →
  let shown w' :=
    routines w' = idb w ∧ loading w' = false ∧ error w' = None ∧
    idb w' = idb w ∧ remote w' = remote w ∧
    remoteCalls (log w') = remoteCalls (log w) ∧
    lastFetched w' = (if isAdminView || forceRefresh then None
                      else lastFetched w) in
  (∃ w', loadRoutines gw forceRefresh isAdminView w = (Ok (), w') ∧
         shown w') ∧
  (∃ w', loadRoutinesProgressive gw forceRefresh isAdminView w
           = (Ok None, w') ∧
         shown w').
Proof.
  intros Hoff shown. unfold shown.
  unfold loadRoutines, loadRoutinesProgressive, try_finally, try_catch,
    mbind, M_bind, bind, setLoading, setError, setRoutines,
    getAllFromIndexedDB, modify, gets, mret, M_ret, ret.
  split.
  - destruct (isAdminView || forceRefresh); simpl; rewrite Hoff; simpl;
      destruct (idb w) eqn:Hidb; simpl;
      (eexists; split; [reflexivity|]); simpl; rewrite ?Hidb;
      repeat split; by apply remoteCalls_quiet.
  - destruct (isAdminView || forceRefresh); simpl; rewrite Hoff; simpl;
      destruct (idb w) eqn:Hidb; simpl;
      (eexists; split; [reflexivity|]); simpl; rewrite ?Hidb;
      repeat split; by apply remoteCalls_quiet.
Qed.

Lemma succeeds_loadRoutinesProgressive forceRefresh isAdminView :
  succeeds (loadRoutinesProgressive gw forceRefresh isAdminView).
Proof. unfold loadRoutinesProgressive. solve_succeeds. Qed.

Lemma succeeds_runDeferred job : succeeds (runDeferred gw job).
Proof. unfold runDeferred. solve_succeeds. Qed.

(** X12. Loading never throws and never leaves the spinner on: whatever
    the backend and the Local Store do, [loadRoutines] returns normally with
    [loading] false, in the variant with the retry loop and in the
    progressive one; and the work the progressive variant leaves for later
    (the background refresh, the slots of the routines that are not active)
    never throws either. *)
Theorem loadRoutines_always_settles (forceRefresh isAdminView : bool)
    (w : World G D) :
  (∃ w', loadRoutines gw forceRefresh isAdminView w = (Ok (), w') ∧
         loading w' = false) ∧
  (∃ job w', loadRoutinesProgressive gw forceRefresh isAdminView w
               = (Ok job, w') ∧
             loading w' = false) ∧
  (∀ job, ∃ w', runDeferred gw job w = (Ok (), w')).
Proof.
  split; [|split].
  - destruct (succeeds_ok _ w (succeeds_loadRoutines forceRefresh isAdminView))
      as ([] & w' & Hrun).
    exists w'. split; [exact Hrun|].
    unfold loadRoutines, try_finally in Hrun.
    destruct (try_catch _ _ w) as [r w1]. by injection Hrun as _ <-.
  - destruct (succeeds_ok _ w
                (succeeds_loadRoutinesProgressive forceRefresh isAdminView))
      as (job & w' & Hrun).
    exists job, w'. split; [exact Hrun|].
    unfold loadRoutinesProgressive, try_finally in Hrun.
    destruct (try_catch _ _ w) as [r w1]. by injection Hrun as _ <-.
  - intros job.
    destruct (succeeds_ok _ w (succeeds_runDeferred job)) as ([] & w' & Hrun).
    by exists w'.
Qed.

(** ** How often a load fetches *)

Local Abbreviation fetchesAtMost := (fetchesAtMost (G:=G) (D:=D)).

Lemma fetches_app l1 l2 : fetches (l1 ++ l2) = fetches l1 + fetches l2.
Proof. unfold fetches. by rewrite List.filter_app, length_app. Qed.

Lemma atMost_weaken {A} n n' (m : M A) :
  fetchesAtMost n m → n ≤ n' → fetchesAtMost n' m.
Proof. intros Hm Hle w. specialize (Hm w). lia. Qed.

Lemma atMost_ret {A} (a : A) : fetchesAtMost 0 (ret a).
Proof. intros w. simpl. lia. Qed.

Lemma atMost_throw {A} msg : fetchesAtMost 0 (throw (A:=A) msg).
Proof. intros w. simpl. lia. Qed.

Lemma atMost_gets {A} (f : World G D → A) : fetchesAtMost 0 (gets f).
Proof. intros w. simpl. lia. Qed.

Lemma atMost_modify (f : World G D → World G D) :
  (∀ w, fetches (log (f w)) = fetches (log w)) → fetchesAtMost 0 (modify f).
Proof. intros Hf w. simpl. rewrite Hf. lia. Qed.

Lemma atMost_bind {A B} n1 n2 (m : M A) (k : A → M B) :
  fetchesAtMost n1 m → (∀ a, fetchesAtMost n2 (k a)) →
  fetchesAtMost (n1 + n2) (m ≫= k).
Proof.
  intros Hm Hk w. unfold mbind, M_bind, bind. specialize (Hm w).
  destruct (m w) as [[a|msg] w1]; simpl in *; [|lia].
  specialize (Hk a w1). lia.
Qed.

Lemma atMost_try_catch {A} n1 n2 (m : M A) (handler : string → M A) :
  fetchesAtMost n1 m → (∀ msg, fetchesAtMost n2 (handler msg)) →
  fetchesAtMost (n1 + n2) (try_catch m handler).
Proof.
  intros Hm Hh w. unfold try_catch. specialize (Hm w).
  destruct (m w) as [[a|msg] w1]; simpl in *; [lia|].
  specialize (Hh msg w1). lia.
Qed.

Lemma atMost_try_finally {A} n (m : M A) cleanup :
  fetchesAtMost n m → (∀ w, log (cleanup w) = log w) →
  fetchesAtMost n (try_finally m cleanup).
Proof.
  intros Hm Hc w. unfold try_finally. specialize (Hm w).
  destruct (m w) as [r w1]. simpl in *. by rewrite Hc.
Qed.

Lemma atMost_request {A} c (serve : G → result A * G) :
  fetchesAtMost (if isFetch (Remote c) then 1 else 0) (request c serve).
Proof.
  intros w. rewrite request_log, fetches_app. unfold fetches at 2. simpl.
  destruct c; simpl; lia.
Qed.

(** The computations that send no [fetchRoutines] at all. *)
Lemma quiet_bind {A B} (m : M A) (k : A → M B) :
  fetchesAtMost 0 m → (∀ a, fetchesAtMost 0 (k a)) →
  fetchesAtMost 0 (m ≫= k).
Proof. apply (atMost_bind 0 0). Qed.

Lemma quiet_try_catch {A} (m : M A) (handler : string → M A) :
  fetchesAtMost 0 m → (∀ msg, fetchesAtMost 0 (handler msg)) →
  fetchesAtMost 0 (try_catch m handler).
Proof. apply (atMost_try_catch 0 0). Qed.

Lemma quiet_request {A} c (serve : G → result A * G) :
  isFetch (Remote c) = false → fetchesAtMost 0 (request c serve).
Proof.
  intros Hc. pose proof (atMost_request c serve) as H. by rewrite Hc in H.
Qed.

Lemma quiet_store (f : World G D → World G D) e :
  (∀ w, log (f w) = log w ++ [e]) → isFetch e = false →
  fetchesAtMost 0 (modify f).
Proof.
  intros Hf He. apply atMost_modify. intros w.
  rewrite Hf, fetches_app. unfold fetches at 2. simpl. rewrite He. simpl. lia.
Qed.

Lemma quiet_getAllFromIndexedDB : fetchesAtMost 0 getAllFromIndexedDB.
Proof.
  intros w. unfold getAllFromIndexedDB. simpl. rewrite fetches_app.
  unfold fetches at 2. simpl. lia.
Qed.

Lemma quiet_saveToIndexedDB item : fetchesAtMost 0 (saveToIndexedDB item).
Proof. by apply (quiet_store _ StoreWrite). Qed.

Lemma quiet_saveAllToIndexedDB items :
  fetchesAtMost 0 (saveAllToIndexedDB items).
Proof. by apply (quiet_store _ StoreWrite). Qed.

Lemma quiet_clearIndexedDBStore : fetchesAtMost 0 clearIndexedDBStore.
Proof. by apply (quiet_store _ StoreClear). Qed.

Lemma quiet_state (f : World G D → World G D) :
  (∀ w, log (f w) = log w) → fetchesAtMost 0 (modify f).
Proof. intros Hf. apply atMost_modify. intros w. by rewrite Hf. Qed.

Create HintDb quiet discriminated.
#[local] Hint Resolve atMost_ret atMost_throw atMost_gets
  quiet_getAllFromIndexedDB quiet_saveToIndexedDB quiet_saveAllToIndexedDB
  quiet_clearIndexedDBStore : quiet.
#[local] Hint Extern 1 (fetchesAtMost 0 (request _ _)) =>
  apply quiet_request; reflexivity : quiet.
#[local] Hint Extern 1 (fetchesAtMost 0 (setRoutines _)) =>
  apply quiet_state; reflexivity : quiet.
#[local] Hint Extern 1 (fetchesAtMost 0 (setLoading _)) =>
  apply quiet_state; reflexivity : quiet.
#[local] Hint Extern 1 (fetchesAtMost 0 (setError _)) =>
  apply quiet_state; reflexivity : quiet.
#[local] Hint Extern 1 (fetchesAtMost 0 (setDiagnosticState _)) =>
  apply quiet_state; reflexivity : quiet.
#[local] Hint Extern 1 (fetchesAtMost 0 (modify (set_lastFetched _))) =>
  apply quiet_state; reflexivity : quiet.

Ltac quiet_step :=
  match goal with
  | |- fetchesAtMost 0 (_ ≫= _) => apply quiet_bind; [|intros]
  | |- fetchesAtMost 0 (try_catch _ _) => apply quiet_try_catch; [|intros]
  | |- fetchesAtMost 0 (match ?x with _ => _ end) => destruct x
  | |- fetchesAtMost 0 (let _ := _ in _) => cbv zeta
  | |- fetchesAtMost 0 _ => solve [eauto with quiet]
  end.
Ltac solve_quiet := repeat quiet_step.

Lemma quiet_mapM {A B} (f : A → M B) (l : list A) :
  (∀ a, fetchesAtMost 0 (f a)) → fetchesAtMost 0 (mapM f l).
Proof. intros Hf. induction l; simpl; solve_quiet. Qed.

Lemma quiet_refreshRoutineSlots routineId :
  fetchesAtMost 0 (refreshRoutineSlots gw routineId).
Proof. unfold refreshRoutineSlots. solve_quiet. Qed.

Lemma quiet_loadFromCache : fetchesAtMost 0 loadFromCache.
Proof. unfold loadFromCache. solve_quiet. Qed.

Lemma quiet_runDiagnostics : fetchesAtMost 0 (runDiagnostics gw).
Proof. unfold runDiagnostics. solve_quiet. Qed.

Lemma quiet_consultCache duration forceRefresh isAdminView :
  fetchesAtMost 0 (consultCache duration forceRefresh isAdminView).
Proof. unfold consultCache. solve_quiet. Qed.

#[local] Hint Resolve quiet_refreshRoutineSlots quiet_loadFromCache
  quiet_runDiagnostics quiet_consultCache : quiet.

Lemma quiet_publishFetched fetchedData :
  fetchesAtMost 0 (publishFetched gw fetchedData).
Proof. unfold publishFetched. solve_quiet. Qed.

Lemma quiet_reportFetchFailure fetchError :
  fetchesAtMost 0 (reportFetchFailure gw fetchError).
Proof. unfold reportFetchFailure. solve_quiet. Qed.

Lemma quiet_fetchSlotsDirectly routine :
  fetchesAtMost 0 (fetchSlotsDirectly gw routine).
Proof. unfold fetchSlotsDirectly. solve_quiet. Qed.

Lemma atMost_fetchAttempt : fetchesAtMost 1 (fetchAttempt gw).
Proof.
  unfold fetchAttempt. apply (atMost_bind 1 0).
  - apply (atMost_request FetchRoutines).
  - intros fetchedData. destruct (_ && _); [|apply atMost_ret].
    apply quiet_mapM, quiet_fetchSlotsDirectly.
Qed.

Lemma atMost_fetchWithRetry attempts fetchError :
  fetchesAtMost attempts (fetchWithRetry gw attempts fetchError).
Proof.
  revert fetchError. induction attempts as [|attempts IH]; intros fetchError.
  - apply atMost_ret.
  - change (fetchWithRetry gw (S attempts) fetchError)
      with (try_catch (fetchedData ← fetchAttempt gw; ret (inr fetchedData))
                      (λ err, fetchWithRetry gw attempts err)).
    apply (atMost_try_catch 1 attempts); [|intros; apply IH].
    apply (atMost_bind 1 0); [apply atMost_fetchAttempt|].
    intros a. apply atMost_ret.
Qed.

(** X13. One call of [loadRoutines] sends at most three [fetchRoutines]
    requests, whatever the backend answers: the retry loop makes three
    attempts at most, and nothing else in the load (the cache branch, the
    direct slot queries, the refresh of the active routine's slots, the
    diagnostics, the fallback to the Local Store) fetches the routines. *)
Theorem loadRoutines_fetches_at_most_three_times
    (forceRefresh isAdminView : bool) (w : World G D) :
  fetches (log (loadRoutines gw forceRefresh isAdminView w).2)
    ≤ fetches (log w) + 3.
Proof.
  revert w. change (fetchesAtMost 3 (loadRoutines gw forceRefresh isAdminView)).
  unfold loadRoutines. apply atMost_try_finally; [|done].
  apply (atMost_try_catch 3 0); [|intros; solve_quiet].
  apply (atMost_bind 0 3); [solve_quiet|]. intros _.
  apply (atMost_bind 0 3); [solve_quiet|]. intros _. cbv zeta.
  apply (atMost_bind 0 3); [solve_quiet|]. intros _.
  apply (atMost_bind 0 3); [solve_quiet|]. intros offline.
  destruct offline.
  { eapply atMost_weaken; [|apply Nat.le_0_l]. solve_quiet. }
  apply (atMost_bind 0 3); [solve_quiet|]. intros [|refetch].
  { eapply atMost_weaken; [apply atMost_ret|lia]. }
  apply (atMost_bind 3 0); [apply atMost_fetchWithRetry|].
  intros [fetchError|fetchedData].
  - apply quiet_reportFetchFailure.
  - apply quiet_publishFetched.
Qed.

(** ** The cache branch *)

Lemma loadRoutines_emits_fetch forceRefresh isAdminView (w : World G D) :
  isOffline w = false →
  servesCache (cacheDurationMs isAdminView) forceRefresh isAdminView w
    = false →
  emits FetchRoutines (loadRoutines gw forceRefresh isAdminView) w.
Proof.
  intros Hon Hcache. unfold servesCache in Hcache. unfold loadRoutines.
  apply emits_try_finally; [|reflexivity].
  apply emits_try_catch; [|intros; solve_extends].
  do 2 emits_next. cbv zeta.
  destruct (isAdminView || forceRefresh) eqn:Hforce; simpl;
    do 2 emits_next; rewrite Hon;
    (edestruct consultCache_refetch as (fr & w1 & Heq & Hw1);
     [|eapply emits_bind_ok; [exact Heq| |]];
     [first [exact Hcache
            |unfold isCacheValid; simpl; by rewrite andb_false_r]
     |destruct Hw1 as [-> | ->]; simpl; try done; by apply prefix_app_r|]);
    cbn beta iota;
    (apply emits_bind_first; [apply emits_fetchWithRetry|]);
    intros [fetchError|fetchedData];
    auto using extends_reportFetchFailure, extends_publishFetched.
Qed.

Lemma loadRoutinesProgressive_emits_select forceRefresh isAdminView
    (w : World G D) :
  isOffline w = false →
  servesCache (cacheDurationMsProgressive isAdminView) forceRefresh
              isAdminView w = false →
  emits SelectRoutines (loadRoutinesProgressive gw forceRefresh isAdminView) w.
Proof.
  intros Hon Hcache. unfold servesCache in Hcache.
  unfold loadRoutinesProgressive.
  apply emits_try_finally; [|reflexivity].
  apply emits_try_catch; [|intros; solve_extends].
  do 2 emits_next. cbv zeta.
  destruct (isAdminView || forceRefresh) eqn:Hforce; simpl;
    do 2 emits_next; rewrite Hon;
    (edestruct consultCache_refetch as (fr & w1 & Heq & Hw1);
     [|eapply emits_bind_ok; [exact Heq| |]];
     [first [exact Hcache
            |unfold isCacheValid; simpl; by rewrite andb_false_r]
     |destruct Hw1 as [-> | ->]; simpl; try done; by apply prefix_app_r|]);
    cbn beta iota;
    (apply emits_try_catch; [|intros; solve_extends]);
    unfold progressiveLoad;
    (apply emits_bind_first; [apply emits_request|]);
    intros basicRoutines; solve_extends.
Qed.

Lemma servesCache_inv duration forceRefresh isAdminView (w : World G D) :
  servesCache duration forceRefresh isAdminView w = true →
  forceRefresh = false ∧ isAdminView = false ∧
  (∃ t, lastFetched w = Some t ∧ (now w - t < duration)%Z) ∧
  someHaveSlots (idb w) = true.
Proof.
  unfold servesCache, isCacheValid.
  destruct isAdminView, forceRefresh; simpl; try done.
  destruct (lastFetched w) as [t|]; simpl; [|done].
  intros [Hfresh Hslots]%andb_true_iff. apply bool_decide_eq_true in Hfresh.
  eauto 10.
Qed.

(** X14. The cache branch of [loadRoutines], while online.  The cached
    routines are served exactly when no refresh is forced, the view is not
    the admin's, the freshness timestamp is younger than the validity window
    (five minutes in the variant with the retry loop, three in the
    progressive one) and some cached routine has slots: then the visible
    routines become the stored ones and no request is sent by the call (the
    progressive variant leaves a background refresh for later).  In every
    other case the load goes to the backend. *)
Theorem loadRoutines_cache_contract (forceRefresh isAdminView : bool)
    (w : World G D) :
  isOffline w = false →
  let served w' :=
    routines w' = idb w ∧ loading w' = false ∧ error w' = None ∧
    idb w' = idb w ∧ lastFetched w' = lastFetched w ∧ remote w' = remote w ∧
    remoteCalls (log w') = remoteCalls (log w) in
  (isAdminView || forceRefresh = true →
   servesCache (cacheDurationMs isAdminView) forceRefresh isAdminView w
     = false ∧
   servesCache (cacheDurationMsProgressive isAdminView) forceRefresh
               isAdminView w = false) ∧
  (servesCache (cacheDurationMs isAdminView) forceRefresh isAdminView w
     = true →
   ∃ w', loadRoutines gw forceRefresh isAdminView w = (Ok (), w') ∧
         served w') ∧
  (servesCache (cacheDurationMs isAdminView) forceRefresh isAdminView w
     = false →
   emits FetchRoutines (loadRoutines gw forceRefresh isAdminView) w) ∧
  (servesCache (cacheDurationMsProgressive isAdminView) forceRefresh
               isAdminView w = true →
   ∃ w', loadRoutinesProgressive gw forceRefresh isAdminView w
           = (Ok (Some BackgroundRefresh), w') ∧
         served w') ∧
  (servesCache (cacheDurationMsProgressive isAdminView) forceRefresh
               isAdminView w = false →
   emits SelectRoutines
         (loadRoutinesProgressive gw forceRefresh isAdminView) w).
Proof.
  intros Hon served. unfold served. split; [|split; [|split; [|split]]].
  - intros Hforce. unfold servesCache, isCacheValid.
    destruct isAdminView, forceRefresh; by simpl in *.
  - intros (-> & -> & (t & Htime & Hfresh) & Hslots)%servesCache_inv.
    unfold loadRoutines, consultCache, isCacheValid, try_finally, try_catch,
      mbind, M_bind, bind, setLoading, setError, setRoutines,
      getAllFromIndexedDB, modify, gets, mret, M_ret, ret.
    simpl in *. rewrite Hon. simpl. rewrite Htime.
    rewrite bool_decide_true by done. simpl.
    destruct (idb w) as [|r rs] eqn:Hidb; [done|]. rewrite Hslots.
    eexists. split; [reflexivity|]. simpl. rewrite ?Hidb.
    repeat split; try done. by apply remoteCalls_quiet.
  - by apply loadRoutines_emits_fetch.
  - intros (-> & -> & (t & Htime & Hfresh) & Hslots)%servesCache_inv.
    unfold loadRoutinesProgressive, consultCache, isCacheValid, try_finally,
      try_catch, mbind, M_bind, bind, setLoading, setError, setRoutines,
      getAllFromIndexedDB, modify, gets, mret, M_ret, ret.
    simpl in *. rewrite Hon. simpl. rewrite Htime.
    rewrite bool_decide_true by done. simpl.
    destruct (idb w) as [|r rs] eqn:Hidb; [done|]. rewrite Hslots.
    eexists. split; [reflexivity|]. simpl. rewrite ?Hidb.
    repeat split; try done. by apply remoteCalls_quiet.
  - by apply loadRoutinesProgressive_emits_select.
Qed.

(** ** The repair of missing slots *)

Lemma repaired_refl rs : Forall2 repaired rs rs.
Proof. apply Forall_Forall2_diag, Forall_forall. intros r _. by destruct r. Qed.

Lemma repaired_trans rs1 rs2 rs3 :
  Forall2 repaired rs1 rs2 → Forall2 repaired rs2 rs3 →
  Forall2 repaired rs1 rs3.
Proof.
  intros H12. revert rs3. induction H12 as [|r1 r2 l1 l2 [Hr Hs] _ IH];
    intros rs3 H23; inversion H23 as [|? r3 ? l3 [Hr' Hs'] Hrest]; subst;
    constructor; [|by apply IH].
  split; [|by auto]. rewrite <- Hr at 2. rewrite <- Hr'. by destruct r3.
Qed.

Lemma updateExisting_repaired routineId slot rest rs rs' :
  updateExisting routineId (Routine.with_slots (slot :: rest)) rs = Some rs' →
  Forall2 repaired rs rs'.
Proof.
  unfold updateExisting.
  destruct (list_find _ rs) as [[i r]|] eqn:Hfind; [|done].
  intros [= <-]. apply list_find_Some in Hfind as (Hi & _ & _).
  apply Forall2_same_length_lookup. split; [by rewrite length_insert|].
  intros j x y Hx. destruct (decide (i = j)) as [<-|Hne].
  - rewrite list_lookup_insert_eq by by eapply lookup_lt_Some.
    intros [= <-]. rewrite Hi in Hx. injection Hx as <-.
    split; [by destruct r|done].
  - rewrite list_lookup_insert_ne by done. rewrite Hx. intros [= <-].
    split; [by destruct x|done].
Qed.

Lemma fixOne_frame updatedRoutines routineId (w : World G D) :
  match fixOne gw updatedRoutines routineId w with
  | (Ok rs', w') =>
      Forall2 repaired updatedRoutines rs' ∧ hookState w' = hookState w
  | (Throw _, w') => hookState w' = hookState w
  end.
Proof.
  unfold fixOne, mbind, M_bind, bind, request.
  destruct (selectSlots gw routineId (remote w)) as [[[[|slot rest]|]|msg] g];
    simpl; try done; try (split; [apply repaired_refl|done]).
  split; [|done].
  destruct (updateExisting _ _ _) as [rs'|] eqn:Hupd; simpl;
    [|apply repaired_refl].
  by eapply updateExisting_repaired.
Qed.

Lemma fixAll_frame routineIds updatedRoutines (w : World G D) :
  match fixAll gw routineIds updatedRoutines w with
  | (Ok rs', w') =>
      Forall2 repaired updatedRoutines rs' ∧ hookState w' = hookState w
  | (Throw _, w') => hookState w' = hookState w
  end.
Proof.
  revert updatedRoutines w.
  induction routineIds as [|routineId rest IH]; intros updatedRoutines w;
    simpl; [split; [apply repaired_refl|done]|].
  unfold mbind, M_bind, bind.
  pose proof (fixOne_frame updatedRoutines routineId w) as Hone.
  destruct (fixOne gw updatedRoutines routineId w) as [[rs1|msg] w1];
    [|done].
  destruct Hone as [Hone Hst]. specialize (IH rs1 w1).
  destruct (fixAll gw rest rs1 w1) as [[rs2|msg] w2]; [|congruence].
  destruct IH as [IH Hst2]. split; [|congruence].
  by eapply repaired_trans.
Qed.

(** X15. [fixMissingSlotData] never throws and only ever touches slots: the
    routines it returns are the ones it was given, in the same order, each
    with all its fields but possibly other slots, and a routine that had
    slots still has some; the state of the hook is not changed.  Offline, or
    when every routine has slots, it returns its argument and contacts
    nothing. *)
Theorem fixMissingSlotData_only_touches_slots (rs : list Routine.t)
    (w : World G D) :
  ∃ rs' w', fixMissingSlotData gw rs w = (Ok rs', w') ∧
    Forall2 repaired rs rs' ∧
    hookState w' = hookState w ∧
    (isOffline w = true ∨ Forall (λ r, Routine.slots r ≠ []) rs →
     rs' = rs ∧ w' = w).
Proof.
  unfold fixMissingSlotData, mbind, M_bind, bind, gets, try_catch.
  destruct rs as [|r rs].
  { eexists _, _. split; [reflexivity|]. by repeat split. }
  destruct (isOffline w) eqn:Hoff.
  { eexists _, _. split; [reflexivity|].
    split; [apply repaired_refl|]. by repeat split. }
  destruct (filter _ (r :: rs)) as [|r1 incomplete] eqn:Hfilter.
  { eexists _, _. split; [reflexivity|].
    split; [apply repaired_refl|]. by repeat split. }
  assert (Hsome : ¬ Forall (λ r, Routine.slots r ≠ []) (r :: rs)).
  { intros Hall. assert (Hin : r1 ∈ filter
      (λ r, Routine.hasSlotData r = false) (r :: rs))
      by (rewrite Hfilter; apply elem_of_cons; by left).
    apply list_elem_of_filter in Hin as [Hnone Hin].
    rewrite Forall_forall in Hall. specialize (Hall r1 Hin).
    unfold Routine.hasSlotData in Hnone. by destruct (Routine.slots r1). }
  cbv zeta.
  match goal with |- context [fixAll gw ?ids ?l w] =>
    pose proof (fixAll_frame ids l w) as Hall;
    destruct (fixAll gw ids l w) as [[rs'|msg] w'] end; simpl in *.
  - destruct Hall as [Hall Hst]. eexists _, _. split; [reflexivity|].
    split; [exact Hall|]. split; [exact Hst|]. by intros [|].
  - eexists _, _. split; [reflexivity|].
    split; [apply repaired_refl|]. split; [exact Hall|]. by intros [|].
Qed.

(** ** Slots added offline *)

Lemma appendSlot_save routineId newSlot (store : list Routine.t) :
  NoDup (Routine.id <$> store) →
  match updateExisting routineId
          (λ routine, Routine.with_slots (Routine.slots routine ++ [newSlot])
                                         routine) store with
  | Some updated => LocalStore.putAll updated store
  | None => store
  end = appendSlot routineId newSlot store.
Proof. intros Hnodup. by apply save_updated. Qed.

Lemma addRoutineSlot_offline_run (routineId : string) (slot : Slot.t)
    (random isoDate : string) (w : World G D) :
  isOffline w = true →
  NoDup (Routine.id <$> idb w) →
  routineId ∈ Routine.id <$> idb w →
  ∃ created w', addRoutineSlot gw routineId slot random isoDate w
                  = (Ok created, w') ∧
    Slot.id created
      = "temp-slot-" +:+ pretty (now w) +:+ "-" +:+ random ∧
    isTempId (Slot.id created) = true ∧
    Slot._isOffline created = true ∧
    Slot.routineId created = routineId ∧
    Slot.createdAt created = isoDate ∧
    addSlotPayload created = addSlotPayload slot ∧
    idb w' = appendSlot routineId created (idb w) ∧
    routines w' = appendSlot routineId created (routines w) ∧
    error w' = None ∧ remote w' = remote w ∧
    remoteCalls (log w') = remoteCalls (log w) ∧
    isOffline w' = true.
Proof.
  intros Hoff Hnodup Hin.
  set (created :=
    Slot.with_isOffline true
      (Slot.with_createdAt isoDate
         (Slot.with_routineId routineId
            (Slot.with_id ("temp-slot-" +:+ pretty (now w) +:+ "-" +:+ random)
                          slot)))).
  pose proof (appendSlot_save routineId created (idb w) Hnodup) as Hsave.
  pose proof (updateExisting_found routineId
    (λ routine, Routine.with_slots (Routine.slots routine ++ [created])
                                   routine) (idb w)) as Hfound.
  unfold addRoutineSlot, reportAndRethrow, try_catch, mbind, M_bind, bind,
    setError, setRoutines, getAllFromIndexedDB, saveAllToIndexedDB, modify,
    gets, throw, mret, M_ret, ret.
  simpl. rewrite Hoff. simpl. fold created.
  destruct (updateExisting routineId _ (idb w)) as [updated|]; simpl.
  - eexists _, _. split; [reflexivity|]. simpl.
    rewrite Hsave. repeat split;
      try apply (isTempId_temp ("slot-" +:+ pretty (now w) +:+ "-" +:+ random));
      try done.
    rewrite !remoteCalls_app. simpl. by rewrite !app_nil_r.
  - apply Hfound in Hin. by destruct Hin.
Qed.

(** X16. Called offline, [addRoutineSlot] contacts nothing.  For a routine
    that is not in the Local Store it throws [Routine not found], records
    the message, and changes neither the store nor the visible routines.
    For a stored routine it returns the slot under a temporary id, marked
    [_isOffline], with the routine id and the date of the call and otherwise
    the fields it was given (what a pass will send for it is what it would
    send for the slot as given), and appends it to the slots of that routine,
    and of no other, in the store (of distinct ids) and in the visible
    routines. *)
Theorem addRoutineSlot_offline (routineId : string) (slot : Slot.t)
    (random isoDate : string) (w : World G D) :
  isOffline w = true →
  NoDup (Routine.id <$> idb w) →
  (routineId ∉ Routine.id <$> idb w →
   ∃ w', addRoutineSlot gw routineId slot random isoDate w
           = (Throw "Routine not found", w') ∧
     error w' = Some "Routine not found" ∧
     routines w' = routines w ∧ idb w' = idb w ∧ remote w' = remote w ∧
     remoteCalls (log w') = remoteCalls (log w)) ∧
  (routineId ∈ Routine.id <$> idb w →
   ∃ created w', addRoutineSlot gw routineId slot random isoDate w
                   = (Ok created, w') ∧
     Slot.id created
       = "temp-slot-" +:+ pretty (now w) +:+ "-" +:+ random ∧
     isTempId (Slot.id created) = true ∧
     Slot._isOffline created = true ∧
     Slot.routineId created = routineId ∧
     Slot.createdAt created = isoDate ∧
     addSlotPayload created = addSlotPayload slot ∧
     idb w' = appendSlot routineId created (idb w) ∧
     routines w' = appendSlot routineId created (routines w) ∧
     error w' = None ∧ remote w' = remote w ∧
     remoteCalls (log w') = remoteCalls (log w)).
Proof.
  intros Hoff Hnodup. split.
  - intros Hnone.
    pose proof (updateExisting_found routineId
      (λ routine,
         Routine.with_slots
           (Routine.slots routine ++
            [Slot.with_isOffline true
               (Slot.with_createdAt isoDate
                  (Slot.with_routineId routineId
                     (Slot.with_id
                        ("temp-slot-" +:+ pretty (now w) +:+ "-" +:+ random)
                        slot)))])
           routine) (idb w)) as Hfound.
    unfold addRoutineSlot, reportAndRethrow, try_catch, mbind, M_bind, bind,
      setError, setRoutines, getAllFromIndexedDB, saveAllToIndexedDB, modify,
      gets, throw, mret, M_ret, ret.
    simpl. rewrite Hoff. simpl.
    destruct (updateExisting routineId _ (idb w)) as [updated|]; simpl.
    + destruct Hnone. apply Hfound. eauto.
    + eexists. split; [reflexivity|]. simpl. repeat split.
      by apply remoteCalls_quiet.
  - intros Hin.
    destruct (addRoutineSlot_offline_run routineId slot random isoDate w
                Hoff Hnodup Hin)
      as (created & w' & Hrun & Hid & Htemp & Hmark & Hrid & Hdate & Hpay
          & Hidb & Hshown & Herr & Hremote & Hlog & _).
    by exists created, w'.
Qed.

Lemma markSlotDeleted_fresh slotId (slots : list Slot.t) (created : Slot.t) :
  Forall (λ s, Slot.id s ≠ slotId) slots →
  Slot.id created = slotId → Slot._isOffline created = true →
  markSlotDeleted slotId (slots ++ [created]) = slots.
Proof.
  intros Hfresh Hid Hoff. unfold markSlotDeleted.
  rewrite fmap_app, filter_app. simpl.
  rewrite decide_True by done.
  rewrite filter_cons_False, filter_nil, app_nil_r
    by (intros Hkeep; apply Hkeep; by destruct created).
  induction Hfresh as [|s slots Hs _ IH]; [done|].
  rewrite fmap_cons, decide_False by done.
  rewrite filter_cons_True by (by intros [? _]). by rewrite IH.
Qed.

Lemma dropSlot_fresh slotId (slots : list Slot.t) (created : Slot.t) :
  Forall (λ s, Slot.id s ≠ slotId) slots →
  Slot.id created = slotId →
  filter (λ s, Slot.id s ≠ slotId) (slots ++ [created]) = slots.
Proof.
  intros Hfresh Hid. rewrite filter_app.
  rewrite (filter_cons_False _ created) by (by intros []).
  rewrite filter_nil, app_nil_r.
  induction Hfresh as [|s slots Hs _ IH]; [done|].
  by rewrite filter_cons_True, IH.
Qed.

(** X17. Offline, adding a slot and then deleting it leaves no trace: when
    the temporary id is not yet the id of a slot, [addRoutineSlot] followed
    by [deleteRoutineSlot] of the slot it returned gives back the Local Store
    (of distinct routine ids) and the visible routines exactly as they were,
    so that no later pass sends anything for that slot. *)
Theorem offline_slot_added_then_deleted (routineId : string) (slot : Slot.t)
    (random isoDate : string) (w : World G D) :
  isOffline w = true →
  NoDup (Routine.id <$> idb w) →
  routineId ∈ Routine.id <$> idb w →
  let tempId := "temp-slot-" +:+ pretty (now w) +:+ "-" +:+ random in
  Forall (λ r, Forall (λ s, Slot.id s ≠ tempId) (Routine.slots r)) (idb w) →
  Forall (λ r, Forall (λ s, Slot.id s ≠ tempId) (Routine.slots r))
         (routines w) →
  ∃ created w1 w2,
    addRoutineSlot gw routineId slot random isoDate w = (Ok created, w1) ∧
    deleteRoutineSlot gw routineId (Slot.id created) w1 = (Ok (), w2) ∧
    idb w2 = idb w ∧ routines w2 = routines w ∧
    remote w2 = remote w ∧
    remoteCalls (log w2) = remoteCalls (log w).
Proof.
  intros Hoff Hnodup Hin tempId Hstore Hvisible.
  destruct (addRoutineSlot_offline_run routineId slot random isoDate w
              Hoff Hnodup Hin)
    as (created & w1 & Hrun1 & Hid & _ & Hnew & _ & _ & _
        & Hidb1 & Hroutines1 & _ & Hremote1 & Hlog1 & Hoff1).
  fold tempId in Hid.
  set (f := λ routine : Routine.t,
         Routine.with_slots
           (markSlotDeleted (Slot.id created) (Routine.slots routine))
           routine).
  assert (Hnodup1 : NoDup (Routine.id <$> idb w1)).
  { rewrite Hidb1. unfold appendSlot. rewrite fmap_keeps_ids; [done|].
    intros r. by destruct (decide _). }
  pose proof (save_updated routineId f (idb w1) (λ _, eq_refl) Hnodup1)
    as Hsave.
  exists created, w1. 
  unfold deleteRoutineSlot, reportAndRethrow, try_catch, mbind, M_bind,
    bind, setError, setRoutines, getAllFromIndexedDB, saveAllToIndexedDB,
    modify, gets.
  simpl. rewrite Hoff1. simpl. fold f.
  assert (Hback : (λ x, if decide (Routine.id x = routineId) then f x else x)
                    <$> idb w1 = idb w).
  { rewrite Hidb1. unfold appendSlot. rewrite <- list_fmap_compose.
    rewrite <- (list_fmap_id (idb w)) at 2. apply Forall_fmap_ext_1.
    eapply Forall_impl; [exact Hstore|]. intros r Hr. simpl.
    destruct (decide (Routine.id r = routineId)) as [Hr_id|Hr_id]; simpl.
    - rewrite decide_True by done. unfold f. simpl.
      rewrite markSlotDeleted_fresh; [by destruct r| |done|done].
      by rewrite Hid.
    - by rewrite decide_False. }
  assert (Hshown : dropSlot routineId (Slot.id created) (routines w1)
                   = routines w).
  { rewrite Hroutines1. unfold dropSlot, appendSlot.
    rewrite <- list_fmap_compose.
    rewrite <- (list_fmap_id (routines w)) at 2. apply Forall_fmap_ext_1.
    eapply Forall_impl; [exact Hvisible|]. intros r Hr. simpl.
    destruct (decide (Routine.id r = routineId)) as [Hr_id|Hr_id]; simpl.
    - rewrite decide_True by done. simpl.
      rewrite dropSlot_fresh; [by destruct r| |done]. by rewrite Hid.
    - by rewrite decide_False. }
  destruct (updateExisting routineId f (idb w1)) as [updated|]; simpl;
    eexists; (split; [exact Hrun1|]); (split; [reflexivity|]); simpl;
    rewrite <- ?Hsave in Hback; rewrite ?Hback, Hshown, Hremote1;
    repeat split; rewrite ?remoteCalls_app, Hlog1; simpl;
    by rewrite ?app_nil_r.
Qed.

Lemma put_elem item store : item ∈ LocalStore.put item store.
Proof.
  unfold LocalStore.put.
  destruct (list_find _ store) as [[i r]|] eqn:Hfind.
  - apply list_find_Some in Hfind as (Hi & _).
    apply list_elem_of_lookup_2 with i. apply list_lookup_insert_eq.
    by eapply lookup_lt_Some.
  - apply elem_of_app. right. by left.
Qed.

Lemma loadRoutines_offline_run (forceRefresh isAdminView : bool)
    (w : World G D) :
  isOffline w = true →
  ∃ w', loadRoutines gw forceRefresh isAdminView w = (Ok (), w') ∧
        routines w' = idb w ∧ idb w' = idb w ∧
        remoteCalls (log w') = remoteCalls (log w).
Proof.
  intros Hoff.
  unfold loadRoutines, try_finally, try_catch,
    mbind, M_bind, bind, setLoading, setError, setRoutines,
    getAllFromIndexedDB, modify, gets, mret, M_ret, ret.
  destruct (isAdminView || forceRefresh); simpl; rewrite Hoff; simpl;
    destruct (idb w) eqn:Hidb; simpl;
    (eexists; split; [reflexivity|]); simpl; rewrite ?Hidb;
    repeat split; by apply remoteCalls_quiet.
Qed.

(** X28. A routine deleted offline comes back on an offline reload.  Offline,
    [deleteRoutine] takes a stored routine out of the visible routines and
    keeps it in the Local Store, marked [_isOfflineDeleted]; a [loadRoutines]
    that follows, still offline, shows the store as it is, so the routine is
    visible again, with its mark.  Neither call sends a request. *)
Theorem offline_deleted_routine_returns_on_reload (id : string)
    (forceRefresh isAdminView : bool) (w : World G D) :
  isOffline w = true →
  id ∈ Routine.id <$> idb w →
  ∃ w1 w2,
    deleteRoutine gw id w = (Ok (), w1) ∧
    loadRoutines gw forceRefresh isAdminView w1 = (Ok (), w2) ∧
    (id ∉ Routine.id <$> routines w1) ∧
    (∃ r, r ∈ idb w ∧ Routine.id r = id ∧
          Routine.with_isOfflineDeleted true r ∈ routines w2) ∧
    remoteCalls (log w2) = remoteCalls (log w).
Proof.
  intros Hoff (stored & Hid & Hstored)%list_elem_of_fmap.
  assert (Hdelete : ∃ r w1,
            deleteRoutine gw id w = (Ok (), w1) ∧
            r ∈ idb w ∧ Routine.id r = id ∧
            idb w1 = LocalStore.put (Routine.with_isOfflineDeleted true r)
                                    (idb w) ∧
            routines w1 = filter (λ routine, Routine.id routine ≠ id)
                                 (routines w) ∧
            isOffline w1 = true ∧
            remoteCalls (log w1) = remoteCalls (log w)).
  { unfold deleteRoutine, reportAndRethrow, try_catch, mbind, M_bind, bind,
      setError, setRoutines, getAllFromIndexedDB, saveToIndexedDB, modify,
      gets, throw, mret, M_ret, ret.
    simpl. rewrite Hoff. simpl.
    destruct (find _ (idb w)) as [r|] eqn:Hfind; simpl.
    - apply find_some in Hfind as [Hin Hr%bool_decide_eq_true].
      apply list_elem_of_In in Hin.
      exists r. eexists. split; [reflexivity|]. simpl. repeat split; try done.
      rewrite !remoteCalls_app. simpl. by rewrite !app_nil_r.
    - eapply find_none in Hfind; [|by apply list_elem_of_In].
      simpl in Hfind. by rewrite bool_decide_true in Hfind. }
  destruct Hdelete as (r & w1 & Hrun1 & Hin & Hr & Hidb1 & Hshown1 & Hoff1
                       & Hlog1).
  destruct (loadRoutines_offline_run forceRefresh isAdminView w1 Hoff1)
    as (w2 & Hrun2 & Hshown2 & _ & Hlog2).
  exists w1, w2. split; [exact Hrun1|]. split; [exact Hrun2|]. split; [|split].
  - rewrite Hshown1.
    intros (x & Hx & Hkept)%list_elem_of_fmap.
    apply list_elem_of_filter in Hkept as [Hne _]. congruence.
  - exists r. split; [exact Hin|]. split; [exact Hr|].
    rewrite Hshown2, Hidb1. apply put_elem.
  - by rewrite Hlog2, Hlog1.
Qed.

Lemma find_by_id_split (id : string) (store : list Routine.t) (r : Routine.t) :
  find (λ r, bool_decide (Routine.id r = id)) store = Some r →
  ∃ saved rest, store = saved ++ r :: rest ∧ Routine.id r = id ∧
                Forall (λ x, Routine.id x ≠ id) saved.
Proof.
  induction store as [|x store IH]; [done|]. simpl.
  destruct (bool_decide (Routine.id x = id)) eqn:Hx.
  - intros [= ->]. apply bool_decide_eq_true in Hx.
    by exists [], store.
  - intros (saved & rest & -> & Hid & Hsaved)%IH.
    apply bool_decide_eq_false in Hx.
    exists (x :: saved), rest. repeat split; [done|by constructor].
Qed.

Lemma fmap_at_id (id : string) (f : Routine.t → Routine.t)
    (saved rest : list Routine.t) (r : Routine.t) :
  NoDup (Routine.id <$> saved ++ r :: rest) →
  Routine.id r = id →
  (λ x, if decide (Routine.id x = id) then f x else x) <$> saved ++ r :: rest
  = saved ++ f r :: rest.
Proof.
  intros Hnodup Hid. rewrite fmap_app, fmap_cons in Hnodup.
  apply NoDup_app in Hnodup as (_ & Hsaved & Hrest%NoDup_cons).
  destruct Hrest as [Hrest _].
  rewrite fmap_app, fmap_cons, decide_True by done. f_equal; [|f_equal].
  - rewrite <- (list_fmap_id saved) at 2. apply list_fmap_ext.
    intros i x Hx. simpl. rewrite decide_False; [done|].
    intros Hx_id. apply (Hsaved (Routine.id x)).
    + by eapply list_elem_of_fmap_2, list_elem_of_lookup_2.
    + rewrite Hx_id, <- Hid. by left.
  - rewrite <- (list_fmap_id rest) at 2. apply list_fmap_ext.
    intros i x Hx. simpl. rewrite decide_False; [done|].
    intros Hx_id. apply Hrest. rewrite Hid, <- Hx_id.
    by eapply list_elem_of_fmap_2, list_elem_of_lookup_2.
Qed.

(** X29. Updates made offline.  Called offline, [updateRoutine] (with an
    update that leaves the id alone) and [updateRoutineSlot] send nothing and
    never throw.  In the Local Store (of distinct ids) the routine of the
    given id, and no other, takes the update, and what was updated (the
    routine, or the slot of the given id) is marked [_isOfflineUpdated]; the
    visible routines take the update without the mark.  For an id that is
    not in the store the call changes nothing, not even the visible routine
    of that id, and reports no error. *)
Theorem offline_updates_mark_the_store (w : World G D) :
  isOffline w = true →
  NoDup (Routine.id <$> idb w) →
  (∀ id updates, Routine.p_id updates = None →
     ∃ w', updateRoutine gw id updates w = (Ok (), w') ∧
       error w' = None ∧ remote w' = remote w ∧
       remoteCalls (log w') = remoteCalls (log w) ∧
       idb w' = (λ r, if decide (Routine.id r = id)
                      then Routine.with_isOfflineUpdated true
                             (Routine.apply updates r)
                      else r) <$> idb w ∧
       routines w' = (if decide (id ∈ Routine.id <$> idb w)
                      then applyUpdates id updates (routines w)
                      else routines w)) ∧
  (∀ routineId slotId updates,
     ∃ w', updateRoutineSlot gw routineId slotId updates w = (Ok (), w') ∧
       error w' = None ∧ remote w' = remote w ∧
       remoteCalls (log w') = remoteCalls (log w) ∧
       idb w' = (λ r, if decide (Routine.id r = routineId)
                      then Routine.with_slots
                             (updateSlot slotId
                                (λ slot, Slot.with_isOfflineUpdated true
                                           (Slot.apply updates slot))
                                (Routine.slots r)) r
                      else r) <$> idb w ∧
       routines w' = (if decide (routineId ∈ Routine.id <$> idb w)
                      then applySlotUpdates routineId slotId updates
                                            (routines w)
                      else routines w)).
Proof.
  intros Hoff Hnodup. split.
  - intros id updates Hkeeps.
    unfold updateRoutine, reportAndRethrow, try_catch, mbind, M_bind, bind,
      setError, setRoutines, getAllFromIndexedDB, saveToIndexedDB, modify,
      gets, throw, mret, M_ret, ret.
    simpl. rewrite Hoff. simpl.
    destruct (find _ (idb w)) as [r|] eqn:Hfind; simpl.
    + apply find_by_id_split in Hfind as (saved & rest & Hstore & Hid & Hsaved).
      eexists. split; [reflexivity|]. simpl.
      rewrite decide_True
        by (rewrite Hstore, <- Hid; apply list_elem_of_fmap_2; set_solver).
      repeat split.
      * rewrite !remoteCalls_app. simpl. by rewrite !app_nil_r.
      * rewrite Hstore in Hnodup |- *.
        rewrite (fmap_at_id id _ saved rest r Hnodup Hid).
        apply put_replaces; simpl; rewrite Hkeeps; simpl; [|done].
        by rewrite Hid.
    + assert (Hnone : id ∉ Routine.id <$> idb w).
      { intros (x & Hx & Hin)%list_elem_of_fmap.
        eapply find_none in Hfind; [|by apply list_elem_of_In].
        simpl in Hfind. by rewrite bool_decide_true in Hfind. }
      eexists. split; [reflexivity|]. simpl. rewrite decide_False by done.
      repeat split; [by apply remoteCalls_quiet|].
      rewrite <- (list_fmap_id (idb w)) at 1. apply list_fmap_ext.
      intros i x Hx. simpl. rewrite decide_False; [done|].
      intros Hid. apply Hnone. rewrite <- Hid.
      by eapply list_elem_of_fmap_2, list_elem_of_lookup_2.
  - intros routineId slotId updates.
    set (f := λ routine : Routine.t,
           Routine.with_slots
             (updateSlot slotId
                (λ slot, Slot.with_isOfflineUpdated true
                           (Slot.apply updates slot))
                (Routine.slots routine)) routine).
    pose proof (save_updated routineId f (idb w) (λ _, eq_refl) Hnodup)
      as Hsave.
    pose proof (updateExisting_found routineId f (idb w)) as Hfound.
    unfold updateRoutineSlot, reportAndRethrow, try_catch, mbind, M_bind,
      bind, setError, setRoutines, getAllFromIndexedDB, saveAllToIndexedDB,
      modify, gets, throw, mret, M_ret, ret.
    simpl. rewrite Hoff. simpl. fold f.
    destruct (updateExisting routineId f (idb w)) as [updated|]; simpl.
    + eexists. split; [reflexivity|]. simpl.
      rewrite decide_True by (apply Hfound; eauto).
      rewrite Hsave. repeat split.
      rewrite !remoteCalls_app. simpl. by rewrite !app_nil_r.
    + eexists. split; [reflexivity|]. simpl.
      rewrite decide_False by (intros Hin; apply Hfound in Hin; by destruct Hin).
      repeat split; [by apply remoteCalls_quiet|exact Hsave].
Qed.

End HookProperties.

Section BulkImportProperties.
Context `{Js.Numeric} (ilike : string → string → bool).
Context {G D : Type} (gw : Hook.Gateway G D).

(** What the import reports.  The hook's [bulkImportSlots] never throws:
    offline the report is the one error that the import is not available,
    and nothing else happens; an exception of the service becomes the one
    error of the report; otherwise the report is the one of the service.  In
    the service, an unknown routine id is reported as the one error [Invalid
    routine ID]; a row that makes the processing throw (a row without
    teacher) is reported as an error of its own while the batch goes on; an
    insert that fails together with its fallback is reported as a [Database
    error] after the errors of the rows, with no success counted.  No time
    is a validation error: the row is handed to the insert with its times
    as [convertTo24HourFormat] returns them, which is as they were written
    when the conversion throws. *)
Lemma bulkImportSlots_reports
    (load : bool → bool → Hook.M unit) (routineId : string)
    (slotsData : list Service.ImportRow) (w : Hook.World G D) :
  (∃ report w',
     Hook.bulkImportSlots gw load routineId slotsData w = (Ok report, w') ∧
     (Hook.isOffline w = true →
      report = Service.mkReport 0
                 ["Bulk import is not available in offline mode"] ∧
      w' = w) ∧
     (Hook.isOffline w = false →
      ∀ msg g,
        Hook.bulkImportRoutineSlotsService gw routineId slotsData
          (Hook.remote w) = (Throw msg, g) →
        report = Service.mkReport 0
                   [if Js.truthy msg then msg
                    else "Failed to import slots"]) ∧
     (Hook.isOffline w = false →
      ∀ served g w1,
        Hook.bulkImportRoutineSlotsService gw routineId slotsData
          (Hook.remote w) = (Ok served, g) →
        load true false
             (Hook.set_remote g
                (Hook.add_event
                   (Hook.Remote
                      (Hook.BulkImportRoutineSlots routineId slotsData))
                   w)) = (Ok (), w1) →
        report = served)) ∧
  (∀ d, Forall (λ r, Db.id r ≠ routineId) (Db.routines d) →
     (Service.bulkImportRoutineSlots ilike routineId slotsData d).1
       = Service.mkReport 0 ["Invalid routine ID: Routine not found"]) ∧
  (∀ index slot st,
     Js.orNull (Service._teacherId slot) = None →
     Service.teacher slot = None →
     let st' := Service.process_slot ilike routineId index slot st in
     Service.processedSlots st' = Service.processedSlots st ∧
     Service.import_errors st' = Service.import_errors st ++
       ["Error processing slot #" +:+ pretty (index + 1) +:+ ": " +:+
        Service.teacher_undefined_message]) ∧
  (∀ d found d1 m1 m2,
     Service.select_routine routineId d = (Some found, d1) →
     let st := Service.process_slots ilike routineId 0 slotsData
                 (Service.mkImportState d1 ∅ ∅ [] []) in
     Service.processedSlots st ≠ [] →
     Db.faults (Service.db st) (Db.requests (Service.db st)) = Some m1 →
     Db.faults (Service.db st) (S (Db.requests (Service.db st))) = Some m2 →
     (Service.bulkImportRoutineSlots ilike routineId slotsData d).1
       = Service.mkReport 0
           (Service.import_errors st ++
            ["Database error during import: " +:+ m2])) ∧
  (∀ index slot st,
     is_Some (Js.orNull (Service._teacherId slot)) ∨
       is_Some (Service.teacher slot) →
     Forall (λ e, Db.routine_id e ≠ routineId ∨
                  Db.day_of_week e ≠ Service.day slot)
            (Db.routine_slots (Service.db st)) →
     let st' := Service.process_slot ilike routineId index slot st in
     Service.import_errors st' = Service.import_errors st ∧
     ∃ row,
       Service.processedSlots st' = Service.processedSlots st ++ [row] ∧
       Db.start_time row
         = Service.convertTo24HourFormat (Service.start_time slot) ∧
       Db.end_time row
         = Service.convertTo24HourFormat (Service.end_time slot) ∧
       (Service.unconvertible (Service.start_time slot) = true →
        Db.start_time row = Service.start_time slot) ∧
       (Service.unconvertible (Service.end_time slot) = true →
        Db.end_time row = Service.end_time slot)).
Proof.
  split; [|split; [|split; [|split]]].
  - destruct (bulkImportSlots_result gw load routineId slotsData w)
      as (report & w' & Hrun & Hoffline & Hthrows & Hserved).
    exists report, w'. auto.
  - intros d Hunknown.
    by apply bulkImportRoutineSlots_unknown_routine.
  - intros index slot st Hid Hteacher.
    by apply process_slot_without_teacher.
  - intros d found d1 m1 m2 Hfound st Hrows Hfirst Hsecond.
    by eapply bulkImportRoutineSlots_insert_failure.
  - intros index slot st Hteacher Hfree.
    destruct (process_slot_pushes ilike routineId index slot st Hteacher Hfree)
      as (Herrors & row & Hrows & Hs & He).
    split; [exact Herrors|]. exists row. split; [exact Hrows|].
    split; [exact Hs|]. split; [exact He|].
    rewrite Hs, He. split; by apply convertTo24HourFormat_unconvertible.
Qed.

End BulkImportProperties.

(** * The properties at concrete worlds *)

Section Concrete.
Import Hook.


(** The test of the cache branch is that some routine has slots: a store
    in which one routine has none and another has one is served from the
    cache while the timestamp is valid, without any request. *)
Lemma loadRoutines_serves_mixed_cache :
  let store := [Double.routine "r1" true;
                Routine.with_slots [Double.slot "s2" "r2"]
                                   (Double.routine "r2" false)] in
  let w := Double.world false store (Some 999000%Z) in
  let w' := (loadRoutines Double.reliable false false w).2 in
  routines w' = store ∧ remoteCalls (log w') = [] ∧ error w' = None.
Proof. vm_compute. auto. Qed.





(** C3. The temporary id of a routine created offline is sent to the
    gateway as the id of an existing routine: by the pass that follows an
    offline delete of the routine (a [DeleteRoutine] of the temporary id,
    and no create), and by the pass that follows an offline activation
    (an [ActivateRoutine] of the temporary id, before the create). *)
Theorem temporary_id_reaches_gateway :
  (∃ routine, createdOffline.1 = Ok routine ∧
              Routine.id routine = temporaryId) ∧
  isTempId temporaryId = true ∧
  (let deletedOffline :=
     (deleteRoutine Double.reliable temporaryId createdOffline.2).2 in
   remoteCalls
     (log (syncOfflineChanges Double.reliable
             (set_isOffline false deletedOffline)).2)
   = [DeleteRoutine temporaryId]) ∧
  (let activatedOffline :=
     (activateRoutine Double.reliable temporaryId createdOffline.2).2 in
   ∃ payload,
     remoteCalls
       (log (syncOfflineChanges Double.reliable
               (set_isOffline false activatedOffline)).2)
     = [ActivateRoutine temporaryId; CreateRoutine payload]).
Proof.
  split; [eexists; split; vm_compute; reflexivity|].
  split; [reflexivity|].
  split; [vm_compute; reflexivity|].
  eexists. vm_compute. reflexivity.
Qed.

(** With the store as modelled, the routine of the temporary id is still in
    the Local Store after the pass that created it on the server: the pass
    saves the routines it has synchronised and removes none. *)
Lemma temporary_routine_survives_sync :
  Routine.id <$>
    idb (syncOfflineChanges Double.reliable
           (set_isOffline false createdOffline.2)).2
  = [temporaryId; "srv-0"].
Proof. vm_compute. reflexivity. Qed.

(** C4. Deleted while offline, a routine that still carries [_isOffline]
    stays in the Local Store with [_isOffline] and [_isOfflineDeleted] both
    set, whereas a slot that carries [_isOffline] is removed from it. *)
Theorem offline_delete_keeps_unsynced_routine :
  (let w := (deleteRoutine Double.reliable temporaryId createdOffline.2).2 in
   (λ r, (Routine.id r, Routine._isOffline r, Routine._isOfflineDeleted r))
     <$> idb w = [(temporaryId, true, true)]) ∧
  (let w := (deleteRoutineSlot Double.reliable "B" "temp-slot-1"
                               ownerOffline).2 in
   Routine.slots <$> idb ownerOffline = [[offlineSlot]] ∧
   Routine.slots <$> idb w = [[]]).
Proof. split; vm_compute; auto. Qed.

Lemma twoRoutines_NoDup : NoDup (Routine.id <$> idb twoRoutines).
Proof.
  apply NoDup_cons. split; [|apply NoDup_singleton].
  intros [=]%list_elem_of_singleton.
Qed.

Lemma activateRoutine_single_active_witness :
  let before :=
    activateCalls Double.reliable [(true, "A"); (false, "B")] twoRoutines in
  let call :=
    activateRoutine Double.reliable "A" (set_isOffline true before) in
  (call.1 = Ok () → activeIds (idb call.2) = ["A"]) ∧
  (call.1 ≠ Ok () →
   true = false ∧ idb call.2 = idb before ∧
   ∃ msg, call.1 = Throw msg ∧ error call.2 = Some msg).
Proof.
  apply (activateRoutine_single_active Double.reliable
           [(true, "A"); (false, "B")] true "A" twoRoutines).
  - exact twoRoutines_NoDup.
  - apply elem_of_cons. by left.
Defined.

(** C6, as stated, fails: when the second update of the service's
    [activateRoutine] fails, the call throws and the first update stays:
    no routine is active on the backend. *)
Lemma activateRoutine_failure_leaves_none_active :
  Db.is_active <$> Db.routines backendTwoRoutines = [true; false] ∧
  (Service.activateRoutine "B" backendTwoRoutines).1
    = Throw "connection lost" ∧
  Db.is_active <$>
    Db.routines (Service.activateRoutine "B" backendTwoRoutines).2
    = [false; false].
Proof. vm_compute. auto. Qed.

(** C9, as stated, fails: the offline activation of "B" clears the
    [_needsActivationSync] that an earlier offline activation left on
    "A". *)
Lemma activateRoutine_offline_clears_other_marker :
  let marker r := (Routine.id r, Routine._needsActivationSync r) in
  marker <$> idb twoRoutines = [("A", true); ("B", false)] ∧
  marker <$> idb (activateRoutine Double.reliable "B" twoRoutines).2
    = [("A", false); ("B", true)].
Proof. vm_compute. auto. Qed.

Lemma activateRoutine_offline_frame_witness :
  let call := activateRoutine Double.reliable "B" twoRoutines in
  call.1 = Ok () ∧
  remote call.2 = remote twoRoutines ∧
  remoteCalls (log call.2) = remoteCalls (log twoRoutines) ∧
  length (idb call.2) = length (idb twoRoutines).
Proof.
  destruct (activateRoutine_offline_frame Double.reliable "B" twoRoutines
              eq_refl twoRoutines_NoDup)
    as (Hok & Hremote & Hcalls & Hlength & _).
  auto.
Defined.

(** C1. The conflict filter is not the overlap of the specification: it
    joins its two comparisons by [or], so that a slot from 14:00 to 15:00 is
    in conflict with one from 09:00 to 10:00.  And the rows of one import
    are checked against the backend before any of them is inserted: two
    overlapping rows imported together into a routine without slots are both
    inserted, with no error.  Imported one after the other, the second row
    is rejected, but so is the second row of the pair that does not
    overlap. *)
Theorem bulkImport_conflict_detection :
  (Service.conflict_filter "r1" "Monday" "14:00:00" "15:00:00" mondayNine
     = true ∧
   Service.spec_overlap "14:00:00" "15:00:00" mondayNine = false) ∧
  (import "r1" [importRow "Monday" "09:00 AM" "10:00 AM";
                importRow "Monday" "09:30 AM" "10:30 AM"] backendEmpty).1
    = Service.mkReport 2 [] ∧
  (import "r1" [importRow "Monday" "09:00 AM" "10:00 AM";
                importRow "Monday" "10:00 AM" "11:00 AM"] backendEmpty).1
    = Service.mkReport 2 [] ∧
  (import "r1" [importRow "Monday" "09:30 AM" "10:30 AM"] backendMonday).1
    = Service.mkReport 0
        ["Slot #1: Time conflict with existing slot on Monday at 09:30 AM - 10:30 AM"] ∧
  (import "r1" [importRow "Monday" "02:00 PM" "03:00 PM"] backendMonday).1
    = Service.mkReport 0
        ["Slot #1: Time conflict with existing slot on Monday at 02:00 PM - 03:00 PM"] ∧
  (let first :=
     import "r1" [importRow "Monday" "09:00 AM" "10:00 AM"] backendEmpty in
   let second :=
     import "r1" [importRow "Monday" "10:00 AM" "11:00 AM"] first.2 in
   Db.routine_slots first.2 = [mondayNine] ∧
   first.1 = Service.mkReport 1 [] ∧
   second.1 = Service.mkReport 0
     ["Slot #1: Time conflict with existing slot on Monday at 10:00 AM - 11:00 AM"]).
Proof. vm_compute. repeat split. Qed.

(** The conversion on times of 12 hours, on times it gives back as they
    are, and on malformed times with a space and a colon, which it
    reformats. *)
Lemma convertTo24HourFormat_samples :
  @Service.convertTo24HourFormat Js.DecimalNumeric <$>
    ["09:30 AM"; "12:15 AM"; "1:05 pm"; "12:00 PM";
     "09:30"; "9 PM"; "noon";
     "9:xx PM"; "25:99 XM"]
  = ["09:30:00"; "00:15:00"; "13:05:00"; "12:00:00";
     "09:30"; "9 PM"; "noon";
     "21:NaN:00"; "25:99:00"].
Proof. vm_compute. reflexivity. Qed.

(** ** The conversion of times *)

(** A fact of every hour of the 12-hour clock and every minute, checked
    hour by hour and minute by minute. *)
Lemma by_clock_table (L R : nat → nat → string) :
  forallb (λ h, forallb (λ m, String.eqb (L h m) (R h m)) (seq 0 60))
          (seq 1 12) = true →
  ∀ h m, 1 ≤ h ≤ 12 → m < 60 → L h m = R h m.
Proof.
  intros Htable h m Hh Hm. rewrite forallb_forall in Htable.
  specialize (Htable h). rewrite in_seq, forallb_forall in Htable.
  specialize (Htable ltac:(lia) m). rewrite in_seq in Htable.
  apply String.eqb_eq, Htable. lia.
Qed.

(** X20. [convertTo24HourFormat] converts the 12-hour clock correctly: for
    every hour from 1 to 12, written with or without a leading zero, every
    minute, and [AM] or [PM] in any letter case, the result is the time on
    24 hours with seconds, zero-padded ([12:mm AM] is [00:mm:00], [12:mm PM]
    is [12:mm:00], every other [PM] hour gets 12 added). *)
Theorem convertTo24HourFormat_twelve_hour_clock (h m : nat) :
  1 ≤ h ≤ 12 → m < 60 →
  let convert := @Service.convertTo24HourFormat Js.DecimalNumeric in
  let minutes := Js.padStart2 (pretty m) in
  let on24 hours :=
    Js.padStart2 (pretty hours) +:+ ":" +:+ minutes +:+ ":00" in
  Forall (λ hours,
    Forall (λ am, convert (hours +:+ ":" +:+ minutes +:+ " " +:+ am)
                  = on24 (if (h =? 12)%nat then 0 else h))
           ["AM"; "am"; "Am"; "aM"] ∧
    Forall (λ pm, convert (hours +:+ ":" +:+ minutes +:+ " " +:+ pm)
                  = on24 (if (h =? 12)%nat then 12 else h + 12))
           ["PM"; "pm"; "Pm"; "pM"])
    [pretty h; Js.padStart2 (pretty h)].
Proof.
  intros Hh Hm. cbv zeta.
  repeat (first [apply Forall_cons; split | apply Forall_nil | split]);
    revert h m Hh Hm; apply by_clock_table; vm_compute; reflexivity.
Qed.

Lemma convertTo24HourFormat_twelve_hour_clock_witness :
  1 ≤ 12 ≤ 12 ∧ 5 < 60 ∧
  @Service.convertTo24HourFormat Js.DecimalNumeric "12:05 AM" = "00:05:00" ∧
  @Service.convertTo24HourFormat Js.DecimalNumeric "12:05 pm" = "12:05:00".
Proof.
  split; [lia|]. split; [lia|].
  pose proof (convertTo24HourFormat_twelve_hour_clock 12 5
                ltac:(lia) ltac:(lia)) as Htable.
  cbv zeta in Htable.
  apply Forall_cons in Htable as [[Ham Hpm] _].
  apply Forall_cons in Ham as [Ham _].
  apply Forall_cons in Hpm as [_ Hpm]. apply Forall_cons in Hpm as [Hpm _].
  split; [exact Ham | exact Hpm].
Defined.

(** ** The mutations and the passes *)

Lemma createRoutine_offline_is_local_witness :
  isOffline (Double.world true [] None : World Double.Backend unit) = true ∧
  ∃ created w',
    createRoutine Double.reliable (Double.routine "" false) "k3x9q2a"
                  "2024-01-01T00:00:00.000Z" (Double.world true [] None)
      = (Ok created, w') ∧
    isTempId (Routine.id created) = true ∧
    Routine._isOffline created = true ∧
    routines w' = [created] ∧
    remoteCalls (log w') = [].
Proof.
  split; [reflexivity|].
  destruct (createRoutine_offline_is_local Double.reliable
              (Double.routine "" false) "k3x9q2a" "2024-01-01T00:00:00.000Z"
              (Double.world true [] None) eq_refl)
    as (created & w' & Hrun & Htemp & Hmark & _ & _ & _ & Hshown & _ & _ & _
        & Hlog).
  exists created, w'. repeat split; assumption.
Defined.

Lemma online_mutation_failure_changes_nothing_witness :
  isOffline staleCache = false ∧
  ∃ w', deleteRoutine Double.unreachable "r1" staleCache
          = (Throw "network error", w') ∧
        error w' = Some "network error" ∧
        routines w' = [cachedRoutine] ∧ idb w' = [cachedRoutine].
Proof.
  split; [reflexivity|].
  destruct (online_mutation_failure_changes_nothing Double.unreachable
              staleCache eq_refl) as (_ & _ & Hdelete & _).
  destruct (Hdelete "r1" "network error" _ eq_refl)
    as (w' & Hrun & Herror & Hshown & Hstore & _).
  exists w'. repeat split; assumption.
Defined.

Lemma deleteRoutine_online_removes_witness :
  isOffline staleCache = false ∧
  ∃ w', deleteRoutine Double.reliable "r1" staleCache = (Ok (), w') ∧
        ("r1" ∉ Routine.id <$> routines w') ∧
        ("r1" ∉ Routine.id <$> idb w') ∧
        lastFetched w' = Some 1000000%Z ∧
        remoteCalls (log w') = [DeleteRoutine "r1"].
Proof.
  split; [reflexivity|].
  destruct (deleteRoutine_online_removes Double.reliable "r1" staleCache _
              eq_refl eq_refl)
    as (w' & Hrun & Hshown & _ & Hstore & _ & _ & Htime & _ & _ & Hlog).
  exists w'. repeat split; assumption.
Defined.

Lemma deleteRoutineSlot_offline_marks_or_drops_witness :
  isOffline ownerOffline = true ∧
  NoDup (Routine.id <$> idb ownerOffline) ∧
  ∃ w', deleteRoutineSlot Double.reliable "B" "temp-slot-1" ownerOffline
          = (Ok (), w') ∧
        remoteCalls (log w') = [] ∧
        Routine.id <$> routines w' = ["B"].
Proof.
  split; [reflexivity|].
  assert (Hdistinct : NoDup (Routine.id <$> idb ownerOffline))
    by (apply (bool_decide_unpack _); reflexivity).
  split; [exact Hdistinct|].
  destruct (deleteRoutineSlot_offline_marks_or_drops Double.reliable
              "B" "temp-slot-1" ownerOffline eq_refl Hdistinct)
    as (w' & Hrun & _ & Hlog & _ & Hids & _).
  exists w'. repeat split; assumption.
Defined.

Lemma syncOfflineChanges_sends_what_is_marked_witness :
  isOffline pendingOnline = false ∧ syncInProgress pendingOnline = false ∧
  ∃ calls,
    remoteCalls (log (syncOfflineChanges Double.reliable pendingOnline).2)
      = calls ∧
    ∀ c, c ∈ calls ↔
         ∃ routine, routine ∈ idb pendingOnline ∧ justifies routine c.
Proof.
  split; [reflexivity|]. split; [reflexivity|].
  destruct (syncOfflineChanges_sends_what_is_marked Double.reliable
              pendingOnline eq_refl eq_refl) as (calls & Hlog & Hcalls).
  exists calls. split; assumption.
Defined.

Lemma deactivateRoutine_offline_frame_witness :
  isOffline twoRoutines = true ∧
  NoDup (Routine.id <$> idb twoRoutines) ∧
  ∃ w', deactivateRoutine Double.reliable "A" twoRoutines = (Ok (), w') ∧
        remoteCalls (log w') = [].
Proof.
  split; [reflexivity|].
  assert (Hdistinct : NoDup (Routine.id <$> idb twoRoutines))
    by (apply (bool_decide_unpack _); reflexivity).
  split; [exact Hdistinct|].
  destruct (deactivateRoutine_offline_frame Double.reliable "A" twoRoutines
              eq_refl Hdistinct) as (w' & Hrun & _ & Hlog & _).
  exists w'. split; assumption.
Defined.

Lemma offline_deactivation_after_activation_witness :
  isOffline secondActive = true ∧ syncInProgress secondActive = false ∧
  NoDup (Routine.id <$> idb secondActive) ∧
  ∃ calls,
    remoteCalls
      (log (syncOfflineChanges Double.reliable
              (set_isOffline false
                 (deactivateRoutine Double.reliable "A"
                    (activateRoutine Double.reliable "A" secondActive).2).2)).2)
      = calls ∧
    ActivateRoutine "A" ∈ calls ∧ DeactivateRoutine "A" ∉ calls.
Proof.
  split; [reflexivity|]. split; [reflexivity|].
  assert (Hdistinct : NoDup (Routine.id <$> idb secondActive))
    by (apply (bool_decide_unpack _); reflexivity).
  split; [exact Hdistinct|].
  assert (Hstored : ∃ r, r ∈ idb secondActive ∧ Routine.id r = "A" ∧
                         Routine._isOfflineDeleted r = false).
  { exists (Double.routine "A" false). split; [|split; reflexivity].
    apply list_elem_of_here. }
  destruct (offline_deactivation_after_activation Double.reliable "A"
              secondActive eq_refl eq_refl Hdistinct Hstored)
    as (_ & calls & Hlog & Hactivate & Hdeactivate).
  exists calls. repeat split; assumption.
Defined.

Lemma syncOfflineChanges_without_changes_witness :
  isOffline staleCache = false ∧ syncInProgress staleCache = false ∧
  Forall (λ r, routinePending r = false) (idb staleCache) ∧
  syncOfflineChanges Double.reliable staleCache
    = (Ok (), add_event StoreRead staleCache).
Proof.
  split; [reflexivity|]. split; [reflexivity|].
  assert (Hclean : Forall (λ r, routinePending r = false) (idb staleCache))
    by (repeat constructor).
  split; [exact Hclean|].
  exact (syncOfflineChanges_without_changes Double.reliable staleCache
           eq_refl eq_refl Hclean).
Defined.

Lemma unreachable_rejectsWrites : rejectsWrites Double.unreachable.
Proof. repeat split; intros; eexists _, _; reflexivity. Qed.

Lemma syncOfflineChanges_fails_silently_witness :
  isOffline pendingOnline = false ∧ syncInProgress pendingOnline = false ∧
  ∃ w', syncOfflineChanges Double.unreachable pendingOnline = (Ok (), w') ∧
        hookState w' = hookState pendingOnline.
Proof.
  split; [reflexivity|]. split; [reflexivity|].
  destruct (syncOfflineChanges_fails_silently Double.unreachable
              pendingOnline eq_refl eq_refl unreachable_rejectsWrites)
    as (w' & Hrun & Hstate & _).
  exists w'. split; assumption.
Defined.

Lemma loadRoutines_offline_shows_store_witness :
  isOffline ownerOffline = true ∧
  ∃ w', loadRoutines Double.reliable false false ownerOffline = (Ok (), w') ∧
        routines w' = [slotOwner] ∧ remoteCalls (log w') = [].
Proof.
  split; [reflexivity|].
  destruct (loadRoutines_offline_shows_store Double.reliable false false
              ownerOffline eq_refl)
    as [(w' & Hrun & Hshown & _ & _ & _ & _ & Hlog & _) _].
  exists w'. repeat split; assumption.
Defined.

Lemma loadRoutines_cache_contract_witness :
  isOffline freshCache = false ∧
  servesCache (cacheDurationMs false) false false freshCache = true ∧
  ∃ w', loadRoutines Double.reliable false false freshCache = (Ok (), w') ∧
        routines w' = [cachedRoutine] ∧ remoteCalls (log w') = [].
Proof.
  split; [reflexivity|]. split; [reflexivity|].
  destruct (loadRoutines_cache_contract Double.reliable false false
              freshCache eq_refl) as (_ & Hserved & _).
  destruct (Hserved eq_refl)
    as (w' & Hrun & Hshown & _ & _ & _ & _ & _ & Hlog).
  exists w'. repeat split; assumption.
Defined.

Lemma addRoutineSlot_offline_witness :
  isOffline twoRoutines = true ∧
  NoDup (Routine.id <$> idb twoRoutines) ∧
  (∃ w', addRoutineSlot Double.reliable "C" (Double.slot "" "") "k3x9q2a"
                        "2024-01-01T00:00:00.000Z" twoRoutines
           = (Throw "Routine not found", w') ∧
         idb w' = idb twoRoutines) ∧
  (∃ created w',
     addRoutineSlot Double.reliable "B" (Double.slot "" "") "k3x9q2a"
                    "2024-01-01T00:00:00.000Z" twoRoutines
       = (Ok created, w') ∧
     isTempId (Slot.id created) = true ∧ Slot.routineId created = "B").
Proof.
  split; [reflexivity|].
  assert (Hdistinct : NoDup (Routine.id <$> idb twoRoutines))
    by (apply (bool_decide_unpack _); reflexivity).
  split; [exact Hdistinct|]. split.
  - destruct (addRoutineSlot_offline Double.reliable "C" (Double.slot "" "")
                "k3x9q2a" "2024-01-01T00:00:00.000Z" twoRoutines eq_refl
                Hdistinct) as [Hunknown _].
    destruct Hunknown as (w' & Hrun & _ & _ & Hstore & _).
    { apply (bool_decide_unpack _). reflexivity. }
    exists w'. split; assumption.
  - destruct (addRoutineSlot_offline Double.reliable "B" (Double.slot "" "")
                "k3x9q2a" "2024-01-01T00:00:00.000Z" twoRoutines eq_refl
                Hdistinct) as [_ Hknown].
    destruct Hknown as (created & w' & Hrun & _ & Htemp & _ & Hid & _).
    { apply (bool_decide_unpack _). reflexivity. }
    exists created, w'. repeat split; assumption.
Defined.

Lemma offline_slot_added_then_deleted_witness :
  isOffline twoRoutines = true ∧
  NoDup (Routine.id <$> idb twoRoutines) ∧
  ∃ created w1 w2,
    addRoutineSlot Double.reliable "B" (Double.slot "" "") "k3x9q2a"
                   "2024-01-01T00:00:00.000Z" twoRoutines = (Ok created, w1) ∧
    deleteRoutineSlot Double.reliable "B" (Slot.id created) w1 = (Ok (), w2) ∧
    idb w2 = idb twoRoutines ∧ routines w2 = routines twoRoutines.
Proof.
  split; [reflexivity|].
  assert (Hdistinct : NoDup (Routine.id <$> idb twoRoutines))
    by (apply (bool_decide_unpack _); reflexivity).
  split; [exact Hdistinct|].
  destruct (offline_slot_added_then_deleted Double.reliable "B"
              (Double.slot "" "") "k3x9q2a" "2024-01-01T00:00:00.000Z"
              twoRoutines eq_refl Hdistinct)
    as (created & w1 & w2 & Hadd & Hdelete & Hstore & Hshown & _).
  - apply (bool_decide_unpack _). reflexivity.
  - repeat constructor.
  - repeat constructor.
  - exists created, w1, w2. repeat split; assumption.
Defined.

Lemma offline_deleted_routine_returns_on_reload_witness :
  isOffline twoRoutines = true ∧
  ("B" ∈ Routine.id <$> idb twoRoutines) ∧
  ∃ w1 w2,
    deleteRoutine Double.reliable "B" twoRoutines = (Ok (), w1) ∧
    loadRoutines Double.reliable false false w1 = (Ok (), w2) ∧
    ("B" ∉ Routine.id <$> routines w1) ∧
    ("B" ∈ Routine.id <$> routines w2).
Proof.
  split; [reflexivity|].
  assert (Hstored : "B" ∈ Routine.id <$> idb twoRoutines)
    by (apply (bool_decide_unpack _); reflexivity).
  split; [exact Hstored|].
  destruct (offline_deleted_routine_returns_on_reload Double.reliable "B"
              false false twoRoutines eq_refl Hstored)
    as (w1 & w2 & Hdelete & Hload & Hgone & (r & _ & Hid & Hback) & _).
  exists w1, w2. repeat split; try assumption.
  rewrite <- Hid.
  exact (list_elem_of_fmap_2 Routine.id _ _ Hback).
Defined.

Lemma offline_updates_mark_the_store_witness :
  isOffline ownerOffline = true ∧
  NoDup (Routine.id <$> idb ownerOffline) ∧
  (∃ w', updateRoutine Double.reliable "B"
           (Routine.mkPatch None (Some "Evening") None None None None None
                            None None None None None None) ownerOffline
           = (Ok (), w') ∧
         remoteCalls (log w') = []) ∧
  (∃ w', updateRoutineSlot Double.reliable "B" "temp-slot-1"
           (Slot.mkPatch None None (Some "Friday") None None None None None
                         None None None None None None None None)
           ownerOffline
           = (Ok (), w') ∧
         remoteCalls (log w') = []).
Proof.
  split; [reflexivity|].
  assert (Hdistinct : NoDup (Routine.id <$> idb ownerOffline))
    by (apply (bool_decide_unpack _); reflexivity).
  split; [exact Hdistinct|].
  destruct (offline_updates_mark_the_store Double.reliable ownerOffline
              eq_refl Hdistinct) as [Hroutine Hslot].
  split.
  - destruct (Hroutine "B"
                (Routine.mkPatch None (Some "Evening") None None None None
                                 None None None None None None None) eq_refl)
      as (w' & Hrun & _ & _ & Hlog & _).
    exists w'. split; assumption.
  - destruct (Hslot "B" "temp-slot-1"
                (Slot.mkPatch None None (Some "Friday") None None None None
                              None None None None None None None None None))
      as (w' & Hrun & _ & _ & Hlog & _).
    exists w'. split; assumption.
Defined.

(** ** Two invocations of one closure *)

(** C8. [syncOfflineChanges] is not single-flight.  The function is its
    guard on what its render has captured, followed by the pass; the guard
    reads the [syncInProgress] of that render, not the state of the hook.
    Two invocations of the function of one render, made while the hook is
    online and no pass is in progress, both pass the guard, so that two
    passes are in flight at once, with the flag set by the first; each of
    them reads the Local Store.  Only the function made by a later render is
    stopped by the flag. *)
Theorem syncOfflineChanges_guard_is_stale :
  (∀ (G D : Type) (gw : Gateway G D) (w : World G D),
     syncOfflineChanges gw w
     = match syncEnterOf (render w) w with
       | Some entered => syncPass gw entered
       | None => (Ok (), w)
       end) ∧
  (∀ (G D : Type) (gw : Gateway G D) (w : World G D),
     isOffline w = false → syncInProgress w = false →
     let first := runFlights gw [Invoke] w in
     let second := runFlights gw [Invoke; Invoke] w in
     inFlight first = 1 ∧ syncInProgress (hook first) = true ∧
     inFlight second = 2) ∧
  (let s := runFlights Double.reliable [Invoke; Invoke; Settle; Settle]
                       staleCache in
   inFlight s = 0 ∧ log (hook s) = [StoreRead; StoreRead]) ∧
  inFlight (runFlights Double.reliable [Invoke; Rerender; Invoke] staleCache)
    = 1.
Proof.
  split; [|split; [|split]].
  - intros G D gw w. rewrite syncOfflineChanges_enter. unfold syncEnter.
    by destruct (syncEnterOf (render w) w).
  - intros G D gw w Hon Hidle. cbv zeta.
    unfold runFlights, flightStep, syncEnterOf, render. simpl.
    rewrite Hon, Hidle. simpl. rewrite ?Hon, ?Hidle. by simpl.
  - vm_compute. by split.
  - vm_compute. reflexivity.
Qed.

(** ** A time that is not a time *)

(** C10. A time that cannot be parsed is not always handed on as it was
    written.  The [try] block of [convertTo24HourFormat] does not throw on
    [9:xx PM], which has a space and a colon: the conversion returns
    [21:NaN:00], and the import stores the row with that text as its start
    time and counts it as a success, without an error. *)
Theorem bulkImport_rewrites_unparseable_time :
  Service.unconvertible "9:xx PM" = false ∧
  @Service.convertTo24HourFormat Js.DecimalNumeric "9:xx PM" = "21:NaN:00" ∧
  let run := import "r1" [importRow "Monday" "9:xx PM" "10:00 PM"]
                    backendEmpty in
  run.1 = Service.mkReport 1 [] ∧
  (λ row, (Db.day_of_week row, Db.start_time row, Db.end_time row))
    <$> Db.routine_slots run.2
  = [("Monday", "21:NaN:00", "22:00:00")].
Proof. vm_compute. repeat split. Qed.

End Concrete.

(** * The diagnostics *)

Section DiagnosticsProperties.
Import Diagnostics.
Context {B : Type} (probe : Table → B → Probe * B).

Lemma access_setAccess t t' v r :
  access t' (setAccess t v r) = if decide (t' = t) then v else access t' r.
Proof. by destruct t, t'. Qed.

Lemma access_pushIssue t issue r : access t (pushIssue issue r) = access t r.
Proof. by destruct t. Qed.

Lemma issues_setAccess t v r : issues (setAccess t v r) = issues r.
Proof. by destruct t. Qed.

(** The probes of [tables], none of which has been probed yet. *)
Lemma runProbes_spec (tables : list Table) (r : Results) (b : B) :
  NoDup tables →
  (∀ t, t ∈ tables → access t r = false) →
  let r' := (runProbes probe tables r b).1 in
  (∀ t, t ∉ tables → access t r' = access t r) ∧
  (∀ t, t ∈ tables → access t r' = true →
        ∃ b0, (probe t b0).1 = Answered None) ∧
  ∃ new, issues r' = issues r ++ new ∧ length new ≤ length tables ∧
         (new = [] ↔ ∀ t, t ∈ tables → access t r' = true).
Proof.
  cbv zeta. revert r b.
  induction tables as [|t rest IH]; intros r b Hnodup Hfresh; simpl.
  { split; [done|]. split; [by intros t Hin%elem_of_nil|].
    exists []. rewrite app_nil_r. split; [done|]. split; [done|].
    split; [by intros _ t Hin%elem_of_nil|done]. }
  apply NoDup_cons in Hnodup as [Hhead Hnodup].
  destruct (probe t b) as [[error|msg] b1] eqn:Hprobe; simpl.
  - set (r1 := match error with
               | Some msg => pushIssue (failure t +:+ msg) _
               | None => setAccess t _ r
               end).
    assert (Haccess : ∀ t', access t' r1
                      = if decide (t' = t) then negb (bool_decide (is_Some error))
                        else access t' r).
    { intros t'. unfold r1. destruct error;
        rewrite ?access_pushIssue; apply access_setAccess. }
    assert (Hissues : issues r1 = issues r
                      ++ match error with
                         | Some msg => [failure t +:+ msg]
                         | None => []
                         end).
    { unfold r1. destruct error; simpl;
        rewrite ?issues_setAccess; [done|by rewrite app_nil_r]. }
    destruct (IH r1 b1 Hnodup) as (Hkept & Hsent & new & Hnew & Hlen & Hiff).
    { intros t' Hin. rewrite Haccess, decide_False; [|by intros ->].
      apply Hfresh, elem_of_cons. by right. }
    assert (Hhere : access t (runProbes probe rest r1 b1).1
                    = negb (bool_decide (is_Some error))).
    { by rewrite (Hkept t Hhead), Haccess, decide_True. }
    split; [|split].
    + intros t' Hout. apply not_elem_of_cons in Hout as [Hne Hout].
      by rewrite (Hkept t' Hout), Haccess, decide_False.
    + intros t' [->|Hin]%elem_of_cons Htrue; [|by apply Hsent].
      rewrite Hhere in Htrue. destruct error; [done|].
      exists b. by rewrite Hprobe.
    + rewrite Hnew, Hissues, <- app_assoc. eexists. split; [reflexivity|].
      split; [rewrite length_app; destruct error; simpl; lia|].
      split.
      * intros Hnone t' [->|Hin]%elem_of_cons.
        -- rewrite Hhere. by destruct error.
        -- apply Hiff; [|done]. by destruct error.
      * intros Hall. pose proof (Hall t ltac:(by left)) as Htrue.
        rewrite Hhere in Htrue. destruct error; [done|]. simpl.
        apply Hiff. intros t' Hin. apply Hall, elem_of_cons. by right.
  - split; [|split].
    + intros t' _. apply access_pushIssue.
    + intros t' Hin. rewrite access_pushIssue, (Hfresh t' Hin). done.
    + eexists. split; [reflexivity|]. split; [simpl; lia|].
      split; [done|]. intros Hall. specialize (Hall t ltac:(by left)).
      rewrite access_pushIssue, Hfresh in Hall; [done|by left].
Qed.

(** X21. [runServiceDiagnostics] reports an issue for every probe that does
    not succeed, and only then: whatever the five probes answer, and if one
    of them throws, the list [issues] is empty exactly when the five access
    flags are all true; it holds five issues at most; and a flag is true
    only if the probe of its table was sent and answered without error.
    (The function itself never throws.) *)
Theorem runServiceDiagnostics_issues_iff_failure (b : B) :
  let r := (runServiceDiagnostics probe b).1 in
  (issues r = [] ↔
   supabaseConnection r = true ∧ routineTableAccess r = true ∧
   routineSlotsTableAccess r = true ∧ teachersTableAccess r = true ∧
   coursesTableAccess r = true) ∧
  length (issues r) ≤ 5 ∧
  ∀ t, access t r = true → ∃ b0, (probe t b0).1 = Answered None.
Proof.
  cbv zeta. unfold runServiceDiagnostics.
  pose proof (runProbes_spec
                [Health; Routines; RoutineSlots; Teachers; Courses] initial b)
    as Hspec.
  cbv zeta in Hspec. remember (runProbes probe _ initial b).1 as r eqn:Hr.
  clear Hr. destruct Hspec as (_ & Hsent & new & Hnew & Hlen & Hiff).
  { by apply (bool_decide_unpack _). }
  { by intros []. }
  change (issues initial ++ new) with new in Hnew. rewrite Hnew.
  split; [|split; [done|]].
  - rewrite Hiff. split.
    + intros Hall. repeat split.
      * apply (Hall Health). repeat constructor.
      * apply (Hall Routines). repeat constructor.
      * apply (Hall RoutineSlots). repeat constructor.
      * apply (Hall Teachers). repeat constructor.
      * apply (Hall Courses). repeat constructor.
    + by intros (? & ? & ? & ? & ?) [] _.
  - intros t. apply Hsent. destruct t; repeat constructor.
Qed.

End DiagnosticsProperties.

(** * The routine page *)

Section PageProperties.
Import Page.







Lemma find_first {A} (p : A → bool) (l : list A) (x : A) :
  find p l = Some x →
  ∃ before after, l = before ++ x :: after ∧ p x = true ∧
                  Forall (λ y, p y = false) before.
Proof.
  induction l as [|y l IH]; [done|]. simpl.
  destruct (p y) eqn:Hy.
  - intros [= ->]. by exists [], l.
  - intros (before & after & -> & Hx & Hbefore)%IH.
    exists (y :: before), after. repeat split; [done|by constructor].
Qed.

(** X23. Which routine the page shows.  A selection made by id is binding:
    the routine shown is the first routine of that id, and when no routine
    has it, none is shown, even if there are routines, active ones included.
    Without a selection the page shows the first active routine (every
    routine listed before it is inactive), or the first routine when none is
    active, and shows none only when there is no routine at all. *)
Theorem currentRoutine_selection (routines : list Routine.t)
    (selectedRoutineId : string) :
  let current := currentRoutine routines selectedRoutineId in
  (∀ r, current = Some r → r ∈ routines) ∧
  (selectedRoutineId ≠ "" →
   (∀ r, current = Some r →
         Routine.id r = selectedRoutineId ∧
         ∃ before after,
           routines = before ++ r :: after ∧
           Forall (λ x, Routine.id x ≠ selectedRoutineId) before) ∧
   (current = None ↔ selectedRoutineId ∉ Routine.id <$> routines)) ∧
  (selectedRoutineId = "" →
   (current = None ↔ routines = []) ∧
   (∀ r, current = Some r →
         (Routine.isActive r = true ∧
          ∃ before after,
            routines = before ++ r :: after ∧
            Forall (λ x, Routine.isActive x = false) before) ∨
         (Forall (λ x, Routine.isActive x = false) routines ∧
          head routines = Some r))).
Proof.
  cbv zeta. unfold currentRoutine. split; [|split].
  - intros r. destruct (Js.truthy selectedRoutineId).
    + intros [Hin _]%find_some. by apply list_elem_of_In.
    + destruct (find Routine.isActive routines) eqn:Hactive.
      * intros [= <-]. apply find_some in Hactive as [Hin _].
        by apply list_elem_of_In.
      * destruct routines; [done|]. intros [= <-]. by left.
  - intros Hselected.
    assert (Js.truthy selectedRoutineId = true) as ->
      by by destruct selectedRoutineId.
    split.
    + intros r (before & after & Hsplit & Hid & Hbefore)%find_first.
      apply bool_decide_eq_true in Hid. split; [exact Hid|].
      exists before, after. split; [exact Hsplit|].
      eapply Forall_impl; [exact Hbefore|]. intros x Hx.
      by apply bool_decide_eq_false in Hx.
    + split.
      * intros Hnone (r & Hid & Hin)%list_elem_of_fmap.
        eapply find_none in Hnone; [|by apply list_elem_of_In].
        simpl in Hnone. by rewrite bool_decide_true in Hnone.
      * intros Hout. destruct (find _ routines) as [r|] eqn:Hfound; [|done].
        apply find_some in Hfound as [Hin Hid].
        apply bool_decide_eq_true in Hid. destruct Hout. rewrite <- Hid.
        by apply list_elem_of_fmap_2, list_elem_of_In.
  - intros ->. simpl.
    destruct (find Routine.isActive routines) as [active|] eqn:Hactive.
    + split.
      * split; [done|]. intros ->. done.
      * intros r [= <-]. left.
        apply find_first in Hactive as (before & after & Hsplit & Hr & Hbefore).
        split; [exact Hr|]. by exists before, after.
    + split.
      * by destruct routines.
      * intros r Hhead. right. split; [|done]. apply Forall_forall.
        intros x Hin%list_elem_of_In.
        eapply find_none in Hactive; [|exact Hin]. done.
Qed.

End PageProperties.

(** * The routine service, seen from its requests *)

Section RoutineServiceProperties.
Import RoutineService.
Context {B : Type} (client : Client B).

Lemma fetchSlotsSeparately_spec row b :
  let row' := (fetchSlotsSeparately client row b).1 in
  row'.1 = row.1 ∧ (hasSlots row = true → row' = row).
Proof.
  cbv zeta. unfold fetchSlotsSeparately.
  destruct (hasSlots row) eqn:Hhas; [done|].
  split; [|done]. by repeat case_match.
Qed.

Lemma fetchMissingSlots_spec rows b :
  Forall2 (λ row row', row'.1 = row.1 ∧ (hasSlots row = true → row' = row))
          rows (fetchMissingSlots client rows b).1.
Proof.
  revert b. induction rows as [|row rows IH]; intros b; [by constructor|].
  simpl. pose proof (fetchSlotsSeparately_spec row b) as Hrow.
  destruct (fetchSlotsSeparately client row b) as [row' b1].
  specialize (IH b1). destruct (fetchMissingSlots client rows b1) as [rest b2].
  by constructor.
Qed.

Lemma lookupAll_answers {A} ids
    (query : list string → B → answer (list A) * B) b :
  (∀ ids b0 msg b1, query ids b0 ≠ (Rejects msg, b1)) →
  ∃ found b', lookupAll ids query b = (Ok found, b').
Proof.
  intros Hanswers. unfold lookupAll. destruct ids as [|i ids]; [by eexists _, _|].
  destruct (query (i :: ids) b) as [[data error|msg] b'] eqn:Hquery.
  - by eexists _, _.
  - by apply Hanswers in Hquery.
Qed.

(** X24. Reading the routines survives the failure of every secondary
    query.  Once the query on the routines has answered with rows, and as
    long as the queries on courses and teachers answer at all (with data or
    with an error), the result is one routine per row, in the order of the
    rows, with the fields of its row and without any mark of a pending
    change; every slot carries the id of the routine it is listed under, and
    the slots that came embedded in the row are kept one for one with their
    id, day and times.  The answers of the queries on the slots of single
    routines, errors included, never make the call fail. *)
Theorem fetchRoutines_survives_secondary_failures (b b1 : B)
    (rows : list RoutineWithSlots) :
  selectRoutinesWithSlots client b = (Response (Some rows) None, b1) →
  (∀ ids b0 msg b2, selectCoursesIn client ids b0 ≠ (Rejects msg, b2)) →
  (∀ ids b0 msg b2, selectTeachersIn client ids b0 ≠ (Rejects msg, b2)) →
  ∃ routines b',
    fetchRoutines client b = (Ok routines, b') ∧
    Forall2
      (λ row r,
         Routine.id r = Db.id row.1 ∧ Routine.name r = Db.name row.1 ∧
         Routine.semester r = Db.semester row.1 ∧
         Routine.isActive r = Db.is_active row.1 ∧
         Hook.routinePending r = false ∧
         Forall (λ s, Slot.routineId s = Db.id row.1 ∧ Slot.pending s = false)
                (Routine.slots r) ∧
         (hasSlots row = true →
          Forall2 (λ raw s, Slot.id s = Hook.raw_id raw ∧
                            Slot.dayOfWeek s = Hook.raw_day_of_week raw ∧
                            Slot.startTime s = Hook.raw_start_time raw ∧
                            Slot.endTime s = Hook.raw_end_time raw)
                  (default [] row.2) (Routine.slots r)))
      rows routines.
Proof.
  intros Hrows Hcourses Hteachers. unfold fetchRoutines. rewrite Hrows.
  destruct rows as [|row0 rows0]; [by eexists [], _|].
  set (rows := row0 :: rows0).
  set (fetched := if (length (List.filter hasSlots rows) <? length rows)%nat
                  then fetchMissingSlots client rows b1 else (rows, b1)).
  assert (Hfetched : Forall2 (λ row row', row'.1 = row.1 ∧
                               (hasSlots row = true → row' = row))
                             rows fetched.1).
  { unfold fetched. case_match; [apply fetchMissingSlots_spec|].
    simpl. by apply Forall_Forall2_diag, Forall_true. }
  destruct fetched as [routines b2]. simpl in Hfetched.
  edestruct (lookupAll_answers (A:=Db.CourseRow)) as (cs & b3 & ->);
    [exact Hcourses|].
  edestruct (lookupAll_answers (A:=Db.TeacherRow)) as (ts & b4 & ->);
    [exact Hteachers|].
  eexists _, _. split; [done|]. apply Forall2_fmap_r.
  eapply Forall2_impl; [exact Hfetched|]. clear.
  intros row row' [Hrow Hsame]. unfold mapRoutine. simpl. rewrite Hrow.
  do 4 (split; [done|]). split; [|split].
  - unfold Hook.routinePending. simpl.
    by induction (default [] row'.2) as [|raw raws IH].
  - apply Forall_fmap, Forall_true. by intros raw.
  - intros ->%Hsame. apply Forall2_fmap_r, Forall_Forall2_diag, Forall_true.
    by intros raw.
Qed.

(** X25. Adding a slot through the service.  The routine id, the day, the
    start and the end are required, in this order, and a missing one fails
    with its own message before any request is sent.  A slot is returned
    only for a row that an insert stored for the given routine, day and
    times, unchanged; the slot returned has the id of that row, keeps a
    course or teacher name that was given, and is not marked as pending. *)
Theorem service_addRoutineSlot_contract (routineId : string) (slot : Slot.t)
    (b : B) :
  let run := addRoutineSlot client routineId slot b in
  (routineId = "" → run = (Throw "Missing routine ID", b)) ∧
  (routineId ≠ "" → Slot.dayOfWeek slot = "" →
   run = (Throw "Day of week is required", b)) ∧
  (routineId ≠ "" → Slot.dayOfWeek slot ≠ "" → Slot.startTime slot = "" →
   run = (Throw "Start time is required", b)) ∧
  (routineId ≠ "" → Slot.dayOfWeek slot ≠ "" → Slot.startTime slot ≠ "" →
   Slot.endTime slot = "" → run = (Throw "End time is required", b)) ∧
  ∀ created b', run = (Ok created, b') →
    (Slot.courseName slot ≠ "" →
     Slot.courseName created = Slot.courseName slot) ∧
    (Slot.teacherName slot ≠ "" →
     Slot.teacherName created = Slot.teacherName slot) ∧
    Slot.pending created = false ∧
    ∃ row data b0,
      insertSlot client row b0 = (Response (Some data) None, b') ∧
      Db.routine_id row = routineId ∧
      Db.day_of_week row = Slot.dayOfWeek slot ∧
      Db.start_time row = Slot.startTime slot ∧
      Db.end_time row = Slot.endTime slot ∧
      Slot.id created = Hook.raw_id data.
Proof.
  cbv zeta. unfold addRoutineSlot.
  assert (Htruthy : ∀ s, Js.truthy s = false ↔ s = "") by (by intros []).
  split; [by intros ->|].
  destruct (Js.truthy routineId) eqn:Hid; simpl;
    [|apply Htruthy in Hid; repeat split; done].
  split; [by intros _ ->|].
  destruct (Js.truthy (Slot.dayOfWeek slot)) eqn:Hday; simpl;
    [|apply Htruthy in Hday; repeat split; done].
  split; [by intros _ _ ->|].
  destruct (Js.truthy (Slot.startTime slot)) eqn:Hstart; simpl;
    [|apply Htruthy in Hstart; repeat split; done].
  split; [by intros _ _ _ ->|].
  destruct (Js.truthy (Slot.endTime slot)) eqn:Hend; simpl; [|done].
  intros created b'.
  assert (Hname : ∀ given id query b0 name b1,
            resolveName (B:=B) given id query b0 = (Ok name, b1) →
            given ≠ "" → name = given).
  { intros given id query b0 name b1. unfold resolveName.
    destruct given; [done|]. rewrite andb_false_r. by intros [= <- _]. }
  destruct (resolveName (Slot.courseName slot) _ _ b)
    as [[courseName|?] b1] eqn:Hcourse; [|done].
  destruct (resolveName (Slot.teacherName slot) _ _ b1)
    as [[teacherName|?] b2] eqn:Hteacher; [|done].
  pose proof (Hname _ _ _ _ _ _ Hcourse) as Hc.
  pose proof (Hname _ _ _ _ _ _ Hteacher) as Ht.
  destruct (insertSlot client _ b2) as [[[data|] [error|]|msg] b3] eqn:Hinsert;
    try done.
  - destruct (missingNameColumns (message error)); [|done].
    destruct (insertSlot client (Service.fallbackSlot _) b3)
      as [[[data'|] [error'|]|msg] b4] eqn:Hfallback; try done.
    intros [= <- <-]. repeat split; try done.
    eexists _, _, _. by split; [exact Hfallback|].
  - intros [= <- <-]. repeat split; try done.
    eexists _, _, _. by split; [exact Hinsert|].
  - destruct (missingNameColumns (message error)); [|done].
    destruct (insertSlot client (Service.fallbackSlot _) b3)
      as [[[data'|] [error'|]|msg] b4] eqn:Hfallback; try done.
    intros [= <- <-]. repeat split; try done.
    eexists _, _, _. by split; [exact Hfallback|].
Qed.

(** X26. The service reports a slot as deleted only on evidence that it is
    gone.  When [deleteRoutineSlot] returns normally, both ids were given and
    the last request was the select of the slot by id and routine, which
    answered that there is no such row: with no data and no error, or with
    the error code PGRST116.  An answer of the delete request alone is never
    taken as success. *)
Theorem service_deleteRoutineSlot_needs_evidence (routineId slotId : string)
    (b b' : B) :
  deleteRoutineSlot client routineId slotId b = (Ok (), b') →
  routineId ≠ "" ∧ slotId ≠ "" ∧
  ∃ b0, reportsAbsent (selectSlotId client slotId routineId b0).1 ∧
        (selectSlotId client slotId routineId b0).2 = b' ∧
        (b0 = b ∨ ∃ b1 data, deleteSlot client slotId routineId b1
                             = (Response data None, b0)).
Proof.
  unfold deleteRoutineSlot.
  destruct routineId as [|a routineId]; [done|].
  destruct slotId as [|a' slotId]; [done|]. simpl.
  set (rid := String a routineId). set (sid := String a' slotId).
  intros Hrun. split; [done|]. split; [done|].
  destruct (selectSlotId client sid rid b)
    as [[[found|] [fetchError|]|msg] b1] eqn:Hfirst; try done.
  - destruct (notFound fetchError) eqn:Hcode; [|done].
    injection Hrun as <-. exists b. rewrite Hfirst. simpl. by eauto.
  - destruct (deleteSlot client sid rid b1)
      as [[data [error|]|msg] b2] eqn:Hdelete; try done.
    destruct (selectSlotId client sid rid b2)
      as [[checkSlot [checkError|]|msg] b3] eqn:Hcheck; try done.
    + destruct (notFound checkError) eqn:Hcode; [|done]. simpl in Hrun.
      destruct checkSlot; [done|]. injection Hrun as <-.
      exists b2. rewrite Hcheck. simpl. by eauto 10.
    + destruct checkSlot; [done|]. injection Hrun as <-.
      exists b2. rewrite Hcheck. simpl. by eauto 10.
  - destruct (notFound fetchError) eqn:Hcode; [|done].
    injection Hrun as <-. exists b. rewrite Hfirst. simpl. by eauto.
  - injection Hrun as <-. exists b. rewrite Hfirst. simpl. by eauto.
Qed.

Lemma remove_dups_sublist (l : list string) : remove_dups l `sublist_of` l.
Proof.
  induction l as [|x l IH]; [done|]. simpl.
  case_decide; by constructor.
Qed.

Lemma reverse_sublist (l k : list string) :
  l `sublist_of` k → reverse l `sublist_of` reverse k.
Proof.
  induction 1 as [|x l k _ IH|x l k _ IH]; [done| |].
  - rewrite !reverse_cons. by apply sublist_app.
  - rewrite reverse_cons. by apply sublist_inserts_r.
Qed.

Lemma uniqueIds_spec (ids : list string) :
  NoDup (Hook.uniqueIds ids) ∧ Hook.uniqueIds ids `sublist_of` ids ∧
  ∀ i, i ∈ Hook.uniqueIds ids ↔ i ∈ ids.
Proof.
  unfold Hook.uniqueIds. split; [|split].
  - rewrite reverse_Permutation. apply NoDup_remove_dups.
  - rewrite <- (reverse_involutive ids) at 2.
    apply reverse_sublist, remove_dups_sublist.
  - intros i. by rewrite elem_of_reverse, elem_of_remove_dups, elem_of_reverse.
Qed.

(** X27. The list of semesters names every semester of the answer once, in
    the order of the answer, and nothing else; a failed request gives the
    empty list instead of an error. *)
Theorem getAllSemesters_distinct (b : B) :
  let semesters := (getAllSemesters client b).1 in
  NoDup semesters ∧
  (∀ data b',
     selectSemesters client b = (Response (Some data) None, b') →
     semesters `sublist_of` data ∧ ∀ s, s ∈ semesters ↔ s ∈ data) ∧
  (∀ data error b',
     selectSemesters client b = (Response data (Some error), b') →
     semesters = []) ∧
  (∀ msg b', selectSemesters client b = (Rejects msg, b') → semesters = []).
Proof.
  cbv zeta. unfold getAllSemesters. split; [|split; [|split]].
  - destruct (selectSemesters client b) as [[data [error|]|msg] b'];
      simpl; try apply NoDup_nil_2. apply uniqueIds_spec.
  - intros data b' ->. simpl. split; apply uniqueIds_spec.
  - by intros data error b' ->.
  - by intros msg b' ->.
Qed.

End RoutineServiceProperties.

Lemma fetchRoutines_survives_secondary_failures_witness :
  ∃ routines b',
    RoutineService.fetchRoutines tableClient tableMonday = (Ok routines, b') ∧
    Routine.id <$> routines = ["r1"] ∧
    Forall (λ r, Forall (λ s, Slot.routineId s = "r1") (Routine.slots r))
           routines.
Proof.
  destruct (fetchRoutines_survives_secondary_failures tableClient
              tableMonday tableMonday [(backendRoutine, Some [mondaySlot])])
    as (routines & b' & Hrun & Hrows); [reflexivity|done|done|].
  exists routines, b'. split; [exact Hrun|].
  apply Forall2_cons_inv_l in Hrows as (r & rest & Hr & ->%Forall2_nil_inv_l & ->).
  destruct Hr as (Hid & _ & _ & _ & _ & Hslots & _).
  split; [simpl; f_equal; exact Hid|].
  constructor; [|constructor].
  eapply Forall_impl; [exact Hslots|]. by intros s [? _].
Defined.

Lemma service_deleteRoutineSlot_needs_evidence_witness :
  RoutineService.deleteRoutineSlot tableClient "r1" "s1" tableMonday
    = (Ok (), []) ∧
  ∃ b0, RoutineService.reportsAbsent
          (RoutineService.selectSlotId tableClient "s1" "r1" b0).1.
Proof.
  split; [reflexivity|].
  destruct (service_deleteRoutineSlot_needs_evidence tableClient "r1" "s1"
              tableMonday [] eq_refl) as (_ & _ & b0 & Habsent & _).
  by exists b0.
Defined.
